(** * TecXLCEM: collaboration core (src/main.py) and maintenance agent
      (src/agent.py), embedded as pure state-passing functions.

    Conventions of the embedding.
    - A UUID is its 128-bit value, kept as an [N].
    - Instants ([datetime.utcnow()], [NOW()], Redis' clock) are whole seconds
      since 0001-01-01T00:00:00, the first instant a [datetime] can hold, kept
      as a [Z]; every call runs at one instant, the [utcnow] field of the
      world it is applied to.
    - [uuid4()] is an oracle: the identifier it draws is an explicit first
      argument of the function that calls it.
    - A coroutine is run to completion: one call is one state transition. *)

From Stdlib Require Import ZArith List String Reals Lra Lia.
From stdpp Require Import gmap strings list fin_maps sorting.

Local Open Scope string_scope.
Local Open Scope list_scope.
Local Open Scope Z_scope.

(** ** Shared vocabulary *)

Definition UUID := N.

(** What a Python call does: it returns a value or raises. *)
Inductive outcome (A : Type) : Type :=
| Ret (a : A)
| Raise (err : string).
Arguments Ret {A} a.
Arguments Raise {A} err.

(** What a FastAPI handler answers: the body, or the [HTTPException]. *)
Inductive http_response (A : Type) : Type :=
| HttpOk (body : A)
| HttpError (status_code : nat) (detail : string).
Arguments HttpOk {A} body.
Arguments HttpError {A} status_code detail.

(** Dynamic JSON payloads ([operation_data], [vector_clock], cursor positions). *)
#[warnings="-register-all"] Inductive json : Type :=
| JNull
| JBool (b : bool)
| JNum (z : Z)
| JStr (s : string)
| JArr (items : list json)
| JObj (fields : list (string * json)).

Module Main.

(** ** Persistent and cached state *)

(** The JSON document [lock_data] that [acquire_lock] stores in Redis. *)
Record lock_data : Type := LockData {
  ld_lock_id : UUID;
  ld_twin_id : UUID;
  ld_user_id : UUID;
  ld_session_id : UUID;
  ld_components : list string;
  ld_lock_type : string;
  ld_acquired_at : Z;
  ld_expires_at : Z
}.

(** Modelled from the spec: the DDL of [edit_locks] is not part of the
    sources; the columns the INSERT of [acquire_lock] leaves out take their
    defaults, an edit lock being born active ([is_active = TRUE]) with
    [heartbeat_at] the instant of the insert. A value of this record is one
    row of the table. *)
Record edit_lock : Type := EditLock {
  el_lock_id : UUID;
  el_twin_id : UUID;
  el_user_id : UUID;
  el_session_id : UUID;
  el_lock_type : string;
  el_locked_components : list string;
  el_expires_at : Z;
  el_heartbeat_at : Z;
  el_is_active : bool
}.

(** The pydantic model [EditOperation]. *)
Record EditOperation : Type := MkEditOperation {
  eo_twin_id : UUID;
  eo_operation_type : string;
  eo_component_path : string;
  eo_operation_data : json;
  eo_vector_clock : option json
}.

(** A row of the SQL table [edit_operations]. *)
Record edit_operation_row : Type := EditOperationRow {
  er_operation_id : UUID;
  er_twin_id : UUID;
  er_user_id : UUID;
  er_operation_type : string;
  er_component_path : string;
  er_operation_data : json;
  er_vector_clock : json
}.

(** The tables the handlers below touch, rows in insertion order. *)
Record DatabasePool : Type := MkDatabase {
  edit_locks : list edit_lock;
  edit_operations : list edit_operation_row
}.

(** Server-to-client frames. *)
Inductive frame : Type :=
| FrSubscribed (twin_id : UUID)
| FrPong
| FrPing
| FrCursorUpdate (user_id : UUID) (position : json)
| FrEditOperation (operation_id : UUID) (user_id : UUID) (operation : EditOperation).

(** A transport: the frames it has delivered, oldest first, and whether it is
    still open ([send_json] raises on a transport that is not). *)
Record WebSocket : Type := MkWebSocket {
  ws_sent : list frame;
  ws_open : bool
}.

(** What [json.dumps] takes. The envelope of an edit operation carries
    [operation.dict()], in which [twin_id] is still a [uuid.UUID] object, and
    the encoder has no default for it; the other frames are made of strings
    and of JSON that was decoded from a request. *)
Definition json_serializable (message : frame) : bool :=
  match message with
  | FrEditOperation _ _ _ => false
  | FrSubscribed _ | FrPong | FrPing | FrCursorUpdate _ _ => true
  end.

(** [send_json]: the message is encoded first, which raises [TypeError] on
    what [json.dumps] does not take; the text is then delivered on an open
    transport, and the send raises on any other. *)
Definition send_json (message : frame) (websocket : WebSocket) : outcome WebSocket :=
  if negb (json_serializable message)
  then Raise "Object of type UUID is not JSON serializable"
  else if ws_open websocket
  then Ret {| ws_sent := ws_sent websocket ++ [message]; ws_open := true |}
  else Raise "WebSocket is not connected".

(** ** ConnectionManager *)

Module ConnectionManager.

(** The three dictionaries of the class; session ids are [str]. *)
Record t : Type := Make {
  active_connections : gmap string WebSocket;
  user_sessions : gmap UUID (gset string);
  twin_subscribers : gmap UUID (gset string)
}.

Definition init : t :=
  {| active_connections := ∅; user_sessions := ∅; twin_subscribers := ∅ |}.

Definition connect (websocket : WebSocket) (session_id : string) (user_id : UUID)
    (self : t) : t :=
  {| active_connections := <[session_id := websocket]> (active_connections self);
     user_sessions :=
       <[user_id := default ∅ (user_sessions self !! user_id) ∪ {[session_id]}]>
         (user_sessions self);
     twin_subscribers := twin_subscribers self |}.

Definition disconnect (session_id : string) (user_id : UUID) (self : t) : t :=
  {| active_connections := delete session_id (active_connections self);
     user_sessions :=
       match user_sessions self !! user_id with
       | Some sessions =>
           let sessions' := sessions ∖ {[session_id]} in
           if bool_decide (sessions' = ∅) then delete user_id (user_sessions self)
           else <[user_id := sessions']> (user_sessions self)
       | None => user_sessions self
       end;
     twin_subscribers := (fun subscribers => subscribers ∖ {[session_id]})
                           <$> twin_subscribers self |}.

Definition subscribe_to_twin (session_id : string) (twin_id : UUID) (self : t) : t :=
  {| active_connections := active_connections self;
     user_sessions := user_sessions self;
     twin_subscribers :=
       <[twin_id := default ∅ (twin_subscribers self !! twin_id) ∪ {[session_id]}]>
         (twin_subscribers self) |}.

Definition unsubscribe_from_twin (session_id : string) (twin_id : UUID) (self : t) : t :=
  {| active_connections := active_connections self;
     user_sessions := user_sessions self;
     twin_subscribers :=
       match twin_subscribers self !! twin_id with
       | Some subscribers => <[twin_id := subscribers ∖ {[session_id]}]> (twin_subscribers self)
       | None => twin_subscribers self
       end |}.

(** One turn of the [for session_id in self.twin_subscribers[twin_id]] loop:
    the connections so far and the [disconnected] list so far. *)
Definition broadcast_step (message : frame) (exclude_session : option string)
    (acc : gmap string WebSocket * list string) (session_id : string)
  : gmap string WebSocket * list string :=
  if bool_decide (Some session_id = exclude_session) then acc
  else match acc.1 !! session_id with
       | Some websocket =>
           match send_json message websocket with
           | Ret websocket' => (<[session_id := websocket']> acc.1, acc.2)
           | Raise _ => (acc.1, acc.2 ++ [session_id])
           end
       | None => acc
       end.

(** The subscribers are a Python [set]: the loop visits each once, in the
    order [elements] lists them. *)
Definition broadcast_to_twin (twin_id : UUID) (message : frame)
    (exclude_session : option string) (self : t) : t :=
  match twin_subscribers self !! twin_id with
  | None => self
  | Some subscribers =>
      let acc := foldl (broadcast_step message exclude_session)
                       (active_connections self, []) (elements subscribers) in
      {| active_connections := acc.1;
         user_sessions := user_sessions self;
         twin_subscribers :=
           <[twin_id := foldl (fun subs session_id => subs ∖ {[session_id]})
                              subscribers acc.2]>
             (twin_subscribers self) |}
  end.

Definition send_personal_message (session_id : string) (message : frame) (self : t)
  : outcome t :=
  match active_connections self !! session_id with
  | Some websocket =>
      match send_json message websocket with
      | Ret websocket' =>
          Ret {| active_connections := <[session_id := websocket']> (active_connections self);
                 user_sessions := user_sessions self;
                 twin_subscribers := twin_subscribers self |}
      | Raise e => Raise e
      end
  | None => Ret self
  end.

Definition get_connection_count (self : t) : nat := size (active_connections self).

End ConnectionManager.

(** The process: SQL, Redis (one entry per key [lock:twin:<twin_id>], which is
    injective in the twin id, each with the instant its TTL runs out), the
    connection manager and the clock. *)
Record World : Type := MkWorld {
  db : DatabasePool;
  cache : gmap UUID (lock_data * Z);
  manager : ConnectionManager.t;
  utcnow : Z
}.

Definition set_db (d : DatabasePool) (w : World) : World :=
  {| db := d; cache := cache w; manager := manager w; utcnow := utcnow w |}.
Definition set_cache (c : gmap UUID (lock_data * Z)) (w : World) : World :=
  {| db := db w; cache := c; manager := manager w; utcnow := utcnow w |}.
Definition set_manager (m : ConnectionManager.t) (w : World) : World :=
  {| db := db w; cache := cache w; manager := m; utcnow := utcnow w |}.
Definition set_utcnow (t : Z) (w : World) : World :=
  {| db := db w; cache := cache w; manager := manager w; utcnow := t |}.

(** ** The clock *)

(** The last whole second a [datetime] can hold, 9999-12-31T23:59:59. *)
Definition datetime_max : Z := 315537897599.

(** [t + timedelta(seconds=seconds)] for an instant [t]: [OverflowError]
    when the sum is not an instant a [datetime] can hold (a [timedelta] too
    large to exist takes the sum out of the range as well). *)
Definition datetime_add (t seconds : Z) : outcome Z :=
  if bool_decide (0 <= t + seconds ∧ t + seconds <= datetime_max)
  then Ret (t + seconds)
  else Raise "date value out of range".

(** ** Redis commands *)

(** A key is live until its TTL has run out. *)
Definition redis_live (w : World) (key : UUID) : option lock_data :=
  match cache w !! key with
  | Some (v, expiry) => if bool_decide (utcnow w < expiry) then Some v else None
  | None => None
  end.

(** [GET key]. *)
Definition redis_get (key : UUID) (w : World) : option lock_data :=
  redis_live w key.

(** [SET key value NX EX ex]: the server rejects a non-positive expire time
    before it looks at the key; otherwise the value is stored, with its TTL,
    only when no live value is. *)
Definition redis_set_nx_ex (key : UUID) (value : lock_data) (ex : Z) (w : World)
  : outcome bool * World :=
  if bool_decide (ex <= 0) then (Raise "invalid expire time in 'set' command", w)
  else match redis_live w key with
       | Some _ => (Ret false, w)
       | None => (Ret true, set_cache (<[key := (value, utcnow w + ex)]> (cache w)) w)
       end.

(** [DEL key]. *)
Definition redis_delete (key : UUID) (w : World) : World :=
  set_cache (delete key (cache w)) w.

(** [EXPIRE key seconds]: restarts the TTL of a live key, and does nothing to
    a key that is gone; a non-positive TTL deletes the key. *)
Definition redis_expire (key : UUID) (seconds : Z) (w : World) : World :=
  match redis_live w key with
  | Some v =>
      if bool_decide (seconds <= 0) then set_cache (delete key (cache w)) w
      else set_cache (<[key := (v, utcnow w + seconds)]> (cache w)) w
  | None => w
  end.

(** ** SQL statements on [edit_locks] *)

(** [SELECT ... FROM edit_locks WHERE lock_id = $1] through [fetchrow]. *)
Definition fetchrow_edit_lock (lock_id : UUID) (d : DatabasePool) : option edit_lock :=
  List.find (fun r => bool_decide (el_lock_id r = lock_id)) (edit_locks d).

Definition insert_edit_lock (r : edit_lock) (d : DatabasePool) : DatabasePool :=
  {| edit_locks := edit_locks d ++ [r]; edit_operations := edit_operations d |}.

Definition deactivate (r : edit_lock) : edit_lock :=
  {| el_lock_id := el_lock_id r; el_twin_id := el_twin_id r;
     el_user_id := el_user_id r; el_session_id := el_session_id r;
     el_lock_type := el_lock_type r;
     el_locked_components := el_locked_components r;
     el_expires_at := el_expires_at r; el_heartbeat_at := el_heartbeat_at r;
     el_is_active := false |}.

Definition touch (t : Z) (r : edit_lock) : edit_lock :=
  {| el_lock_id := el_lock_id r; el_twin_id := el_twin_id r;
     el_user_id := el_user_id r; el_session_id := el_session_id r;
     el_lock_type := el_lock_type r;
     el_locked_components := el_locked_components r;
     el_expires_at := el_expires_at r; el_heartbeat_at := t;
     el_is_active := el_is_active r |}.

(** [UPDATE edit_locks SET is_active = FALSE WHERE lock_id = $1]. *)
Definition update_set_inactive (lock_id : UUID) (d : DatabasePool) : DatabasePool :=
  {| edit_locks :=
       map (fun r => if bool_decide (el_lock_id r = lock_id) then deactivate r else r)
           (edit_locks d);
     edit_operations := edit_operations d |}.

(** [UPDATE edit_locks SET heartbeat_at = NOW()
     WHERE lock_id = $1 AND is_active = TRUE]. *)
Definition update_heartbeat (lock_id : UUID) (t : Z) (d : DatabasePool) : DatabasePool :=
  {| edit_locks :=
       map (fun r => if bool_decide (el_lock_id r = lock_id) && el_is_active r
                     then touch t r else r)
           (edit_locks d);
     edit_operations := edit_operations d |}.

(** ** LockManager *)

Module LockManager.

(** [locked_components & requested_components], as a truth value. *)
Definition components_overlap (locked requested : list string) : bool :=
  bool_decide ((list_to_set locked : gset string) ∩ list_to_set requested ≠ ∅).

(** The two early [return None] of [acquire_lock], taken on the record read
    from Redis. Past them, [expires_at] is computed before Redis is asked to
    set the key, so a TTL that takes the expiry out of [datetime]'s range
    raises with nothing written. *)
Definition existing_conflicts (existing_data : lock_data)
    (components : list string) (lock_type : string) : bool :=
  if bool_decide (lock_type = "exclusive")
     && components_overlap (ld_components existing_data) components
  then true
  else bool_decide (ld_lock_type existing_data = "exclusive").

Definition acquire_lock (lock_id : UUID) (twin_id user_id session_id : UUID)
    (components : list string) (lock_type : string) (timeout : Z) (w : World)
  : outcome (option UUID) * World :=
  let conflict :=
    match redis_get twin_id w with
    | Some existing_data => existing_conflicts existing_data components lock_type
    | None => false
    end in
  if conflict then (Ret None, w)
  else
    match datetime_add (utcnow w) timeout with
    | Raise e => (Raise e, w)
    | Ret expires_at =>
        let lock_data :=
          {| ld_lock_id := lock_id; ld_twin_id := twin_id; ld_user_id := user_id;
             ld_session_id := session_id; ld_components := components;
             ld_lock_type := lock_type; ld_acquired_at := utcnow w;
             ld_expires_at := expires_at |} in
        match redis_set_nx_ex twin_id lock_data timeout w with
        | (Raise e, w') => (Raise e, w')
        | (Ret false, w') => (Ret None, w')
        | (Ret true, w') =>
            let row :=
              {| el_lock_id := lock_id; el_twin_id := twin_id;
                 el_user_id := user_id; el_session_id := session_id;
                 el_lock_type := lock_type; el_locked_components := components;
                 el_expires_at := expires_at;
                 el_heartbeat_at := utcnow w; el_is_active := true |} in
            (Ret (Some lock_id), set_db (insert_edit_lock row (db w')) w')
        end
    end.

Definition release_lock (lock_id : UUID) (w : World) : bool * World :=
  match fetchrow_edit_lock lock_id (db w) with
  | None => (false, w)
  | Some lock =>
      let w1 := redis_delete (el_twin_id lock) w in
      (true, set_db (update_set_inactive lock_id (db w1)) w1)
  end.

(** [heartbeat_lock] has no [return]: its value is Python's [None], which
    [tt] stands for. *)
Definition heartbeat_lock (lock_id : UUID) (w : World) : unit * World :=
  let w1 := set_db (update_heartbeat lock_id (utcnow w) (db w)) w in
  match fetchrow_edit_lock lock_id (db w1) with
  | Some lock => (tt, redis_expire (el_twin_id lock) 300 w1)
  | None => (tt, w1)
  end.

End LockManager.

(** Time passing between two calls. *)
Definition sleep (seconds : Z) (w : World) : World :=
  set_utcnow (utcnow w + seconds) w.

(** ** HTTP handlers

    [current_user] is the caller [get_current_user] has authenticated. *)

(** [DELETE /locks/{lock_id}]. *)
Definition release_lock (lock_id : UUID) (current_user : UUID) (w : World)
  : http_response string * World :=
  match LockManager.release_lock lock_id w with
  | (true, w') => (HttpOk "released", w')
  | (false, w') => (HttpError 404 "Lock not found", w')
  end.

Definition insert_edit_operation (r : edit_operation_row) (d : DatabasePool)
  : DatabasePool :=
  {| edit_locks := edit_locks d; edit_operations := edit_operations d ++ [r] |}.

(** [POST /edit-operations]: the INSERT, then the broadcast, then the body. *)
Definition submit_edit_operation (operation_id : UUID) (operation : EditOperation)
    (current_user : UUID) (w : World) : http_response UUID * World :=
  let row :=
    {| er_operation_id := operation_id; er_twin_id := eo_twin_id operation;
       er_user_id := current_user;
       er_operation_type := eo_operation_type operation;
       er_component_path := eo_component_path operation;
       er_operation_data := eo_operation_data operation;
       er_vector_clock := default (JObj []) (eo_vector_clock operation) |} in
  let w1 := set_db (insert_edit_operation row (db w)) w in
  let w2 :=
    set_manager
      (ConnectionManager.broadcast_to_twin (eo_twin_id operation)
         (FrEditOperation operation_id current_user operation) None (manager w1))
      w1 in
  (HttpOk operation_id, w2).

(** ** Vocabulary of the properties *)

(** The active edit locks: the rows of [edit_locks] with [is_active]. *)
Definition active_lock (w : World) (r : edit_lock) : Prop :=
  r ∈ edit_locks (db w) ∧ el_is_active r = true.

(** The caller holds an active lock on the twin whose component set covers
    [component_path]. *)
Definition holds_covering_lock (w : World) (user_id twin_id : UUID)
    (component_path : string) : Prop :=
  ∃ r, active_lock w r ∧ el_user_id r = user_id ∧ el_twin_id r = twin_id
       ∧ component_path ∈ el_locked_components r.

(** The conflict rules in the specification's words, against one holder: an
    exclusive request conflicts with any holder of an overlapping component,
    a shared request with an exclusive holder of an overlapping component. *)
Definition spec_conflict (holder : lock_data) (components : list string)
    (lock_type : string) : bool :=
  (bool_decide (lock_type = "exclusive")
   && LockManager.components_overlap (ld_components holder) components)
  || (bool_decide (lock_type = "shared")
      && bool_decide (ld_lock_type holder = "exclusive")
      && LockManager.components_overlap (ld_components holder) components).

(** Two different active exclusive locks of one twin share a component. *)
Definition exclusive_clash (w : World) (r1 r2 : edit_lock) : Prop :=
  active_lock w r1 ∧ active_lock w r2 ∧ el_lock_id r1 ≠ el_lock_id r2
  ∧ el_twin_id r1 = el_twin_id r2
  ∧ el_lock_type r1 = "exclusive" ∧ el_lock_type r2 = "exclusive"
  ∧ ∃ c, c ∈ el_locked_components r1 ∧ c ∈ el_locked_components r2.

(** A transport after a broadcast of [message] that visits the sessions
    [visited]: one more frame when its session is visited, is not the
    excluded one, the message can be encoded and the transport is open; as
    before otherwise. *)
Definition served (message : frame) (exclude_session : option string)
    (visited : list string) (session_id : string) (websocket : WebSocket)
  : WebSocket :=
  if bool_decide (session_id ∈ visited)
     && negb (bool_decide (Some session_id = exclude_session))
     && json_serializable message
     && ws_open websocket
  then {| ws_sent := ws_sent websocket ++ [message]; ws_open := true |}
  else websocket.

(** The frames of one edit operation a session has been delivered. *)
Definition edit_frames_for (operation_id : UUID) (websocket : WebSocket) : list frame :=
  List.filter (fun f => match f with
                        | FrEditOperation i _ _ => bool_decide (i = operation_id)
                        | _ => false
                        end) (ws_sent websocket).

(** One call on the lock manager, or time passing. *)
Inductive lock_call : Type :=
| CallAcquire (lock_id twin_id user_id session_id : UUID)
              (components : list string) (lock_type : string) (timeout : Z)
| CallRelease (lock_id : UUID)
| CallHeartbeat (lock_id : UUID)
| CallSleep (seconds : Z).

Definition run_call (c : lock_call) (w : World) : World :=
  match c with
  | CallAcquire lock_id twin_id user_id session_id components lock_type timeout =>
      (LockManager.acquire_lock lock_id twin_id user_id session_id
                                components lock_type timeout w).2
  | CallRelease lock_id => (LockManager.release_lock lock_id w).2
  | CallHeartbeat lock_id => (LockManager.heartbeat_lock lock_id w).2
  | CallSleep seconds => sleep seconds w
  end.

Definition run_calls (cs : list lock_call) (w : World) : World :=
  foldl (fun w c => run_call c w) w cs.

(** A server that has just started, at instant [t]. *)
Definition boot (t : Z) : World :=
  {| db := {| edit_locks := []; edit_operations := [] |};
     cache := ∅; manager := ConnectionManager.init; utcnow := t |}.

(** What the environment guarantees of a call: [uuid4()] draws an
    identifier no row has yet, and time does not run backwards. *)
Definition admissible (c : lock_call) (w : World) : Prop :=
  match c with
  | CallAcquire lock_id _ _ _ _ _ _ => fetchrow_edit_lock lock_id (db w) = None
  | CallSleep seconds => 0 <= seconds
  | CallRelease _ | CallHeartbeat _ => True
  end.

(** The worlds the lock manager can be in. *)
Inductive reachable : World → Prop :=
| reachable_boot (t : Z) : reachable (boot t)
| reachable_call (c : lock_call) (w : World) :
    reachable w → admissible c w → reachable (run_call c w).

(** Every record Redis keeps, under the key of its own twin, is the record
    of a lock whose row is active and says the same. *)
Definition kv_backed (w : World) : Prop :=
  ∀ twin_id record expiry,
    cache w !! twin_id = Some (record, expiry) →
    ld_twin_id record = twin_id
    ∧ ∃ row, fetchrow_edit_lock (ld_lock_id record) (db w) = Some row
             ∧ el_is_active row = true
             ∧ el_twin_id row = twin_id
             ∧ el_lock_type row = ld_lock_type record
             ∧ el_locked_components row = ld_components record.

(** ** Further handlers and background tasks

    The tables these handlers use are kept beside the world, each as the
    list of its rows in insertion order. *)

(** One round of [heartbeat_monitor], after its sleep: a ping on every
    registered transport, a failed send being passed over. *)
Definition heartbeat_monitor_round (self : ConnectionManager.t) : ConnectionManager.t :=
  {| ConnectionManager.active_connections :=
       (fun websocket => match send_json FrPing websocket with
                         | Ret websocket' => websocket'
                         | Raise _ => websocket
                         end) <$> ConnectionManager.active_connections self;
     ConnectionManager.user_sessions := ConnectionManager.user_sessions self;
     ConnectionManager.twin_subscribers := ConnectionManager.twin_subscribers self |}.

(** The columns of [user_sessions] that [POST /locks/acquire] reads. *)
Record user_session : Type := MkUserSession {
  us_session_id : UUID;
  us_user_id : UUID;
  us_is_active : bool;
  us_created_at : Z
}.

(** The pydantic model [LockRequest]. *)
Record LockRequest : Type := MkLockRequest {
  lr_twin_id : UUID;
  lr_components : list string;
  lr_lock_type : string
}.

Definition newer_session (a b : user_session) : user_session :=
  if bool_decide (us_created_at a < us_created_at b) then b else a.

(** [SELECT session_id FROM user_sessions WHERE user_id = $1 AND
     is_active = TRUE ORDER BY created_at DESC LIMIT 1]; among sessions
    created at the same instant, the one inserted first is returned. *)
Definition fetchrow_active_session (user_id : UUID) (sessions : list user_session)
  : option user_session :=
  match List.filter (fun s => bool_decide (us_user_id s = user_id) && us_is_active s)
                    sessions with
  | [] => None
  | s :: rest => Some (foldl newer_session s rest)
  end.

(** [POST /locks/acquire]. An exception that escapes the handler is
    answered 500. *)
Definition acquire_lock (lock_id : UUID) (request : LockRequest) (current_user : UUID)
    (sessions : list user_session) (w : World) : http_response UUID * World :=
  match fetchrow_active_session current_user sessions with
  | None => (HttpError 400 "No active session", w)
  | Some session =>
      match LockManager.acquire_lock lock_id (lr_twin_id request) current_user
              (us_session_id session) (lr_components request)
              (lr_lock_type request) 300 w with
      | (Ret (Some id), w') => (HttpOk id, w')
      | (Ret None, w') =>
          (HttpError 409 "Lock conflict - components already locked", w')
      | (Raise e, w') => (HttpError 500 e, w')
      end
  end.

(** The caller as [get_current_user] returns it. *)
Record User : Type := MkUser {
  u_user_id : UUID;
  u_organization_id : option UUID
}.

(** The pydantic models [DigitalTwinCreate] and [VersionCreate]. *)
Record DigitalTwinCreate : Type := MkDigitalTwinCreate {
  dc_name : string;
  dc_description : option string;
  dc_twin_type : string;
  dc_properties : json;
  dc_tags : list string
}.

Record VersionCreate : Type := MkVersionCreate {
  vc_twin_id : UUID;
  vc_commit_message : string;
  vc_model_url : string;
  vc_model_format : string;
  vc_properties : json
}.

(** The columns the two INSERTs write in [digital_twins] and
    [twin_versions]. *)
Record digital_twin : Type := MkDigitalTwin {
  dt_twin_id : UUID;
  dt_name : string;
  dt_description : option string;
  dt_twin_type : string;
  dt_created_by : UUID;
  dt_organization_id : option UUID;
  dt_tags : list string
}.

Record twin_version : Type := MkTwinVersion {
  tv_version_id : UUID;
  tv_twin_id : UUID;
  tv_version_number : Z;
  tv_created_by : UUID;
  tv_commit_message : option string;
  tv_model_url : option string;
  tv_model_format : option string;
  tv_properties : json
}.

Record TwinStore : Type := MkTwinStore {
  digital_twins : list digital_twin;
  twin_versions : list twin_version
}.

(** [POST /twins]: the twin, then its version 1. *)
Definition create_digital_twin (twin_id version_id : UUID) (twin : DigitalTwinCreate)
    (current_user : User) (store : TwinStore) : (UUID * UUID) * TwinStore :=
  ((twin_id, version_id),
   {| digital_twins :=
        digital_twins store
        ++ [{| dt_twin_id := twin_id; dt_name := dc_name twin;
               dt_description := dc_description twin;
               dt_twin_type := dc_twin_type twin;
               dt_created_by := u_user_id current_user;
               dt_organization_id := u_organization_id current_user;
               dt_tags := dc_tags twin |}];
      twin_versions :=
        twin_versions store
        ++ [{| tv_version_id := version_id; tv_twin_id := twin_id;
               tv_version_number := 1; tv_created_by := u_user_id current_user;
               tv_commit_message := None; tv_model_url := None;
               tv_model_format := None; tv_properties := dc_properties twin |}] |}).

(** [SELECT MAX(version_number) FROM twin_versions WHERE twin_id = $1]:
    NULL when the twin has no version. *)
Definition max_version_number (twin_id : UUID) (versions : list twin_version)
  : option Z :=
  foldl (fun acc v =>
           if bool_decide (tv_twin_id v = twin_id)
           then Some (match acc with
                      | Some m => Z.max m (tv_version_number v)
                      | None => tv_version_number v
                      end)
           else acc)
        None versions.

(** [latest['max_ver'] or 0]: NULL and 0 both give 0. *)
Definition or_zero (max_ver : option Z) : Z :=
  match max_ver with
  | Some m => if bool_decide (m = 0) then 0 else m
  | None => 0
  end.

(** [POST /twins/{twin_id}/versions]; the twin is the one of the path, the
    [twin_id] of the body is not read. *)
Definition create_version (version_id : UUID) (twin_id : UUID) (version : VersionCreate)
    (current_user : User) (store : TwinStore) : (UUID * Z) * TwinStore :=
  let new_version_number :=
    or_zero (max_version_number twin_id (twin_versions store)) + 1 in
  ((version_id, new_version_number),
   {| digital_twins := digital_twins store;
      twin_versions :=
        twin_versions store
        ++ [{| tv_version_id := version_id; tv_twin_id := twin_id;
               tv_version_number := new_version_number;
               tv_created_by := u_user_id current_user;
               tv_commit_message := Some (vc_commit_message version);
               tv_model_url := Some (vc_model_url version);
               tv_model_format := Some (vc_model_format version);
               tv_properties := vc_properties version |}] |}).

(** The version numbers a twin has. *)
Definition version_numbers (twin_id : UUID) (versions : list twin_version) : list Z :=
  tv_version_number
    <$> List.filter (fun v => bool_decide (tv_twin_id v = twin_id)) versions.

(** The pydantic model [TelemetryData], and a row of [telemetry_data] as the
    two ingestion handlers write it: [NOW()] and the fields of the point. *)
Record TelemetryData : Type := MkTelemetryData {
  td_node_id : UUID;
  td_rpm : option R;
  td_torque_nm : option R;
  td_vibration_x_g : option R;
  td_vibration_y_g : option R;
  td_vibration_z_g : option R;
  td_temperature_c : option R;
  td_custom_metrics : json
}.

Record telemetry_row : Type := MkTelemetryRow {
  tr_time : Z;
  tr_point : TelemetryData
}.

(** [POST /telemetry]. *)
Definition ingest_telemetry (data : TelemetryData) (now : Z)
    (telemetry_data : list telemetry_row) : string * list telemetry_row :=
  ("ingested", telemetry_data ++ [{| tr_time := now; tr_point := data |}]).

(** [POST /telemetry/batch]: one [executemany], and the count in the body. *)
Definition ingest_telemetry_batch (data_points : list TelemetryData) (now : Z)
    (telemetry_data : list telemetry_row) : (string * nat) * list telemetry_row :=
  (("ingested", length data_points),
   telemetry_data
   ++ map (fun d => {| tr_time := now; tr_point := d |}) data_points).

End Main.

(** * The maintenance agent (src/agent.py)

    Python floats are read as real numbers, with one extra value for NaN
    (what [np.mean] gives on an empty list); rounding is left out. *)

Module Agent.

Local Open Scope R_scope.

(** ** AgentConfig *)

Module config.
Definition VIBRATION_CRITICAL : R := 0.8.
Definition VIBRATION_WARNING : R := 0.5.
Definition TEMPERATURE_CRITICAL : R := 95.
Definition TEMPERATURE_WARNING : R := 85.
Definition TOOL_WEAR_CRITICAL : R := 80.
Definition TOOL_WEAR_WARNING : R := 60.
Definition CHECK_INTERVAL : Z := 60.
Definition PREDICTION_HORIZON : Z := 720.
End config.

(** ** Numbers *)

Inductive float : Type :=
| Fin (r : R)
| NaN.

(** Python's two-argument [max] and [min]: the second argument wins only when
    it is strictly larger (smaller); a comparison with NaN is false. *)
Definition py_max (a b : R) : R := if Rlt_dec a b then b else a.
Definition py_min (a b : R) : R := if Rlt_dec b a then b else a.

Definition py_max_float (a : R) (b : float) : R :=
  match b with
  | Fin r => py_max a r
  | NaN => a
  end.

Definition fmap_float (f : R -> R) (x : float) : float :=
  match x with
  | Fin r => Fin (f r)
  | NaN => NaN
  end.

Definition sum (l : list R) : R := fold_right Rplus 0 l.

(** [np.mean] of a list: NaN on the empty list. *)
Definition np_mean (l : list R) : float :=
  match l with
  | [] => NaN
  | _ => Fin (sum l / INR (length l))
  end.

(** The terms of the exponential series, [x ^ i / i!]. *)
Definition exp_term (x : R) (i : nat) : R := x ^ i / INR (fact i).

(** ** Data models *)

Inductive Severity : Type := CRITICAL | HIGH | MEDIUM | LOW.

Definition Severity_value (s : Severity) : string :=
  match s with
  | CRITICAL => "critical"
  | HIGH => "high"
  | MEDIUM => "medium"
  | LOW => "low"
  end.

Record NodeHealth : Type := MkNodeHealth {
  nh_node_id : UUID;
  nh_status : string;
  health_score : R;
  vibration_level : float;
  temperature : float;
  rpm : float;
  tool_wear : float;
  last_maintenance_days : Z;
  predicted_failure_hours : option R;
  anomaly_score : R
}.

(** A row of [telemetry_data]; every measurement is nullable. *)
Record telemetry : Type := MkTelemetry {
  t_time : Z;
  t_node_id : UUID;
  t_rpm : option R;
  t_torque_nm : option R;
  t_vibration_x_g : option R;
  t_vibration_y_g : option R;
  t_vibration_z_g : option R;
  t_temperature_c : option R;
  t_power_consumption_w : option R;
  t_tool_wear_percent : option R;
  t_error_code : option string
}.

(** A row of [machine_nodes]; [last_maintenance_date] is a SQL DATE, kept as
    its day number. *)
Record machine_node : Type := MkMachineNode {
  mn_node_id : UUID;
  mn_status : string;
  mn_last_maintenance_date : option Z
}.

(** Modelled from the spec: the DDL of [maintenance_tickets] is not part of
    the sources; the columns the INSERT of [create_maintenance_ticket] leaves
    out take their defaults, a ticket being born [open], stamped with the
    instant of the insert and not acknowledged. A value of this record is
    one row of the table. *)
Record ticket : Type := MkTicket {
  tk_ticket_id : UUID;
  tk_node_id : UUID;
  tk_severity : string;
  tk_title : string;
  tk_description : string;
  tk_diagnostic_data : json;
  tk_status : string;
  tk_created_at : Z;
  tk_acknowledged_at : option Z
}.

Record Database : Type := MkDatabase {
  telemetry_data : list telemetry;
  machine_nodes : list machine_node;
  maintenance_tickets : list ticket
}.

(** ** Queries *)

(** Truth value of a nullable number: NULL and zero are false. *)
Definition truthy (x : option R) : bool :=
  match x with
  | Some v => if Req_dec_T v 0 then false else true
  | None => false
  end.

Definition newer_first (a b : telemetry) : Prop := (t_time b <= t_time a)%Z.

#[local] Instance newer_first_dec a b : Decision (newer_first a b).
Proof. unfold newer_first. apply _. Defined.

(** [SELECT * FROM telemetry_data WHERE node_id = $1
     AND time > NOW() - INTERVAL '5 minutes' ORDER BY time DESC LIMIT 100]. *)
Definition fetch_recent_telemetry (node_id : UUID) (now : Z) (d : Database)
  : list telemetry :=
  take 100
    (merge_sort newer_first
       (List.filter (fun t => bool_decide (t_node_id t = node_id)
                              && bool_decide (now - 300 < t_time t)%Z)
                    (telemetry_data d))).

(** [SELECT last_maintenance_date FROM machine_nodes WHERE node_id = $1]. *)
Definition fetchrow_node_info (node_id : UUID) (d : Database) : option machine_node :=
  List.find (fun n => bool_decide (mn_node_id n = node_id)) (machine_nodes d).

(** The duplicate check of [create_maintenance_ticket]. *)
Definition is_duplicate_of (node_id : UUID) (title : string) (now : Z) (t : ticket)
  : bool :=
  bool_decide (tk_node_id t = node_id)
  && bool_decide (tk_title t = title)
  && (bool_decide (tk_status t = "open") || bool_decide (tk_status t = "acknowledged"))
  && bool_decide (now - 86400 < tk_created_at t)%Z.

Definition fetchrow_duplicate (node_id : UUID) (title : string) (now : Z)
    (d : Database) : option ticket :=
  List.find (is_duplicate_of node_id title now) (maintenance_tickets d).

Definition insert_ticket (t : ticket) (d : Database) : Database :=
  {| telemetry_data := telemetry_data d; machine_nodes := machine_nodes d;
     maintenance_tickets := maintenance_tickets d ++ [t] |}.

(** ** MaintenanceAgent *)

(** [datetime.now().date()], as a day number. *)
Definition date_of (now : Z) : Z := (now / 86400)%Z.

(** The vibration magnitudes of the rows whose three axes are all truthy. *)
Definition vibration_magnitudes (rows : list telemetry) : list R :=
  flat_map
    (fun t =>
       match t_vibration_x_g t, t_vibration_y_g t, t_vibration_z_g t with
       | Some x, Some y, Some z =>
           if truthy (Some x) && truthy (Some y) && truthy (Some z)
           then [sqrt (x ^ 2 + y ^ 2 + z ^ 2)] else []
       | _, _, _ => []
       end) rows.

(** [[t[col] for t in rows if t[col]]]. *)
Definition truthy_values (col : telemetry -> option R) (rows : list telemetry)
  : list R :=
  flat_map (fun t => match col t with
                     | Some v => if truthy (Some v) then [v] else []
                     | None => []
                     end) rows.

Definition vib_score (vibration : float) : R :=
  py_max_float 0 (fmap_float (fun v => 100 - (v / config.VIBRATION_CRITICAL) * 100)
                             vibration).

Definition temp_score (temperature : float) : R :=
  py_max_float 0 (fmap_float (fun v => 100 - (v / config.TEMPERATURE_CRITICAL) * 100)
                             temperature).

Definition wear_score (tool_wear : float) : R :=
  py_max_float 0 (fmap_float (fun v => 100 - v) tool_wear).

Definition maint_score (days_since_maintenance : Z) : R :=
  100 * exp (IZR (- days_since_maintenance) / 180).

Definition weighted_average (vibration temperature tool_wear : float)
    (days_since_maintenance : Z) : R :=
  0.3 * vib_score vibration + 0.25 * temp_score temperature
  + 0.25 * wear_score tool_wear + 0.2 * maint_score days_since_maintenance.

Definition calculate_health_score (vibration temperature rpm tool_wear : float)
    (days_since_maintenance : Z) : R :=
  py_max 0 (py_min 100
              (weighted_average vibration temperature tool_wear
                                days_since_maintenance)).

Definition predict_failure_time (node_id : UUID) (recent_data : list telemetry)
  : option R :=
  match recent_data with
  | [] => None
  | _ =>
      let vibrations := vibration_magnitudes recent_data in
      if (length vibrations <? 2)%nat then None
      else match np_mean vibrations with
           | Fin avg_vib =>
               if Rle_dec config.VIBRATION_CRITICAL avg_vib then Some 0
               else Some (py_max 0 (720 * (1 - avg_vib / config.VIBRATION_CRITICAL)))
           | NaN => Some (py_max_float 0 NaN)
           end
  end.

(** [days_since_maintenance] as [assess_node_health] computes it once there
    is telemetry: 0 unless the node has a row with a date. *)
Definition days_since_maintenance (node_info : option machine_node) (now : Z) : Z :=
  match node_info with
  | Some info =>
      match mn_last_maintenance_date info with
      | Some last => (date_of now - last)%Z
      | None => 0%Z
      end
  | None => 0%Z
  end.

Definition assess_node_health (node_id : UUID) (now : Z) (d : Database) : NodeHealth :=
  match fetch_recent_telemetry node_id now d with
  | [] =>
      {| nh_node_id := node_id; nh_status := "unknown"; health_score := 0;
         vibration_level := Fin 0; temperature := Fin 0; rpm := Fin 0;
         tool_wear := Fin 0; last_maintenance_days := 9999;
         predicted_failure_hours := None; anomaly_score := 0 |}
  | telemetry =>
      let avg_vibration := np_mean (vibration_magnitudes telemetry) in
      let avg_temp := np_mean (truthy_values t_temperature_c telemetry) in
      let avg_rpm := np_mean (truthy_values t_rpm telemetry) in
      let avg_tool_wear := np_mean (truthy_values t_tool_wear_percent telemetry) in
      let days := days_since_maintenance (fetchrow_node_info node_id d) now in
      {| nh_node_id := node_id; nh_status := "online";
         health_score :=
           calculate_health_score avg_vibration avg_temp avg_rpm avg_tool_wear days;
         vibration_level := avg_vibration; temperature := avg_temp;
         rpm := avg_rpm; tool_wear := avg_tool_wear;
         last_maintenance_days := days;
         predicted_failure_hours := predict_failure_time node_id telemetry;
         anomaly_score := 0 |}
  end.

(** [ticket_id] is the identifier the table draws for the new row. *)
Definition create_maintenance_ticket (ticket_id : UUID) (node_id : UUID)
    (severity : Severity) (title description : string) (diagnostic_data : json)
    (now : Z) (d : Database) : Database :=
  match fetchrow_duplicate node_id title now d with
  | Some existing => d
  | None =>
      insert_ticket
        {| tk_ticket_id := ticket_id; tk_node_id := node_id;
           tk_severity := Severity_value severity; tk_title := title;
           tk_description := description; tk_diagnostic_data := diagnostic_data;
           tk_status := "open"; tk_created_at := now;
           tk_acknowledged_at := None |} d
  end.

(** The tickets of one (node, title) pair. *)
Definition tickets_for (node_id : UUID) (title : string) (d : Database) : list ticket :=
  List.filter (fun t => bool_decide (tk_node_id t = node_id)
                        && bool_decide (tk_title t = title))
              (maintenance_tickets d).

(** ** Threshold checks

    What Python's formatting and [json.dumps] make of a float is not
    modelled: [format_fixed n x] stands for the text of [f"{x:.nf}"] and
    [json_of_float x] for the JSON number of [x]. *)

Record builtins : Type := MkBuiltins {
  format_fixed : nat → float → string;
  json_of_float : float → json
}.

(** [x >= c] on a float: false on NaN. *)
Definition float_ge (x : float) (c : R) : bool :=
  match x with
  | Fin r => if Rle_dec c r then true else false
  | NaN => false
  end.

Record violation : Type := MkViolation {
  v_type : string;
  v_severity : Severity;
  v_message : string
}.

Definition violations_of (py : builtins) (health : NodeHealth) : list violation :=
  (if float_ge (vibration_level health) config.VIBRATION_CRITICAL
   then [{| v_type := "vibration_critical"; v_severity := CRITICAL;
            v_message := "Critical vibration: "
                         ++ format_fixed py 2 (vibration_level health)
                         ++ "g (limit: 0.8g)" |}]
   else if float_ge (vibration_level health) config.VIBRATION_WARNING
   then [{| v_type := "vibration_warning"; v_severity := HIGH;
            v_message := "High vibration: "
                         ++ format_fixed py 2 (vibration_level health)
                         ++ "g (limit: 0.5g)" |}]
   else [])
  ++ (if float_ge (temperature health) config.TEMPERATURE_CRITICAL
      then [{| v_type := "temperature_critical"; v_severity := CRITICAL;
               v_message := "Critical temperature: "
                            ++ format_fixed py 1 (temperature health)
                            ++ "°C (limit: 95°C)" |}]
      else if float_ge (temperature health) config.TEMPERATURE_WARNING
      then [{| v_type := "temperature_warning"; v_severity := HIGH;
               v_message := "High temperature: "
                            ++ format_fixed py 1 (temperature health)
                            ++ "°C (limit: 85°C)" |}]
      else [])
  ++ (if float_ge (tool_wear health) config.TOOL_WEAR_CRITICAL
      then [{| v_type := "tool_wear_critical"; v_severity := CRITICAL;
               v_message := "Critical tool wear: "
                            ++ format_fixed py 1 (tool_wear health)
                            ++ "% (limit: 80%)" |}]
      else if float_ge (tool_wear health) config.TOOL_WEAR_WARNING
      then [{| v_type := "tool_wear_warning"; v_severity := MEDIUM;
               v_message := "High tool wear: "
                            ++ format_fixed py 1 (tool_wear health)
                            ++ "% (limit: 60%)" |}]
      else []).

(** The loop [for violation in violations]; [ticket_ids i] is the identifier
    the table draws if the [i]-th call inserts. *)
Fixpoint create_violation_tickets (py : builtins) (ticket_ids : nat → UUID) (i : nat)
    (violations : list violation) (health : NodeHealth) (now : Z) (d : Database)
  : Database :=
  match violations with
  | [] => d
  | violation :: rest =>
      create_violation_tickets py ticket_ids (S i) rest health now
        (create_maintenance_ticket (ticket_ids i) (nh_node_id health)
           (v_severity violation) (v_message violation)
           ("Automatic threshold violation detected. Health score: "
            ++ format_fixed py 1 (Fin (health_score health)))
           (JObj [("vibration_g", json_of_float py (vibration_level health));
                  ("temperature_c", json_of_float py (temperature health));
                  ("rpm", json_of_float py (rpm health));
                  ("tool_wear_percent", json_of_float py (tool_wear health))])
           now d)
  end.

Definition check_thresholds (py : builtins) (ticket_ids : nat → UUID)
    (health : NodeHealth) (now : Z) (d : Database) : Database :=
  create_violation_tickets py ticket_ids 0 (violations_of py health) health now d.

(** ** Scheduling *)

(** [severity_weights.get(ticket['severity'], 0)]. *)
Definition severity_weight (severity : string) : R :=
  if bool_decide (severity = "critical") then 100
  else if bool_decide (severity = "high") then 75
  else if bool_decide (severity = "medium") then 50
  else if bool_decide (severity = "low") then 25
  else 0.

(** The score of [prioritize_maintenance]: the weight, plus half a point
    per hour of age. *)
Definition priority_score (now : Z) (t : ticket) : R :=
  severity_weight (tk_severity t) + IZR (now - tk_created_at t) / 3600 * 0.5.

(** [scored.sort(key=..., reverse=True)] is a stable sort: a ticket goes
    before the first ticket that does not score strictly more. *)
Fixpoint insert_by_score (now : Z) (x : ticket) (l : list ticket) : list ticket :=
  match l with
  | [] => [x]
  | y :: l' =>
      if Rlt_dec (priority_score now x) (priority_score now y)
      then y :: insert_by_score now x l'
      else x :: l
  end.

Definition prioritize_maintenance (now : Z) (tickets : list ticket) : list ticket :=
  fold_right (insert_by_score now) [] tickets.

Record MaintenanceRecommendation : Type := MkRecommendation {
  mr_node_id : UUID;
  mr_severity : Severity;
  mr_issue_type : string;
  mr_description : string;
  mr_recommended_action : string;
  mr_urgency_hours : Z;
  mr_estimated_cost : R;
  mr_estimated_downtime_hours : R;
  mr_parts_needed : list string
}.

(** [Severity(value)]: the member with that value, if there is one. *)
Definition Severity_of_value (value : string) : option Severity :=
  if bool_decide (value = "critical") then Some CRITICAL
  else if bool_decide (value = "high") then Some HIGH
  else if bool_decide (value = "medium") then Some MEDIUM
  else if bool_decide (value = "low") then Some LOW
  else None.

(** [generate_recommendation]; the health is the cached one, or a fresh
    assessment when the node has none. [Severity(...)] raises [ValueError]
    on a text that is no severity. *)
Definition generate_recommendation (t : ticket) (node_health_cache : gmap UUID NodeHealth)
    (now : Z) (d : Database) : outcome MaintenanceRecommendation :=
  let health :=
    match node_health_cache !! tk_node_id t with
    | Some health => health
    | None => assess_node_health (tk_node_id t) now d
    end in
  let '(action, parts, cost, downtime) :=
    if float_ge (tool_wear health) 80
    then ("Replace cutting tool immediately", ["Cutting Tool Assembly"], 450, 2)
    else if float_ge (vibration_level health) config.VIBRATION_CRITICAL
    then ("Inspect and replace bearings",
          ["Front Bearing Set"; "Rear Bearing Set"], 1200, 8)
    else if float_ge (temperature health) config.TEMPERATURE_CRITICAL
    then ("Check cooling system, replace thermal compound",
          ["Thermal Compound"; "Coolant"], 150, 3)
    else ("Perform routine inspection and lubrication",
          ["Lubricant"; "Filter Kit"], 80, 1.5) in
  let urgency := if bool_decide (tk_severity t = "critical") then 24%Z else 168%Z in
  match Severity_of_value (tk_severity t) with
  | Some severity =>
      Ret {| mr_node_id := tk_node_id t; mr_severity := severity;
             mr_issue_type := tk_title t; mr_description := tk_description t;
             mr_recommended_action := action; mr_urgency_hours := urgency;
             mr_estimated_cost := cost; mr_estimated_downtime_hours := downtime;
             mr_parts_needed := parts |}
  | None => Raise "ValueError"
  end.

(** ** Alerting *)

(** The SELECT of the alert dispatcher. *)
Definition needs_alert (now : Z) (t : ticket) : bool :=
  (bool_decide (tk_severity t = "critical") || bool_decide (tk_severity t = "high"))
  && bool_decide (tk_status t = "open")
  && bool_decide (now - 3600 < tk_created_at t)%Z.

Definition acknowledged (now : Z) (t : ticket) : ticket :=
  {| tk_ticket_id := tk_ticket_id t; tk_node_id := tk_node_id t;
     tk_severity := tk_severity t; tk_title := tk_title t;
     tk_description := tk_description t;
     tk_diagnostic_data := tk_diagnostic_data t;
     tk_status := "acknowledged"; tk_created_at := tk_created_at t;
     tk_acknowledged_at := Some now |}.

(** [UPDATE maintenance_tickets SET status = 'acknowledged',
     acknowledged_at = NOW() WHERE ticket_id = $1]. *)
Definition acknowledge (ticket_id : UUID) (now : Z) (d : Database) : Database :=
  {| telemetry_data := telemetry_data d; machine_nodes := machine_nodes d;
     maintenance_tickets :=
       map (fun t => if bool_decide (tk_ticket_id t = ticket_id)
                     then acknowledged now t else t)
           (maintenance_tickets d) |}.

(** One turn of [alert_dispatcher_loop], before its sleep: the tickets
    handed to [send_alert], which only logs, and the database after the
    updates. *)
Definition alert_dispatcher_turn (now : Z) (d : Database) : list ticket * Database :=
  let tickets := List.filter (needs_alert now) (maintenance_tickets d) in
  (tickets, foldl (fun d t => acknowledge (tk_ticket_id t) now d) d tickets).

End Agent.

(** * Concrete runs used by the properties below *)

Module Scenario.

Import Main.

Definition twin_T : UUID := 1%N.
Definition user_A : UUID := 11%N.
Definition user_B : UUID := 12%N.
Definition user_C : UUID := 13%N.
Definition session_A : UUID := 21%N.
Definition session_B : UUID := 22%N.
Definition session_C : UUID := 23%N.
Definition L1 : UUID := 101%N.
Definition L2 : UUID := 102%N.
Definition L3 : UUID := 103%N.

(** A holds [chassis.bolt1] of twin T exclusively, 300 s from instant 0. *)
Definition A_holds_bolt : World :=
  run_calls [CallAcquire L1 twin_T user_A session_A ["chassis.bolt1"] "exclusive" 300]
            (boot 0).

(** A holds [chassis.bolt1] of twin T as a shared lock. *)
Definition A_shares_bolt : World :=
  run_calls [CallAcquire L1 twin_T user_A session_A ["chassis.bolt1"] "shared" 300]
            (boot 0).

(** The same, 300 s later, with no heartbeat in between: the key is gone. *)
Definition A_holds_bolt_expired : World := run_calls [CallSleep 300] A_holds_bolt.

(** A takes and releases L1; B takes L2 on the same component. *)
Definition B_holds_after_A : World :=
  run_calls [CallAcquire L1 twin_T user_A session_A ["chassis.bolt1"] "exclusive" 300;
             CallRelease L1;
             CallAcquire L2 twin_T user_B session_B ["chassis.bolt1"] "exclusive" 300]
            (boot 0).

(** ... then L1 is released a second time and C asks for the same component. *)
Definition stale_release_trace : list lock_call :=
  [CallAcquire L1 twin_T user_A session_A ["chassis.bolt1"] "exclusive" 300;
   CallRelease L1;
   CallAcquire L2 twin_T user_B session_B ["chassis.bolt1"] "exclusive" 300;
   CallRelease L1;
   CallAcquire L3 twin_T user_C session_C ["chassis.bolt1"] "exclusive" 300].

Definition before_third_acquire : World :=
  run_calls (take 4 stale_release_trace) (boot 0).

Definition row_L1_released : edit_lock :=
  {| el_lock_id := L1; el_twin_id := twin_T; el_user_id := user_A;
     el_session_id := session_A; el_lock_type := "exclusive";
     el_locked_components := ["chassis.bolt1"]; el_expires_at := 300;
     el_heartbeat_at := 0; el_is_active := false |}.

Definition row_L1 : edit_lock :=
  {| el_lock_id := L1; el_twin_id := twin_T; el_user_id := user_A;
     el_session_id := session_A; el_lock_type := "exclusive";
     el_locked_components := ["chassis.bolt1"]; el_expires_at := 300;
     el_heartbeat_at := 0; el_is_active := true |}.

Definition row_L2 : edit_lock :=
  {| el_lock_id := L2; el_twin_id := twin_T; el_user_id := user_B;
     el_session_id := session_B; el_lock_type := "exclusive";
     el_locked_components := ["chassis.bolt1"]; el_expires_at := 300;
     el_heartbeat_at := 0; el_is_active := true |}.

Definition row_L3 : edit_lock :=
  {| el_lock_id := L3; el_twin_id := twin_T; el_user_id := user_C;
     el_session_id := session_C; el_lock_type := "exclusive";
     el_locked_components := ["chassis.bolt1"]; el_expires_at := 300;
     el_heartbeat_at := 0; el_is_active := true |}.

Definition fresh_socket : WebSocket := {| ws_sent := []; ws_open := true |}.

(** Three sessions, of users A, B and C, are connected and subscribed to T;
    nobody holds a lock. *)
Definition three_subscribers : World :=
  set_manager
    (ConnectionManager.subscribe_to_twin "S3" twin_T
       (ConnectionManager.subscribe_to_twin "S2" twin_T
          (ConnectionManager.subscribe_to_twin "S1" twin_T
             (ConnectionManager.connect fresh_socket "S3" user_C
                (ConnectionManager.connect fresh_socket "S2" user_B
                   (ConnectionManager.connect fresh_socket "S1" user_A
                      ConnectionManager.init))))))
    (boot 0).

Definition op_id : UUID := 500%N.

Definition move_bolt : EditOperation :=
  {| eo_twin_id := twin_T; eo_operation_type := "update";
     eo_component_path := "chassis.bolt1";
     eo_operation_data := JObj [("torque", JNum 12)];
     eo_vector_clock := None |}.

(** A took L1 with a TTL of 10 s, released it, and B took L2 with a TTL of
    10 s as well. *)
Definition B_holds_briefly : World :=
  run_calls [CallAcquire L1 twin_T user_A session_A ["chassis.bolt1"] "exclusive" 10;
             CallRelease L1;
             CallAcquire L2 twin_T user_B session_B ["chassis.bolt1"] "exclusive" 10]
            (boot 0).

Definition twin_U : UUID := 2%N.

(** A has an old session that was closed and two active ones, B has none
    that is active. *)
Definition some_sessions : list user_session :=
  [{| us_session_id := 20%N; us_user_id := user_A; us_is_active := false;
      us_created_at := 50 |};
   {| us_session_id := session_A; us_user_id := user_A; us_is_active := true;
      us_created_at := 10 |};
   {| us_session_id := 24%N; us_user_id := user_A; us_is_active := true;
      us_created_at := 5 |};
   {| us_session_id := session_B; us_user_id := user_B; us_is_active := false;
      us_created_at := 20 |}].

Definition bolt_request : LockRequest :=
  {| lr_twin_id := twin_T; lr_components := ["chassis.bolt1"];
     lr_lock_type := "exclusive" |}.

Definition alice : User := {| u_user_id := user_A; u_organization_id := Some 70%N |}.

Definition a_twin : DigitalTwinCreate :=
  {| dc_name := "press"; dc_description := None; dc_twin_type := "machine";
     dc_properties := JObj []; dc_tags := ["line-1"] |}.

Definition a_version : VersionCreate :=
  {| vc_twin_id := twin_U; vc_commit_message := "tighten bolt";
     vc_model_url := "s3://models/press.glb"; vc_model_format := "glb";
     vc_properties := JObj [] |}.

Definition empty_store : TwinStore := {| digital_twins := []; twin_versions := [] |}.

Definition dead_socket : WebSocket := {| ws_sent := [FrPong]; ws_open := false |}.

(** S1 is connected and subscribed to T; S2 is subscribed to T and to U, and
    its transport has gone away. *)
Definition one_dead_subscriber : ConnectionManager.t :=
  ConnectionManager.subscribe_to_twin "S2" twin_U
    (ConnectionManager.subscribe_to_twin "S2" twin_T
       (ConnectionManager.subscribe_to_twin "S1" twin_T
          (ConnectionManager.connect dead_socket "S2" user_B
             (ConnectionManager.connect fresh_socket "S1" user_A
                ConnectionManager.init)))).

End Scenario.

Module AgentScenario.

Import Agent.

Local Open Scope R_scope.

Definition node_N : UUID := 7%N.

(** An instant of day 11: 1 000 000 s = 11 days and 49 600 s. *)
Definition now : Z := 1000000.

Definition sample (time : Z) (x y z : R) : telemetry :=
  {| t_time := time; t_node_id := node_N; t_rpm := Some 2000;
     t_torque_nm := None; t_vibration_x_g := Some x; t_vibration_y_g := Some y;
     t_vibration_z_g := Some z; t_temperature_c := Some 60;
     t_power_consumption_w := None; t_tool_wear_percent := Some 30;
     t_error_code := None |}.

(** One sample ten seconds old; its vibration is 0.9 g, above the 0.8 g
    limit. *)
Definition one_strong_sample : list telemetry := [sample 999990 0.3 0.6 0.6].

Definition two_strong_samples : list telemetry :=
  [sample 999990 0.3 0.6 0.6; sample 999980 0.3 0.6 0.6].

(** Two samples of 0.3 g. *)
Definition two_calm_samples : list telemetry :=
  [sample 999990 0.1 0.2 0.2; sample 999980 0.1 0.2 0.2].

(** N has telemetry and a row in [machine_nodes] whose date is NULL. *)
Definition date_unknown : Database :=
  {| telemetry_data := one_strong_sample;
     machine_nodes := [{| mn_node_id := node_N; mn_status := "online";
                          mn_last_maintenance_date := None |}];
     maintenance_tickets := [] |}.

(** N has telemetry and was maintained on day 5. *)
Definition date_known : Database :=
  {| telemetry_data := one_strong_sample;
     machine_nodes := [{| mn_node_id := node_N; mn_status := "online";
                          mn_last_maintenance_date := Some 5%Z |}];
     maintenance_tickets := [] |}.

(** N was maintained on day 5 and has sent nothing for five minutes. *)
Definition silent_node : Database :=
  {| telemetry_data := [sample 999000 0.3 0.6 0.6];
     machine_nodes := [{| mn_node_id := node_N; mn_status := "online";
                          mn_last_maintenance_date := Some 5%Z |}];
     maintenance_tickets := [] |}.

Definition vibration_title : string := "Critical vibration: 0.85g (limit: 0.8g)".

Definition no_tickets : Database :=
  {| telemetry_data := []; machine_nodes := []; maintenance_tickets := [] |}.

(** The first ticket of scenario 5, five minutes before [now]. *)
Definition first_ticket : ticket :=
  {| tk_ticket_id := 900%N; tk_node_id := node_N; tk_severity := "critical";
     tk_title := vibration_title; tk_description := "first";
     tk_diagnostic_data := JNull; tk_status := "open";
     tk_created_at := 999700; tk_acknowledged_at := None |}.

Definition one_ticket : Database :=
  {| telemetry_data := []; machine_nodes := [];
     maintenance_tickets := [first_ticket] |}.

(** A critical ticket raised fifty minutes before [now], and a low one
    raised ten days before. *)
Definition fresh_critical : ticket :=
  {| tk_ticket_id := 910%N; tk_node_id := node_N; tk_severity := "critical";
     tk_title := "Predicted failure imminent"; tk_description := "";
     tk_diagnostic_data := JNull; tk_status := "open";
     tk_created_at := 997000; tk_acknowledged_at := None |}.

Definition old_low : ticket :=
  {| tk_ticket_id := 911%N; tk_node_id := node_N; tk_severity := "low";
     tk_title := "Filter due"; tk_description := "";
     tk_diagnostic_data := JNull; tk_status := "open";
     tk_created_at := 136000; tk_acknowledged_at := None |}.

(** Formatting stand-ins for the examples: every float prints as the same
    text, except that NaN prints as nan. *)
Definition plain_builtins : builtins :=
  {| format_fixed := fun _ x => match x with Fin _ => "x" | NaN => "nan" end;
     json_of_float := fun _ => JNull |}.

(** A stand-in that tells two readings apart at the second decimal. *)
Definition two_decimals : builtins :=
  {| format_fixed :=
       fun _ x => match x with
                  | Fin r => if Rle_dec 0.855 r then "0.86" else "0.85"
                  | NaN => "nan"
                  end;
     json_of_float := fun _ => JNull |}.

Definition reading (vibration temperature tool_wear : float) : NodeHealth :=
  {| nh_node_id := node_N; nh_status := "online"; health_score := 50;
     vibration_level := vibration; temperature := temperature; rpm := Fin 2000;
     tool_wear := tool_wear; last_maintenance_days := 30;
     predicted_failure_hours := None; anomaly_score := 0 |}.

Definition two_open_tickets : Database :=
  {| telemetry_data := []; machine_nodes := [];
     maintenance_tickets := [fresh_critical; old_low] |}.

(** The same ticket, created exactly 24 hours before [now]. *)
Definition day_old_ticket : ticket :=
  {| tk_ticket_id := 900%N; tk_node_id := node_N; tk_severity := "critical";
     tk_title := vibration_title; tk_description := "first";
     tk_diagnostic_data := JNull; tk_status := "open";
     tk_created_at := 913600; tk_acknowledged_at := None |}.

Definition one_day_old_ticket : Database :=
  {| telemetry_data := []; machine_nodes := [];
     maintenance_tickets := [day_old_ticket] |}.

End AgentScenario.

(** * Properties of the lock manager *)

Module LockManagerSpec.

Import Main.

Section Redis.

Variables (w : World) (key : UUID).

Lemma redis_get_delete : redis_get key (redis_delete key w) = None.
Proof.
  unfold redis_get, redis_live, redis_delete, set_cache; simpl.
  by rewrite lookup_delete_eq.
Qed.

Lemma redis_get_delete_ne (key' : UUID) :
  key ≠ key' → redis_get key' (redis_delete key w) = redis_get key' w.
Proof.
  intros Hne. unfold redis_get, redis_live, redis_delete, set_cache; simpl.
  by rewrite lookup_delete_ne.
Qed.

Lemma redis_set_nx_ex_taken (holder value : lock_data) (ex : Z) :
  redis_get key w = Some holder → 0 < ex →
  redis_set_nx_ex key value ex w = (Ret false, w).
Proof.
  intros Hget Hex. unfold redis_set_nx_ex.
  rewrite bool_decide_eq_false_2 by lia.
  unfold redis_get in Hget. by rewrite Hget.
Qed.

Lemma redis_set_nx_ex_free (value : lock_data) (ex : Z) :
  redis_get key w = None → 0 < ex →
  redis_set_nx_ex key value ex w
  = (Ret true, set_cache (<[key := (value, utcnow w + ex)]> (cache w)) w).
Proof.
  intros Hget Hex. unfold redis_set_nx_ex.
  rewrite bool_decide_eq_false_2 by lia.
  unfold redis_get in Hget. by rewrite Hget.
Qed.

Lemma redis_expire_gone (seconds : Z) :
  redis_get key w = None → redis_expire key seconds w = w.
Proof. unfold redis_get, redis_expire. by intros ->. Qed.

End Redis.

Lemma datetime_add_in_range (t seconds : Z) :
  0 <= t + seconds <= datetime_max →
  datetime_add t seconds = Ret (t + seconds).
Proof. intros Hin. unfold datetime_add. by rewrite bool_decide_eq_true_2. Qed.

Lemma datetime_add_overflow (t seconds : Z) :
  ¬ 0 <= t + seconds <= datetime_max →
  datetime_add t seconds = Raise "date value out of range".
Proof. intros Hout. unfold datetime_add. by rewrite bool_decide_eq_false_2. Qed.

Section Acquire.

Variables (lock_id twin_id user_id session_id : UUID).
Variables (components : list string) (lock_type : string) (timeout : Z).
Variable w : World.

Local Abbreviation result :=
  (LockManager.acquire_lock lock_id twin_id user_id session_id
                            components lock_type timeout w).

(** The two guards of [acquire_lock]: nothing is written. *)
Lemma acquire_lock_guarded (holder : lock_data) :
  redis_get twin_id w = Some holder →
  LockManager.existing_conflicts holder components lock_type = true →
  result = (Ret None, w).
Proof.
  intros Hget Hc. unfold LockManager.acquire_lock.
  by rewrite Hget, Hc.
Qed.

(** Past the guards, [SET ... NX] still refuses a twin that has a live
    record: a held twin admits nobody else, whatever is asked. *)
Lemma acquire_lock_held (holder : lock_data) :
  redis_get twin_id w = Some holder → 0 < timeout →
  0 <= utcnow w + timeout <= datetime_max →
  result = (Ret None, w).
Proof.
  intros Hget Hpos Hrange. unfold LockManager.acquire_lock. rewrite Hget.
  destruct (LockManager.existing_conflicts holder components lock_type); [done |].
  rewrite datetime_add_in_range by done.
  by rewrite (redis_set_nx_ex_taken _ _ holder).
Qed.

(** Past the guards, an expiry that [datetime] cannot hold raises before
    Redis is asked. *)
Lemma acquire_lock_overflow :
  match redis_get twin_id w with
  | Some holder => LockManager.existing_conflicts holder components lock_type
  | None => false
  end = false →
  ¬ 0 <= utcnow w + timeout <= datetime_max →
  result = (Raise "date value out of range", w).
Proof.
  intros Hguards Hout. unfold LockManager.acquire_lock.
  by rewrite Hguards, datetime_add_overflow.
Qed.

Lemma acquire_lock_free :
  redis_get twin_id w = None → 0 < timeout →
  0 <= utcnow w + timeout <= datetime_max →
  result.1 = Ret (Some lock_id)
  ∧ (∃ record, redis_get twin_id result.2 = Some record
               ∧ ld_lock_id record = lock_id
               ∧ ld_components record = components
               ∧ ld_lock_type record = lock_type)
  ∧ ∃ row, edit_locks (db result.2) = edit_locks (db w) ++ [row]
           ∧ el_lock_id row = lock_id ∧ el_twin_id row = twin_id
           ∧ el_is_active row = true.
Proof.
  intros Hget Hpos Hrange. unfold LockManager.acquire_lock. rewrite Hget.
  rewrite datetime_add_in_range by done.
  rewrite redis_set_nx_ex_free by done. simpl. split; [done |]. split.
  - eexists. unfold redis_get, redis_live; simpl. rewrite lookup_insert_eq.
    rewrite bool_decide_eq_true_2 by lia. done.
  - eexists. done.
Qed.

Lemma acquire_lock_bad_timeout :
  redis_get twin_id w = None → timeout <= 0 →
  ∃ e, result = (Raise e, w).
Proof.
  intros Hget Hneg. unfold LockManager.acquire_lock. rewrite Hget.
  destruct (datetime_add (utcnow w) timeout); [| by eexists].
  unfold redis_set_nx_ex. rewrite bool_decide_eq_true_2 by done. by eexists.
Qed.

End Acquire.

(** C2, as amended. [acquire_lock] answers Conflict ([None]), for any TTL,
    whenever the twin's live record is exclusive, overlapping or not, and
    whenever the request is exclusive and overlaps the record's components;
    on a twin with no live record it succeeds and returns the lock id,
    provided the TTL is positive and the expiry it gives is an instant a
    [datetime] can hold. *)
Theorem acquire_lock_conflict_rules
    (lock_id twin_id user_id session_id : UUID) (components : list string)
    (lock_type : string) (timeout : Z) (w : World) :
  (∀ holder, redis_get twin_id w = Some holder →
             ld_lock_type holder = "exclusive"
             ∨ (lock_type = "exclusive"
                ∧ LockManager.components_overlap (ld_components holder) components = true) →
             LockManager.acquire_lock lock_id twin_id user_id session_id
                                      components lock_type timeout w
             = (Ret None, w))
  ∧ (redis_get twin_id w = None →
     0 < timeout →
     0 <= utcnow w + timeout <= datetime_max →
     (LockManager.acquire_lock lock_id twin_id user_id session_id
                               components lock_type timeout w).1
     = Ret (Some lock_id)).
Proof.
  split.
  - intros holder Hget Hrule. apply acquire_lock_guarded with holder; [done |].
    unfold LockManager.existing_conflicts.
    destruct Hrule as [Hx | [-> Hov]].
    + rewrite Hx. by case_match.
    + by rewrite Hov.
  - intros Hfree Hpos Hrange. by apply acquire_lock_free.
Qed.

Lemma acquire_lock_conflict_rules_witness :
  LockManager.acquire_lock Scenario.L2 Scenario.twin_T Scenario.user_B
    Scenario.session_B ["wheel.axle"] "shared" 0 Scenario.A_holds_bolt
  = (Ret None, Scenario.A_holds_bolt)
  ∧ (LockManager.acquire_lock Scenario.L1 Scenario.twin_T Scenario.user_A
       Scenario.session_A ["chassis.bolt1"] "exclusive" 300 (boot 0)).1
    = Ret (Some Scenario.L1).
Proof.
  split.
  - eapply (proj1 (acquire_lock_conflict_rules Scenario.L2 Scenario.twin_T
                     Scenario.user_B Scenario.session_B ["wheel.axle"] "shared"
                     0 Scenario.A_holds_bolt)).
    + vm_compute. reflexivity.
    + left. reflexivity.
  - apply (proj2 (acquire_lock_conflict_rules Scenario.L1 Scenario.twin_T
                    Scenario.user_A Scenario.session_A ["chassis.bolt1"]
                    "exclusive" 300 (boot 0))).
    + vm_compute. reflexivity.
    + lia.
    + unfold datetime_max. simpl. lia.
Defined.

(** C2 fails as worded: B asks for [wheel.axle] while A holds only
    [chassis.bolt1]; no rule of the specification fires against the one
    holder, and the answer is Conflict all the same. *)
Lemma acquire_disjoint_components_conflicts :
  (∀ holder, redis_get Scenario.twin_T Scenario.A_holds_bolt = Some holder →
             spec_conflict holder ["wheel.axle"] "exclusive" = false)
  ∧ (LockManager.acquire_lock Scenario.L2 Scenario.twin_T Scenario.user_B
       Scenario.session_B ["wheel.axle"] "exclusive" 300 Scenario.A_holds_bolt).1
    = Ret None.
Proof.
  split.
  - intros holder Hget. vm_compute in Hget. injection Hget as <-.
    vm_compute. reflexivity.
  - vm_compute. reflexivity.
Qed.

Section Rows.

Variables (lock_id : UUID) (d : DatabasePool).

Lemma find_map_preserving (f : edit_lock → edit_lock) (l : list edit_lock) :
  (∀ r, el_lock_id (f r) = el_lock_id r) →
  List.find (fun r => bool_decide (el_lock_id r = lock_id)) (map f l)
  = f <$> List.find (fun r => bool_decide (el_lock_id r = lock_id)) l.
Proof.
  intros Hid. induction l as [| r l IH]; [done |].
  simpl. rewrite Hid. by destruct (bool_decide (el_lock_id r = lock_id)).
Qed.

Lemma fetchrow_update_heartbeat (t : Z) :
  fetchrow_edit_lock lock_id (update_heartbeat lock_id t d)
  = (fun r => if el_is_active r then touch t r else r)
      <$> fetchrow_edit_lock lock_id d.
Proof.
  unfold fetchrow_edit_lock, update_heartbeat; simpl.
  rewrite find_map_preserving by (intros r; by repeat case_match).
  destruct (List.find _ (edit_locks d)) as [r |] eqn:Hfind; [| done].
  apply find_some in Hfind as [_ Hid]. simpl. by rewrite Hid.
Qed.

Lemma fetchrow_update_set_inactive :
  fetchrow_edit_lock lock_id (update_set_inactive lock_id d)
  = deactivate <$> fetchrow_edit_lock lock_id d.
Proof.
  unfold fetchrow_edit_lock, update_set_inactive; simpl.
  rewrite find_map_preserving by (intros r; by case_match).
  destruct (List.find _ (edit_locks d)) as [r |] eqn:Hfind; [| done].
  apply find_some in Hfind as [_ Hid]. simpl. by rewrite Hid.
Qed.

End Rows.

(** A release never leaves its own row active. *)
Lemma release_lock_row_inactive (lock_id : UUID) (w : World) (row : edit_lock) :
  fetchrow_edit_lock lock_id (db w) = Some row →
  fetchrow_edit_lock lock_id (db (LockManager.release_lock lock_id w).2)
  = Some (deactivate row).
Proof.
  intros Hrow. unfold LockManager.release_lock. rewrite Hrow. simpl.
  by rewrite fetchrow_update_set_inactive, Hrow.
Qed.

(** C10. [DELETE /locks/{lock_id}] answers 404 exactly when [edit_locks] has
    no row for the id. When a row exists, active or not, the answer is
    "released" and the key of the row's twin is deleted, whichever lock the
    key was holding. *)
Theorem release_lock_stale_id (lock_id current_user : UUID) (w : World) :
  ((release_lock lock_id current_user w).1 = HttpError 404 "Lock not found"
   ↔ fetchrow_edit_lock lock_id (db w) = None)
  ∧ (∀ row, fetchrow_edit_lock lock_id (db w) = Some row →
            (release_lock lock_id current_user w).1 = HttpOk "released"
            ∧ cache (release_lock lock_id current_user w).2
              = delete (el_twin_id row) (cache w)
            ∧ redis_get (el_twin_id row) (release_lock lock_id current_user w).2
              = None).
Proof.
  unfold release_lock, LockManager.release_lock. split.
  - destruct (fetchrow_edit_lock lock_id (db w)); simpl; split; done.
  - intros row ->. simpl. split; [done |]. split; [done |].
    apply redis_get_delete.
Qed.

Lemma release_lock_stale_id_witness :
  fetchrow_edit_lock Scenario.L1 (db Scenario.B_holds_after_A)
  = Some Scenario.row_L1_released
  ∧ (ld_lock_id <$> redis_get Scenario.twin_T Scenario.B_holds_after_A)
    = Some Scenario.L2
  ∧ (release_lock Scenario.L1 Scenario.user_A Scenario.B_holds_after_A).1
    = HttpOk "released"
  ∧ redis_get Scenario.twin_T
      (release_lock Scenario.L1 Scenario.user_A Scenario.B_holds_after_A).2
    = None.
Proof.
  split; [vm_compute; reflexivity |].
  split; [vm_compute; reflexivity |].
  pose proof (proj2 (release_lock_stale_id Scenario.L1 Scenario.user_A
                       Scenario.B_holds_after_A)
                    Scenario.row_L1_released ltac:(vm_compute; reflexivity))
    as (Hok & _ & Hgone).
  split; [exact Hok | exact Hgone].
Defined.

(** C3 fails on the code. After the five calls of [stale_release_trace],
    each of which returned normally, B's lock L2 and C's lock L3 are both
    active, both exclusive, on the same twin and the same component: the
    second release of L1 deleted the record of L2, and the twin was free
    for C. *)
Theorem stale_release_breaks_exclusion :
  (LockManager.acquire_lock Scenario.L3 Scenario.twin_T Scenario.user_C
     Scenario.session_C ["chassis.bolt1"] "exclusive" 300
     Scenario.before_third_acquire).1 = Ret (Some Scenario.L3)
  ∧ exclusive_clash (run_calls Scenario.stale_release_trace (boot 0))
                    Scenario.row_L2 Scenario.row_L3.
Proof.
  split; [vm_compute; reflexivity |].
  assert (edit_locks (db (run_calls Scenario.stale_release_trace (boot 0)))
          = [Scenario.row_L1_released; Scenario.row_L2; Scenario.row_L3]) as Hrows
    by (vm_compute; reflexivity).
  unfold exclusive_clash, active_lock. rewrite Hrows.
  repeat split; try done; try set_solver.
Qed.

(** C5, as amended. [heartbeat_lock] answers nothing in any case. On a lock
    whose key has run out it still stamps [heartbeat_at] on the row when the
    row is active, and leaves Redis as it is: the key stays gone and the
    caller is not told. *)
Theorem heartbeat_lock_expired_key (lock_id : UUID) (w : World) (row : edit_lock) :
  fetchrow_edit_lock lock_id (db w) = Some row →
  redis_get (el_twin_id row) w = None →
  (LockManager.heartbeat_lock lock_id w).1 = tt
  ∧ cache (LockManager.heartbeat_lock lock_id w).2 = cache w
  ∧ redis_get (el_twin_id row) (LockManager.heartbeat_lock lock_id w).2 = None
  ∧ fetchrow_edit_lock lock_id (db (LockManager.heartbeat_lock lock_id w).2)
    = Some (if el_is_active row then touch (utcnow w) row else row).
Proof.
  intros Hrow Hgone. unfold LockManager.heartbeat_lock. simpl.
  rewrite fetchrow_update_heartbeat, Hrow. simpl.
  assert (el_twin_id (if el_is_active row then touch (utcnow w) row else row)
          = el_twin_id row) as -> by (by destruct (el_is_active row)).
  rewrite redis_expire_gone by exact Hgone. simpl.
  rewrite fetchrow_update_heartbeat, Hrow. done.
Qed.

Lemma heartbeat_lock_expired_key_witness :
  (LockManager.heartbeat_lock Scenario.L1 Scenario.A_holds_bolt_expired).1 = tt
  ∧ redis_get Scenario.twin_T
      (LockManager.heartbeat_lock Scenario.L1 Scenario.A_holds_bolt_expired).2
    = None
  ∧ (el_heartbeat_at
       <$> fetchrow_edit_lock Scenario.L1
             (db (LockManager.heartbeat_lock Scenario.L1
                    Scenario.A_holds_bolt_expired).2))
    = Some 300.
Proof.
  pose proof (heartbeat_lock_expired_key Scenario.L1 Scenario.A_holds_bolt_expired
                Scenario.row_L1 ltac:(vm_compute; reflexivity)
                ltac:(vm_compute; reflexivity))
    as (Hnone & _ & Hgone & Hrow).
  split; [exact Hnone |]. split; [exact Hgone |].
  rewrite Hrow. reflexivity.
Defined.

(** C5 fails as worded: L1 is active and its key has run out, yet the
    heartbeat answers what it answers while the key is live. *)
Lemma heartbeat_expired_answers_as_live :
  active_lock Scenario.A_holds_bolt_expired Scenario.row_L1
  ∧ redis_get Scenario.twin_T Scenario.A_holds_bolt_expired = None
  ∧ (ld_lock_id <$> redis_get Scenario.twin_T Scenario.A_holds_bolt) = Some Scenario.L1
  ∧ (LockManager.heartbeat_lock Scenario.L1 Scenario.A_holds_bolt_expired).1
    = (LockManager.heartbeat_lock Scenario.L1 Scenario.A_holds_bolt).1.
Proof.
  split.
  - split; [| reflexivity].
    assert (edit_locks (db Scenario.A_holds_bolt_expired) = [Scenario.row_L1]) as ->
      by (vm_compute; reflexivity).
    set_solver.
  - repeat split; vm_compute; reflexivity.
Qed.

(** ** What the reachable worlds do keep *)

Lemma find_app_lock (lock_id : UUID) (l l' : list edit_lock) :
  List.find (fun r => bool_decide (el_lock_id r = lock_id)) (l ++ l')
  = match List.find (fun r => bool_decide (el_lock_id r = lock_id)) l with
    | Some r => Some r
    | None => List.find (fun r => bool_decide (el_lock_id r = lock_id)) l'
    end.
Proof.
  induction l as [| r l IH]; [done |].
  simpl. by destruct (bool_decide (el_lock_id r = lock_id)).
Qed.

Lemma fetchrow_insert_old (lock_id : UUID) (row r : edit_lock) (d : DatabasePool) :
  fetchrow_edit_lock lock_id d = Some r →
  fetchrow_edit_lock lock_id (insert_edit_lock row d) = Some r.
Proof.
  unfold fetchrow_edit_lock, insert_edit_lock; simpl.
  intros Hr. by rewrite find_app_lock, Hr.
Qed.

Lemma fetchrow_insert_new (row : edit_lock) (d : DatabasePool) :
  fetchrow_edit_lock (el_lock_id row) d = None →
  fetchrow_edit_lock (el_lock_id row) (insert_edit_lock row d) = Some row.
Proof.
  unfold fetchrow_edit_lock, insert_edit_lock; simpl.
  intros Hr. rewrite find_app_lock, Hr. simpl.
  by rewrite bool_decide_eq_true_2.
Qed.

Lemma fetchrow_update_set_inactive_ne (lock_id lock_id' : UUID) (d : DatabasePool) :
  lock_id ≠ lock_id' →
  fetchrow_edit_lock lock_id' (update_set_inactive lock_id d)
  = fetchrow_edit_lock lock_id' d.
Proof.
  intros Hne. unfold fetchrow_edit_lock, update_set_inactive; simpl.
  rewrite find_map_preserving by (intros r; by case_match).
  destruct (List.find _ (edit_locks d)) as [r |] eqn:Hfind; [| done].
  apply find_some in Hfind as [_ Hid%bool_decide_eq_true]. simpl.
  rewrite bool_decide_eq_false_2; [done | congruence].
Qed.

Lemma kv_backed_boot (t : Z) : kv_backed (boot t).
Proof. intros twin_id record expiry Hlook. simpl in Hlook. done. Qed.

Lemma kv_backed_acquire (lock_id twin_id user_id session_id : UUID)
    (components : list string) (lock_type : string) (timeout : Z) (w : World) :
  kv_backed w →
  fetchrow_edit_lock lock_id (db w) = None →
  kv_backed (LockManager.acquire_lock lock_id twin_id user_id session_id
               components lock_type timeout w).2.
Proof.
  intros Hinv Hfresh. unfold LockManager.acquire_lock.
  destruct (match redis_get twin_id w with
            | Some existing_data =>
                LockManager.existing_conflicts existing_data components lock_type
            | None => false
            end); [done |].
  destruct (datetime_add (utcnow w) timeout) as [expires_at |]; [| done].
  unfold redis_set_nx_ex.
  case_bool_decide; [done |].
  destruct (redis_live w twin_id); [done |]. simpl.
  intros twin' record expiry Hlook. simpl in Hlook.
  destruct (decide (twin_id = twin')) as [<- | Hne].
  - rewrite lookup_insert_eq in Hlook. injection Hlook as <- <-. simpl.
    split; [done |]. eexists. split.
    + by apply (fetchrow_insert_new
                  {| el_lock_id := lock_id; el_twin_id := twin_id;
                     el_user_id := user_id; el_session_id := session_id;
                     el_lock_type := lock_type;
                     el_locked_components := components;
                     el_expires_at := expires_at;
                     el_heartbeat_at := utcnow w; el_is_active := true |}).
    + done.
  - rewrite lookup_insert_ne in Hlook by done.
    destruct (Hinv _ _ _ Hlook) as (Htwin & row & Hrow & Hrest).
    split; [done |]. exists row. split; [| done].
    by apply fetchrow_insert_old.
Qed.

Lemma kv_backed_release (lock_id : UUID) (w : World) :
  kv_backed w → kv_backed (LockManager.release_lock lock_id w).2.
Proof.
  intros Hinv. unfold LockManager.release_lock.
  destruct (fetchrow_edit_lock lock_id (db w)) as [lock |] eqn:Hlock; [| done].
  simpl. intros twin' record expiry Hlook. simpl in Hlook.
  destruct (decide (el_twin_id lock = twin')) as [<- | Hne].
  - by rewrite lookup_delete_eq in Hlook.
  - rewrite lookup_delete_ne in Hlook by done.
    destruct (Hinv _ _ _ Hlook) as (Htwin & row & Hrow & Hactive & Hrowtwin & Hrest).
    split; [done |]. exists row. split; [| done].
    simpl. rewrite fetchrow_update_set_inactive_ne; [done |].
    intros Heq. rewrite <- Heq, Hlock in Hrow. injection Hrow as <-. done.
Qed.

Lemma kv_backed_heartbeat (lock_id : UUID) (w : World) :
  kv_backed w → kv_backed (LockManager.heartbeat_lock lock_id w).2.
Proof.
  intros Hinv.
  assert (kv_backed (set_db (update_heartbeat lock_id (utcnow w) (db w)) w))
    as Hstamped.
  { intros twin' record expiry Hlook. simpl in Hlook.
    destruct (Hinv _ _ _ Hlook) as (Htwin & row & Hrow & Hrest).
    split; [done |]. simpl.
    unfold fetchrow_edit_lock, update_heartbeat in *; simpl.
    rewrite find_map_preserving by (intros r; by repeat case_match).
    rewrite Hrow. simpl. eexists. split; [done |].
    by destruct (bool_decide (el_lock_id row = lock_id) && el_is_active row). }
  unfold LockManager.heartbeat_lock.
  destruct (fetchrow_edit_lock lock_id _) as [lock |]; [| done]. simpl.
  unfold redis_expire.
  destruct (redis_live _ (el_twin_id lock)) as [v |] eqn:Hlive; [| done].
  rewrite bool_decide_eq_false_2 by lia.
  intros twin' record expiry Hlook. simpl in Hlook.
  destruct (decide (el_twin_id lock = twin')) as [<- | Hne].
  - rewrite lookup_insert_eq in Hlook. injection Hlook as <- <-.
    unfold redis_live in Hlive. simpl in Hlive.
    destruct (cache w !! el_twin_id lock) as [[v' expiry'] |] eqn:Hold; [| done].
    case_bool_decide; [| done]. injection Hlive as ->.
    by apply (Hstamped (el_twin_id lock) v expiry').
  - rewrite lookup_insert_ne in Hlook by done.
    by apply (Hstamped twin' record expiry).
Qed.

Lemma kv_backed_call (c : lock_call) (w : World) :
  kv_backed w → admissible c w → kv_backed (run_call c w).
Proof.
  intros Hinv Hadm. destruct c; simpl in *.
  - by apply kv_backed_acquire.
  - by apply kv_backed_release.
  - by apply kv_backed_heartbeat.
  - done.
Qed.

(** In every reachable world, the one lock a twin's key holds is an active
    lock: the KV never keeps a released lock alive. The converse fails: a
    row can stay active after its record is gone. *)
Lemma reachable_kv_backed (w : World) : reachable w → kv_backed w.
Proof.
  induction 1 as [t | c w Hreach IH Hadm].
  - apply kv_backed_boot.
  - by apply kv_backed_call.
Qed.

Lemma live_holder_is_active (w : World) (twin_id : UUID) (holder : lock_data) :
  reachable w →
  redis_get twin_id w = Some holder →
  ∃ row, active_lock w row
         ∧ el_lock_id row = ld_lock_id holder
         ∧ el_twin_id row = twin_id
         ∧ el_locked_components row = ld_components holder.
Proof.
  intros Hreach Hget. unfold redis_get, redis_live in Hget.
  destruct (cache w !! twin_id) as [[record expiry] |] eqn:Hlook; [| done].
  case_bool_decide; [| done]. injection Hget as ->.
  destruct (reachable_kv_backed w Hreach _ _ _ Hlook)
    as (_ & row & Hrow & Hactive & Htwin & _ & Hcomps).
  exists row. unfold fetchrow_edit_lock in Hrow.
  apply find_some in Hrow as [Hin Hid%bool_decide_eq_true].
  repeat split; try done. by apply list_elem_of_In.
Qed.

End LockManagerSpec.

(** * Properties of the broadcast and of the edit pipeline *)

Module EditPipelineSpec.

Import Main.

Section Broadcast.

Variables (message : frame) (exclude_session : option string).

Lemma broadcast_step_lookup (acc : gmap string WebSocket * list string)
    (x session_id : string) :
  (ConnectionManager.broadcast_step message exclude_session acc x).1 !! session_id
  = served message exclude_session [x] session_id <$> acc.1 !! session_id.
Proof.
  unfold ConnectionManager.broadcast_step, send_json, served.
  destruct (decide (session_id = x)) as [-> | Hne].
  - rewrite (bool_decide_eq_true_2 (x ∈ [x])) by constructor.
    case_bool_decide; simpl.
    + by destruct (acc.1 !! x).
    + destruct (acc.1 !! x) as [websocket |] eqn:Hlook; [| by rewrite Hlook].
      destruct (json_serializable message); simpl; [| by rewrite Hlook].
      destruct (ws_open websocket) eqn:Hopen; simpl.
      * by rewrite lookup_insert_eq.
      * by rewrite Hlook.
  - rewrite (bool_decide_eq_false_2 (session_id ∈ [x]))
      by (by rewrite list_elem_of_singleton).
    simpl.
    assert ((fun websocket : WebSocket => websocket) <$> acc.1 !! session_id
            = acc.1 !! session_id) as -> by (by destruct (acc.1 !! session_id)).
    case_bool_decide; [done |].
    destruct (acc.1 !! x) as [websocket |]; [| done].
    destruct (json_serializable message); simpl; [| done].
    destruct (ws_open websocket); simpl; [| done].
    by rewrite lookup_insert_ne.
Qed.

Lemma served_cons (x : string) (l : list string) (session_id : string)
    (websocket : WebSocket) :
  x ∉ l →
  served message exclude_session l session_id
    (served message exclude_session [x] session_id websocket)
  = served message exclude_session (x :: l) session_id websocket.
Proof.
  intros Hx. unfold served.
  destruct (decide (session_id = x)) as [-> | Hne].
  - rewrite (bool_decide_eq_false_2 (x ∈ l)) by done.
    rewrite (bool_decide_eq_true_2 (x ∈ [x])) by constructor.
    rewrite (bool_decide_eq_true_2 (x ∈ x :: l)) by constructor. done.
  - rewrite (bool_decide_eq_false_2 (session_id ∈ [x]))
      by (by rewrite list_elem_of_singleton).
    assert (bool_decide (session_id ∈ x :: l) = bool_decide (session_id ∈ l)) as ->
      by (apply bool_decide_ext; rewrite elem_of_cons; tauto).
    done.
Qed.

Lemma broadcast_loop_lookup (l : list string) :
  ∀ (acc : gmap string WebSocket * list string) (session_id : string),
    NoDup l →
    (foldl (ConnectionManager.broadcast_step message exclude_session) acc l).1
      !! session_id
    = served message exclude_session l session_id <$> acc.1 !! session_id.
Proof.
  induction l as [| x l IH]; intros acc s Hnd; simpl.
  - destruct (acc.1 !! s) as [websocket |]; [| done].
    simpl. unfold served.
    rewrite bool_decide_eq_false_2 by apply not_elem_of_nil. done.
  - apply NoDup_cons in Hnd as [Hx Hnd].
    rewrite IH, broadcast_step_lookup by done.
    destruct (acc.1 !! s) as [websocket |]; [| done].
    simpl. by rewrite served_cons.
Qed.

(** A broadcast delivers a message that can be encoded once to every
    subscriber of the twin that is connected with an open transport and is
    not the excluded session, and touches no other transport. *)
Lemma broadcast_to_twin_lookup (twin_id : UUID) (self : ConnectionManager.t)
    (subscribers : gset string) (session_id : string) :
  ConnectionManager.twin_subscribers self !! twin_id = Some subscribers →
  ConnectionManager.active_connections
    (ConnectionManager.broadcast_to_twin twin_id message exclude_session self)
    !! session_id
  = served message exclude_session (elements subscribers) session_id
      <$> ConnectionManager.active_connections self !! session_id.
Proof.
  intros Hsubs. unfold ConnectionManager.broadcast_to_twin. rewrite Hsubs. simpl.
  rewrite broadcast_loop_lookup by apply NoDup_elements. done.
Qed.

Lemma broadcast_to_twin_delivers (twin_id : UUID) (self : ConnectionManager.t)
    (subscribers : gset string) (session_id : string) (websocket : WebSocket) :
  ConnectionManager.twin_subscribers self !! twin_id = Some subscribers →
  session_id ∈ subscribers →
  Some session_id ≠ exclude_session →
  ConnectionManager.active_connections self !! session_id = Some websocket →
  json_serializable message = true →
  ws_open websocket = true →
  ConnectionManager.active_connections
    (ConnectionManager.broadcast_to_twin twin_id message exclude_session self)
    !! session_id
  = Some {| ws_sent := ws_sent websocket ++ [message]; ws_open := true |}.
Proof.
  intros Hsubs Hin Hex Hconn Hjson Hopen.
  rewrite (broadcast_to_twin_lookup _ _ subscribers) by done.
  rewrite Hconn. simpl. unfold served.
  rewrite bool_decide_eq_true_2 by (by apply elem_of_elements).
  rewrite bool_decide_eq_false_2 by done. by rewrite Hjson, Hopen.
Qed.

(** A message the encoder refuses reaches no transport at all. *)
Lemma broadcast_to_twin_unserializable (twin_id : UUID) (self : ConnectionManager.t) :
  json_serializable message = false →
  ConnectionManager.active_connections
    (ConnectionManager.broadcast_to_twin twin_id message exclude_session self)
  = ConnectionManager.active_connections self.
Proof.
  intros Hjson. apply map_eq. intros session_id.
  destruct (ConnectionManager.twin_subscribers self !! twin_id) as [subscribers |]
    eqn:Hsubs.
  - rewrite (broadcast_to_twin_lookup _ _ subscribers) by done.
    destruct (ConnectionManager.active_connections self !! session_id); [| done].
    simpl. unfold served. by rewrite Hjson, andb_false_r.
  - unfold ConnectionManager.broadcast_to_twin. by rewrite Hsubs.
Qed.

Lemma broadcast_to_twin_skips (twin_id : UUID) (self : ConnectionManager.t)
    (session_id : string) :
  exclude_session = Some session_id
  ∨ (∀ subscribers, ConnectionManager.twin_subscribers self !! twin_id
                    = Some subscribers → session_id ∉ subscribers) →
  ConnectionManager.active_connections
    (ConnectionManager.broadcast_to_twin twin_id message exclude_session self)
    !! session_id
  = ConnectionManager.active_connections self !! session_id.
Proof.
  intros Hskip.
  destruct (ConnectionManager.twin_subscribers self !! twin_id) as [subscribers |]
    eqn:Hsubs.
  - rewrite (broadcast_to_twin_lookup _ _ subscribers) by done.
    destruct (ConnectionManager.active_connections self !! session_id); [| done].
    simpl. unfold served. destruct Hskip as [-> | Hnot].
    + rewrite (bool_decide_eq_true_2 (Some session_id = Some session_id)) by done.
      simpl. by rewrite andb_false_r.
    + rewrite bool_decide_eq_false_2; [done |].
      rewrite elem_of_elements. by apply Hnot.
  - unfold ConnectionManager.broadcast_to_twin. by rewrite Hsubs.
Qed.

End Broadcast.

Lemma edit_frames_for_app (operation_id : UUID) (websocket : WebSocket) (f : frame) :
  edit_frames_for operation_id
    {| ws_sent := ws_sent websocket ++ [f]; ws_open := true |}
  = edit_frames_for operation_id websocket
    ++ edit_frames_for operation_id {| ws_sent := [f]; ws_open := true |}.
Proof. unfold edit_frames_for; simpl. by rewrite List.filter_app. Qed.

(** C1, as amended. [POST /edit-operations] checks no lock: in every world,
    whatever [edit_locks] and Redis hold, the answer is the new operation id,
    the operation is appended to [edit_operations] under that id, and the
    locks are left as they were. *)
Theorem submit_edit_operation_checks_no_lock
    (operation_id : UUID) (operation : EditOperation) (current_user : UUID)
    (w : World) :
  (submit_edit_operation operation_id operation current_user w).1
  = HttpOk operation_id
  ∧ (∃ row,
       edit_operations (db (submit_edit_operation operation_id operation
                              current_user w).2)
       = edit_operations (db w) ++ [row]
       ∧ er_operation_id row = operation_id
       ∧ er_user_id row = current_user
       ∧ er_twin_id row = eo_twin_id operation
       ∧ er_component_path row = eo_component_path operation)
  ∧ edit_locks (db (submit_edit_operation operation_id operation current_user w).2)
    = edit_locks (db w)
  ∧ cache (submit_edit_operation operation_id operation current_user w).2
    = cache w.
Proof.
  unfold submit_edit_operation. simpl. repeat split; try done.
  eexists. repeat split; done.
Qed.

(** C1 fails as worded: nobody holds any lock, A posts an edit of
    [chassis.bolt1]; the answer is 200 with the id, and the row is stored. *)
Lemma unlocked_edit_is_accepted :
  ¬ holds_covering_lock Scenario.three_subscribers Scenario.user_A
      Scenario.twin_T "chassis.bolt1"
  ∧ (submit_edit_operation Scenario.op_id Scenario.move_bolt Scenario.user_A
       Scenario.three_subscribers).1 = HttpOk Scenario.op_id
  ∧ (er_operation_id
       <$> edit_operations
             (db (submit_edit_operation Scenario.op_id Scenario.move_bolt
                    Scenario.user_A Scenario.three_subscribers).2))
    = [Scenario.op_id].
Proof.
  split.
  - intros (r & [Hin _] & _). simpl in Hin. set_solver.
  - repeat split; vm_compute; reflexivity.
Qed.

(** C4 fails on the code. S1, S2 and S3 subscribe to T on open transports
    and A, whose session is S1, posts an edit: the operation is accepted,
    and no transport is delivered any frame, those of S2 and S3 included,
    because the envelope cannot be encoded; each send having raised, the
    three sessions are no longer subscribers of T. *)
Theorem edit_operation_frame_reaches_nobody :
  ConnectionManager.twin_subscribers (manager Scenario.three_subscribers)
    !! Scenario.twin_T = Some {["S1"; "S2"; "S3"]}
  ∧ (∀ session_id, session_id ∈ ["S1"; "S2"; "S3"] →
       ConnectionManager.active_connections (manager Scenario.three_subscribers)
         !! session_id = Some Scenario.fresh_socket)
  ∧ (submit_edit_operation Scenario.op_id Scenario.move_bolt Scenario.user_A
       Scenario.three_subscribers).1 = HttpOk Scenario.op_id
  ∧ (∀ session_id, session_id ∈ ["S2"; "S3"] →
       edit_frames_for Scenario.op_id
         <$> ConnectionManager.active_connections
               (manager (submit_edit_operation Scenario.op_id Scenario.move_bolt
                           Scenario.user_A Scenario.three_subscribers).2)
             !! session_id
       = Some [])
  ∧ ConnectionManager.active_connections
      (manager (submit_edit_operation Scenario.op_id Scenario.move_bolt
                  Scenario.user_A Scenario.three_subscribers).2)
    = ConnectionManager.active_connections (manager Scenario.three_subscribers)
  ∧ ConnectionManager.twin_subscribers
      (manager (submit_edit_operation Scenario.op_id Scenario.move_bolt
                  Scenario.user_A Scenario.three_subscribers).2)
      !! Scenario.twin_T = Some ∅.
Proof.
  assert (∀ session_id, session_id ∈ ["S1"; "S2"; "S3"] →
            ConnectionManager.active_connections
              (manager Scenario.three_subscribers) !! session_id
            = Some Scenario.fresh_socket) as Hconnected.
  { intros session_id Hin. repeat (apply elem_of_cons in Hin as [-> | Hin]);
      [vm_compute; reflexivity .. | by apply not_elem_of_nil in Hin]. }
  assert (ConnectionManager.active_connections
            (manager (submit_edit_operation Scenario.op_id Scenario.move_bolt
                        Scenario.user_A Scenario.three_subscribers).2)
          = ConnectionManager.active_connections
              (manager Scenario.three_subscribers)) as Hsame.
  { unfold submit_edit_operation. simpl.
    by apply broadcast_to_twin_unserializable. }
  split; [vm_compute; reflexivity |].
  split; [exact Hconnected |].
  split; [reflexivity |].
  split; [| split; [exact Hsame | vm_compute; reflexivity]].
  intros session_id Hin. rewrite Hsame, Hconnected; [reflexivity |].
  by apply elem_of_cons; right.
Qed.

End EditPipelineSpec.

(** * Properties of the maintenance agent *)

Module AgentSpec.

Import Agent.

Local Open Scope R_scope.

(** ** Bounds on the exponential *)

Section ExpSeries.

Variable x : R.
Hypothesis x_small : 0 <= x <= 1.

Lemma exp_term_decreasing : Un_decreasing (exp_term x).
Proof.
  intros n. unfold exp_term.
  assert (0 < INR (fact n)) as Hfact by apply INR_fact_lt_0.
  assert (0 <= x ^ n) as Hpow by (apply pow_le; lra).
  assert (0 <= INR n) as Hn by apply pos_INR.
  rewrite fact_simpl, mult_INR, S_INR. simpl.
  apply Rmult_le_reg_r with (INR (fact n) * (INR n + 1)); [nra |].
  field_simplify; [| lra | lra].
  nra.
Qed.

Lemma exp_term_alternated (i : nat) :
  tg_alt (exp_term x) i = / INR (fact i) * (- x) ^ i.
Proof.
  unfold tg_alt, exp_term.
  replace (- x) with (-1 * x) by lra.
  rewrite Rpow_mult_distr. unfold Rdiv. ring.
Qed.

Lemma exp_series_converges :
  Un_cv (fun N => sum_f_R0 (tg_alt (exp_term x)) N) (exp (- x)).
Proof.
  intros eps Heps.
  destruct (proj2_sig (exist_exp (- x)) eps Heps) as [N HN].
  exists N. intros n Hn. specialize (HN n Hn).
  erewrite sum_eq; [exact HN |].
  intros i _. apply exp_term_alternated.
Qed.

(** The partial sums of an alternating series with decreasing terms bracket
    its limit. *)
Lemma exp_neg_bracket :
  1 - x + x ^ 2 / 2 - x ^ 3 / 6 + x ^ 4 / 24 - x ^ 5 / 120 <= exp (- x)
  <= 1 - x + x ^ 2 / 2 - x ^ 3 / 6 + x ^ 4 / 24.
Proof.
  pose proof (alternated_series_ineq (exp_term x) (exp (- x)) 2
                exp_term_decreasing (cv_speed_pow_fact x) exp_series_converges)
    as [Hlow Hhigh].
  unfold sum_f_R0, tg_alt, exp_term in Hlow, Hhigh. simpl in Hlow, Hhigh.
  lra.
Qed.

End ExpSeries.

Lemma maint_score_30_days : 84.648 <= maint_score 30 <= 84.6484.
Proof.
  unfold maint_score.
  rewrite opp_IZR.
  replace (- (30) / 180) with (- (1 / 6)) by lra.
  pose proof (exp_neg_bracket (1 / 6) ltac:(lra)) as [Hlow Hhigh].
  lra.
Qed.

(** ** Python's [max] and [min] *)

Lemma py_max_Rmax (a b : R) : py_max a b = Rmax a b.
Proof.
  unfold py_max, Rmax.
  destruct (Rlt_dec a b), (Rle_dec a b); lra.
Qed.

Lemma py_min_Rmin (a b : R) : py_min a b = Rmin a b.
Proof.
  unfold py_min, Rmin.
  destruct (Rlt_dec b a), (Rle_dec a b); lra.
Qed.

Lemma py_max_0_pos (b : R) : 0 <= b → py_max 0 b = b.
Proof. intros Hb. unfold py_max. destruct (Rlt_dec 0 b); lra. Qed.

Lemma py_min_100_below (b : R) : b <= 100 → py_min 100 b = b.
Proof. intros Hb. unfold py_min. destruct (Rlt_dec b 100); lra. Qed.

(** ** Health scoring *)

Lemma vib_score_scenario : vib_score (Fin 0.4) = 50.
Proof.
  unfold vib_score, config.VIBRATION_CRITICAL. simpl.
  rewrite py_max_0_pos; lra.
Qed.

Lemma temp_score_scenario : temp_score (Fin 60) = 700 / 19.
Proof.
  unfold temp_score, config.TEMPERATURE_CRITICAL. simpl.
  rewrite py_max_0_pos; lra.
Qed.

Lemma wear_score_scenario : wear_score (Fin 30) = 70.
Proof.
  unfold wear_score. simpl. rewrite py_max_0_pos; lra.
Qed.

Lemma health_score_scenario_bounds :
  58.6395 <= calculate_health_score (Fin 0.4) (Fin 60) (Fin 2000) (Fin 30) 30
  <= 58.6403.
Proof.
  unfold calculate_health_score, weighted_average.
  rewrite vib_score_scenario, temp_score_scenario, wear_score_scenario.
  pose proof maint_score_30_days as [Hlow Hhigh].
  rewrite py_min_100_below by lra.
  rewrite py_max_0_pos by lra.
  lra.
Qed.

(** C7, as amended. For vibration 0.4 g, temperature 60 °C, rpm 2000, tool
    wear 30 % and 30 days since maintenance: [vib_score] is 50, [temp_score]
    is 36.84 and [maint_score] 84.65 to two decimals, [wear_score] is 70, and
    the composite health score is within 0.1 of 58.6. *)
Theorem health_score_scenario :
  vib_score (Fin 0.4) = 50
  ∧ Rabs (temp_score (Fin 60) - 36.84) <= 0.005
  ∧ wear_score (Fin 30) = 70
  ∧ Rabs (maint_score 30 - 84.65) <= 0.005
  ∧ Rabs (calculate_health_score (Fin 0.4) (Fin 60) (Fin 2000) (Fin 30) 30 - 58.6)
    <= 0.1.
Proof.
  pose proof maint_score_30_days as [Hlow Hhigh].
  pose proof health_score_scenario_bounds as [Hlow' Hhigh'].
  repeat split.
  - apply vib_score_scenario.
  - rewrite temp_score_scenario. apply Rabs_le. lra.
  - apply wear_score_scenario.
  - apply Rabs_le. lra.
  - apply Rabs_le. lra.
Qed.

(** C7 fails as worded: the composite score of the scenario is 58.64, three
    points away from 55.6. *)
Lemma health_score_scenario_is_not_55_6 :
  ¬ Rabs (calculate_health_score (Fin 0.4) (Fin 60) (Fin 2000) (Fin 30) 30 - 55.6)
    <= 0.1.
Proof.
  pose proof health_score_scenario_bounds as [Hlow Hhigh].
  intros Habs.
  pose proof (Rle_abs (calculate_health_score (Fin 0.4) (Fin 60) (Fin 2000)
                         (Fin 30) 30 - 55.6)).
  lra.
Qed.

(** ** Days since maintenance *)

(** The difference of the two dates is the whole number of days from the
    midnight that starts the maintenance date to [now]. *)
Lemma date_difference_whole_days (now last : Z) :
  (date_of now - last = (now - last * 86400) / 86400)%Z.
Proof.
  unfold date_of.
  replace (now - last * 86400)%Z with (now + (- last) * 86400)%Z by lia.
  rewrite Z.div_add by lia. lia.
Qed.

(** C6, as amended. In the health assessment of a node, the days since
    maintenance are 9999 whenever the node has no telemetry in the last five
    minutes, whatever its maintenance date; with telemetry they are the
    whole number of days between now and the last maintenance date when the
    date is known, and 0 when it is not (no row for the node, or a NULL
    date). *)
Theorem days_since_maintenance_cases (node_id : UUID) (now : Z) (d : Database) :
  (fetch_recent_telemetry node_id now d = [] →
   last_maintenance_days (assess_node_health node_id now d) = 9999%Z)
  ∧ (fetch_recent_telemetry node_id now d ≠ [] →
     ∀ info last,
       fetchrow_node_info node_id d = Some info →
       mn_last_maintenance_date info = Some last →
       last_maintenance_days (assess_node_health node_id now d)
       = ((now - last * 86400) / 86400)%Z)
  ∧ (fetch_recent_telemetry node_id now d ≠ [] →
     fetchrow_node_info node_id d = None
     ∨ (∃ info, fetchrow_node_info node_id d = Some info
                ∧ mn_last_maintenance_date info = None) →
     last_maintenance_days (assess_node_health node_id now d) = 0%Z).
Proof.
  unfold assess_node_health. split; [| split].
  - by intros ->.
  - intros Hsome info last Hinfo Hlast.
    destruct (fetch_recent_telemetry node_id now d); [done |]. simpl.
    unfold days_since_maintenance. rewrite Hinfo, Hlast.
    apply date_difference_whole_days.
  - intros Hsome Hunknown.
    destruct (fetch_recent_telemetry node_id now d); [done |]. simpl.
    unfold days_since_maintenance.
    destruct Hunknown as [-> | (info & -> & ->)]; done.
Qed.

Lemma fetch_one_strong_sample (d : Database) :
  telemetry_data d = AgentScenario.one_strong_sample →
  fetch_recent_telemetry AgentScenario.node_N AgentScenario.now d
  = AgentScenario.one_strong_sample.
Proof. intros Hd. unfold fetch_recent_telemetry. rewrite Hd. reflexivity. Qed.

Lemma days_since_maintenance_cases_witness :
  last_maintenance_days
    (assess_node_health AgentScenario.node_N AgentScenario.now
       AgentScenario.silent_node) = 9999%Z
  ∧ last_maintenance_days
      (assess_node_health AgentScenario.node_N AgentScenario.now
         AgentScenario.date_known) = 6%Z
  ∧ last_maintenance_days
      (assess_node_health AgentScenario.node_N AgentScenario.now
         AgentScenario.date_unknown) = 0%Z.
Proof.
  split; [| split].
  - apply (proj1 (days_since_maintenance_cases AgentScenario.node_N
                    AgentScenario.now AgentScenario.silent_node)).
    reflexivity.
  - rewrite (proj1 (proj2 (days_since_maintenance_cases AgentScenario.node_N
                             AgentScenario.now AgentScenario.date_known))
               ltac:(by rewrite fetch_one_strong_sample)
               _ 5%Z ltac:(reflexivity) ltac:(reflexivity)).
    reflexivity.
  - apply (proj2 (proj2 (days_since_maintenance_cases AgentScenario.node_N
                           AgentScenario.now AgentScenario.date_unknown))).
    + by rewrite fetch_one_strong_sample.
    + right. eexists. split; reflexivity.
Defined.

(** C6 fails as worded: N has fresh telemetry and no maintenance date on
    record, and the assessment reports 0 days, not 9999. *)
Lemma unknown_date_counts_zero_days :
  (mn_last_maintenance_date
     <$> fetchrow_node_info AgentScenario.node_N AgentScenario.date_unknown)
  = Some None
  ∧ last_maintenance_days
      (assess_node_health AgentScenario.node_N AgentScenario.now
         AgentScenario.date_unknown) = 0%Z
  ∧ last_maintenance_days
      (assess_node_health AgentScenario.node_N AgentScenario.now
         AgentScenario.date_unknown) ≠ 9999%Z.
Proof.
  assert (last_maintenance_days
            (assess_node_health AgentScenario.node_N AgentScenario.now
               AgentScenario.date_unknown) = 0%Z) as Hzero.
  { unfold assess_node_health. by rewrite fetch_one_strong_sample. }
  split; [reflexivity |]. split; [exact Hzero |]. rewrite Hzero. lia.
Qed.

(** ** The short-term failure predictor *)

Lemma truthy_nonzero (v : R) : v ≠ 0 → truthy (Some v) = true.
Proof. intros Hv. unfold truthy. by destruct (Req_dec_T v 0). Qed.

Lemma vibration_magnitudes_sample (time : Z) (x y z : R) (rest : list telemetry) :
  x ≠ 0 → y ≠ 0 → z ≠ 0 →
  vibration_magnitudes (AgentScenario.sample time x y z :: rest)
  = sqrt (x ^ 2 + y ^ 2 + z ^ 2) :: vibration_magnitudes rest.
Proof.
  intros Hx Hy Hz. unfold vibration_magnitudes. simpl.
  by destruct (Req_dec_T x 0), (Req_dec_T y 0), (Req_dec_T z 0).
Qed.

Lemma sqrt_of_square (a b : R) : 0 <= b → a = b * b → sqrt a = b.
Proof. intros Hb ->. by apply sqrt_square. Qed.

Lemma strong_sample_magnitude : sqrt (0.3 ^ 2 + 0.6 ^ 2 + 0.6 ^ 2) = 0.9.
Proof. apply sqrt_of_square; lra. Qed.

Lemma calm_sample_magnitude : sqrt (0.1 ^ 2 + 0.2 ^ 2 + 0.2 ^ 2) = 0.3.
Proof. apply sqrt_of_square; lra. Qed.

Lemma np_mean_two (a b : R) : np_mean [a; b] = Fin ((a + b) / 2).
Proof. unfold np_mean, sum. simpl. f_equal. lra. Qed.

(** C8, as amended. With fewer than two samples whose three vibration axes
    are all non-zero, [predict_failure_time] answers [None]; with two or
    more, it answers 0 when their mean magnitude is at least the critical
    vibration, and 720 × (1 − mean / critical), clamped at 0, otherwise. *)
Theorem predict_failure_time_cases (node_id : UUID) (recent_data : list telemetry) :
  ((length (vibration_magnitudes recent_data) < 2)%nat →
   predict_failure_time node_id recent_data = None)
  ∧ ((2 <= length (vibration_magnitudes recent_data))%nat →
     ∃ mean,
       np_mean (vibration_magnitudes recent_data) = Fin mean
       ∧ (config.VIBRATION_CRITICAL <= mean →
          predict_failure_time node_id recent_data = Some 0)
       ∧ (mean < config.VIBRATION_CRITICAL →
          predict_failure_time node_id recent_data
          = Some (Rmax 0 (720 * (1 - mean / config.VIBRATION_CRITICAL))))).
Proof.
  unfold predict_failure_time. split.
  - intros Hfew. destruct recent_data as [| t rest]; [done |].
    apply Nat.ltb_lt in Hfew. by rewrite Hfew.
  - intros Hmany. destruct recent_data as [| t rest]; [simpl in Hmany; lia |].
    assert ((length (vibration_magnitudes (t :: rest)) <? 2)%nat = false) as ->
      by (apply Nat.ltb_ge; lia).
    destruct (vibration_magnitudes (t :: rest)) as [| v vs] eqn:Hv;
      [simpl in Hmany; lia |].
    exists (sum (v :: vs) / INR (length (v :: vs))). split; [done |].
    unfold np_mean. split.
    + intros Hge. destruct (Rle_dec _ _); [done | lra].
    + intros Hlt. destruct (Rle_dec _ _); [lra |]. by rewrite py_max_Rmax.
Qed.

Lemma predict_failure_time_cases_witness :
  predict_failure_time AgentScenario.node_N AgentScenario.one_strong_sample = None
  ∧ predict_failure_time AgentScenario.node_N AgentScenario.two_strong_samples
    = Some 0
  ∧ predict_failure_time AgentScenario.node_N AgentScenario.two_calm_samples
    = Some (Rmax 0 (720 * (1 - 0.3 / config.VIBRATION_CRITICAL))).
Proof.
  assert (vibration_magnitudes AgentScenario.one_strong_sample = [0.9]) as Hone.
  { unfold AgentScenario.one_strong_sample.
    rewrite vibration_magnitudes_sample by lra.
    by rewrite strong_sample_magnitude. }
  assert (vibration_magnitudes AgentScenario.two_strong_samples = [0.9; 0.9])
    as Hstrong.
  { unfold AgentScenario.two_strong_samples.
    rewrite !vibration_magnitudes_sample by lra.
    by rewrite strong_sample_magnitude. }
  assert (vibration_magnitudes AgentScenario.two_calm_samples = [0.3; 0.3])
    as Hcalm.
  { unfold AgentScenario.two_calm_samples.
    rewrite !vibration_magnitudes_sample by lra.
    by rewrite calm_sample_magnitude. }
  split; [| split].
  - apply (proj1 (predict_failure_time_cases AgentScenario.node_N
                    AgentScenario.one_strong_sample)).
    rewrite Hone. simpl. lia.
  - destruct (proj2 (predict_failure_time_cases AgentScenario.node_N
                       AgentScenario.two_strong_samples))
      as (mean & Hmean & Hge & _).
    + rewrite Hstrong. simpl. lia.
    + apply Hge. rewrite Hstrong, np_mean_two in Hmean.
      injection Hmean as <-. unfold config.VIBRATION_CRITICAL. lra.
  - destruct (proj2 (predict_failure_time_cases AgentScenario.node_N
                       AgentScenario.two_calm_samples))
      as (mean & Hmean & _ & Hlt).
    + rewrite Hcalm. simpl. lia.
    + rewrite Hcalm, np_mean_two in Hmean. injection Hmean as Hmean.
      replace ((0.3 + 0.3) / 2) with 0.3 in Hmean by lra. subst mean.
      apply Hlt. unfold config.VIBRATION_CRITICAL. lra.
Defined.

(** C8 fails as worded: the window holds one sample, of 0.9 g; its mean
    is above the critical 0.8 g, and the answer is [None], not 0. *)
Lemma one_strong_sample_predicts_nothing :
  np_mean (vibration_magnitudes AgentScenario.one_strong_sample) = Fin 0.9
  ∧ config.VIBRATION_CRITICAL <= 0.9
  ∧ predict_failure_time AgentScenario.node_N AgentScenario.one_strong_sample
    = None.
Proof.
  assert (vibration_magnitudes AgentScenario.one_strong_sample = [0.9]) as Hone.
  { unfold AgentScenario.one_strong_sample.
    rewrite vibration_magnitudes_sample by lra.
    by rewrite strong_sample_magnitude. }
  split; [| split].
  - rewrite Hone. unfold np_mean, sum. simpl. f_equal. lra.
  - unfold config.VIBRATION_CRITICAL. lra.
  - unfold predict_failure_time, AgentScenario.one_strong_sample.
    fold AgentScenario.one_strong_sample. rewrite Hone. reflexivity.
Qed.

(** ** Ticket deduplication *)

Lemma fetchrow_duplicate_found (node_id : UUID) (title : string) (now : Z)
    (d : Database) (existing : ticket) :
  existing ∈ maintenance_tickets d →
  is_duplicate_of node_id title now existing = true →
  is_Some (fetchrow_duplicate node_id title now d).
Proof.
  intros Hin Hdup. unfold fetchrow_duplicate.
  destruct (List.find _ (maintenance_tickets d)) as [t |] eqn:Hfind; [by eexists |].
  apply list_elem_of_In in Hin.
  pose proof (find_none _ _ Hfind _ Hin) as Hno. congruence.
Qed.

Lemma fetchrow_duplicate_none (node_id : UUID) (title : string) (now : Z)
    (d : Database) :
  tickets_for node_id title d = [] →
  fetchrow_duplicate node_id title now d = None.
Proof.
  unfold tickets_for, fetchrow_duplicate.
  induction (maintenance_tickets d) as [| t l IH]; [done |].
  simpl. unfold is_duplicate_of at 1.
  destruct (bool_decide (tk_node_id t = node_id) && bool_decide (tk_title t = title));
    [done |]. simpl. exact IH.
Qed.

Lemma tickets_for_insert (node_id : UUID) (title : string) (t : ticket)
    (d : Database) :
  tk_node_id t = node_id → tk_title t = title →
  tickets_for node_id title (insert_ticket t d) = tickets_for node_id title d ++ [t].
Proof.
  intros Hn Ht. unfold tickets_for, insert_ticket. simpl.
  rewrite List.filter_app. simpl.
  by rewrite !bool_decide_eq_true_2.
Qed.

Lemma create_maintenance_ticket_suppressed
    (ticket_id node_id : UUID) (severity : Severity) (title description : string)
    (diagnostic_data : json) (now : Z) (d : Database) (existing : ticket) :
  existing ∈ maintenance_tickets d →
  is_duplicate_of node_id title now existing = true →
  create_maintenance_ticket ticket_id node_id severity title description
                            diagnostic_data now d = d.
Proof.
  intros Hin Hdup. unfold create_maintenance_ticket.
  by destruct (fetchrow_duplicate_found node_id title now d existing Hin Hdup)
    as [t ->].
Qed.

Lemma is_duplicate_of_recent (node_id : UUID) (title : string) (now : Z)
    (existing : ticket) :
  tk_node_id existing = node_id →
  tk_title existing = title →
  tk_status existing = "open" ∨ tk_status existing = "acknowledged" →
  (now - 86400 < tk_created_at existing)%Z →
  is_duplicate_of node_id title now existing = true.
Proof.
  intros Hnode Htitle Hstatus Hrecent. unfold is_duplicate_of.
  rewrite (bool_decide_eq_true_2 _ Hnode), (bool_decide_eq_true_2 _ Htitle),
    (bool_decide_eq_true_2 _ Hrecent).
  simpl. rewrite andb_true_r.
  destruct Hstatus as [-> | ->]; reflexivity.
Qed.

(** C9. When the pair (node, title) already has an open or acknowledged
    ticket created less than 24 hours before, creating a ticket for the pair
    changes nothing: no row is inserted, and a count of 1 stays 1. *)
Theorem create_maintenance_ticket_duplicate
    (ticket_id node_id : UUID) (severity : Severity) (title description : string)
    (diagnostic_data : json) (now : Z) (d : Database) (existing : ticket) :
  existing ∈ maintenance_tickets d →
  tk_node_id existing = node_id →
  tk_title existing = title →
  tk_status existing = "open" ∨ tk_status existing = "acknowledged" →
  (now - 86400 < tk_created_at existing)%Z →
  create_maintenance_ticket ticket_id node_id severity title description
                            diagnostic_data now d = d
  ∧ (length (tickets_for node_id title d) = 1%nat →
     length (tickets_for node_id title
               (create_maintenance_ticket ticket_id node_id severity title
                  description diagnostic_data now d)) = 1%nat).
Proof.
  intros Hin Hnode Htitle Hstatus Hrecent.
  assert (create_maintenance_ticket ticket_id node_id severity title description
                                    diagnostic_data now d = d) as Hsame.
  { apply create_maintenance_ticket_suppressed with existing; [done |].
    by apply is_duplicate_of_recent. }
  split; [exact Hsame |]. by rewrite Hsame.
Qed.

Lemma create_maintenance_ticket_duplicate_witness :
  create_maintenance_ticket 901%N AgentScenario.node_N CRITICAL
    AgentScenario.vibration_title "second" JNull AgentScenario.now
    AgentScenario.one_ticket = AgentScenario.one_ticket
  ∧ length (tickets_for AgentScenario.node_N AgentScenario.vibration_title
              (create_maintenance_ticket 901%N AgentScenario.node_N CRITICAL
                 AgentScenario.vibration_title "second" JNull AgentScenario.now
                 AgentScenario.one_ticket)) = 1%nat.
Proof.
  destruct (create_maintenance_ticket_duplicate 901%N AgentScenario.node_N
              CRITICAL AgentScenario.vibration_title "second" JNull
              AgentScenario.now AgentScenario.one_ticket
              AgentScenario.first_ticket)
    as [Hsame Hcount].
  - simpl. apply list_elem_of_singleton. reflexivity.
  - reflexivity.
  - reflexivity.
  - left. reflexivity.
  - simpl. unfold AgentScenario.now. lia.
  - split; [exact Hsame |]. apply Hcount. reflexivity.
Defined.

(** Scenario 5 of the specification: the pair has no ticket yet; two creates
    less than 24 hours apart leave exactly one row, the first. *)
Lemma create_maintenance_ticket_twice
    (id1 id2 node_id : UUID) (severity1 severity2 : Severity)
    (title description1 description2 : string) (data1 data2 : json)
    (now1 now2 : Z) (d : Database) :
  tickets_for node_id title d = [] →
  (now1 <= now2 < now1 + 86400)%Z →
  ∃ first,
    tickets_for node_id title
      (create_maintenance_ticket id2 node_id severity2 title description2 data2 now2
         (create_maintenance_ticket id1 node_id severity1 title description1 data1
            now1 d))
    = [first]
    ∧ tk_ticket_id first = id1 ∧ tk_created_at first = now1.
Proof.
  intros Hnone Hclose.
  unfold create_maintenance_ticket at 2.
  rewrite fetchrow_duplicate_none by done.
  eexists. split.
  - match goal with
    | |- context [create_maintenance_ticket _ _ _ _ _ _ _ (insert_ticket ?t d)] =>
        rewrite (create_maintenance_ticket_suppressed id2 node_id severity2 title
                   description2 data2 now2 (insert_ticket t d) t)
    end.
    + rewrite tickets_for_insert by reflexivity. rewrite Hnone. reflexivity.
    + unfold insert_ticket. simpl. apply elem_of_app. right. by constructor.
    + apply is_duplicate_of_recent; simpl; [done | done | by left | lia].
  - split; reflexivity.
Qed.

End AgentSpec.

(** * More on the lock manager *)

Module LockManagerMore.

Import Main.

Lemma redis_get_sleep (key : UUID) (seconds : Z) (w : World) :
  redis_get key (sleep seconds w)
  = match cache w !! key with
    | Some (v, expiry) =>
        if bool_decide (utcnow w + seconds < expiry) then Some v else None
    | None => None
    end.
Proof. reflexivity. Qed.

Lemma redis_get_set_db (key : UUID) (d : DatabasePool) (w : World) :
  redis_get key (set_db d w) = redis_get key w.
Proof. reflexivity. Qed.

Section Acquire.

Variables (lock_id twin_id user_id session_id : UUID).
Variables (components : list string) (lock_type : string) (timeout : Z).
Variable w : World.

Local Abbreviation result :=
  (LockManager.acquire_lock lock_id twin_id user_id session_id
                            components lock_type timeout w).

(** An acquire that does not hand out the lock id, because it answered
    Conflict, because the expiry overflowed or because Redis raised, has
    written nothing: neither the KV nor [edit_locks] has changed. *)
Theorem acquire_lock_refused_writes_nothing :
  (LockManager.acquire_lock lock_id twin_id user_id session_id
     components lock_type timeout w).1 ≠ Ret (Some lock_id) →
  (LockManager.acquire_lock lock_id twin_id user_id session_id
     components lock_type timeout w).2 = w.
Proof.
  unfold LockManager.acquire_lock.
  destruct (match redis_get twin_id w with
            | Some existing_data =>
                LockManager.existing_conflicts existing_data components lock_type
            | None => false
            end); [done |].
  destruct (datetime_add (utcnow w) timeout); [| done].
  unfold redis_set_nx_ex. case_bool_decide; [done |].
  destruct (redis_live w twin_id); [done |]. simpl. done.
Qed.

(** [acquire_lock] hands out the lock id exactly when the twin has no live
    record, the TTL is positive and the expiry is an instant a [datetime] can
    hold: one lock per twin at a time, whatever the lock types and the
    components. *)
Theorem acquire_lock_succeeds_iff :
  (LockManager.acquire_lock lock_id twin_id user_id session_id
     components lock_type timeout w).1 = Ret (Some lock_id)
  ↔ redis_get twin_id w = None ∧ 0 < timeout
    ∧ 0 <= utcnow w + timeout <= datetime_max.
Proof.
  split.
  - intros Hok.
    assert (0 <= utcnow w + timeout <= datetime_max) as Hrange.
    { destruct (decide (0 <= utcnow w + timeout <= datetime_max)) as [| Hout];
        [done |].
      exfalso. revert Hok. unfold LockManager.acquire_lock.
      destruct (match redis_get twin_id w with
                | Some existing_data =>
                    LockManager.existing_conflicts existing_data components
                                                   lock_type
                | None => false
                end); [done |].
      by rewrite LockManagerSpec.datetime_add_overflow. }
    destruct (redis_get twin_id w) as [holder |] eqn:Hget.
    + destruct (decide (0 < timeout)) as [Hpos | Hneg].
      * rewrite (LockManagerSpec.acquire_lock_held _ _ _ _ _ _ _ _ holder) in Hok
          by done. done.
      * exfalso. revert Hok. unfold LockManager.acquire_lock. rewrite Hget.
        destruct (LockManager.existing_conflicts _ _ _); [done |].
        destruct (datetime_add (utcnow w) timeout); [| done].
        unfold redis_set_nx_ex. by rewrite bool_decide_eq_true_2 by lia.
    + split; [done |]. split; [| done].
      destruct (decide (0 < timeout)) as [Hpos | Hneg]; [done |].
      destruct (LockManagerSpec.acquire_lock_bad_timeout lock_id twin_id user_id
                  session_id components lock_type timeout w Hget ltac:(lia))
        as [e He].
      rewrite He in Hok. done.
  - intros (Hfree & Hpos & Hrange). by apply LockManagerSpec.acquire_lock_free.
Qed.

End Acquire.

Lemma acquire_lock_refused_writes_nothing_witness :
  (LockManager.acquire_lock Scenario.L2 Scenario.twin_T Scenario.user_B
     Scenario.session_B ["wheel.axle"] "shared" 300 Scenario.A_shares_bolt).2
  = Scenario.A_shares_bolt.
Proof.
  apply acquire_lock_refused_writes_nothing.
  vm_compute. discriminate.
Defined.

Lemma acquire_lock_succeeds_iff_witness :
  (LockManager.acquire_lock Scenario.L1 Scenario.twin_T Scenario.user_A
     Scenario.session_A ["chassis.bolt1"] "shared" 300 (boot 0)).1
  = Ret (Some Scenario.L1)
  ∧ ¬ (LockManager.acquire_lock Scenario.L2 Scenario.twin_T Scenario.user_B
         Scenario.session_B ["wheel.axle"] "shared" 300 Scenario.A_shares_bolt).1
      = Ret (Some Scenario.L2).
Proof.
  split.
  - apply acquire_lock_succeeds_iff.
    split; [vm_compute; reflexivity |]. split; [lia |].
    unfold datetime_max. simpl. lia.
  - intros Hok. apply acquire_lock_succeeds_iff in Hok as [Hfree _].
    vm_compute in Hfree. discriminate.
Defined.

Section RoundTrip.

Variables (lock_id twin_id user_id session_id : UUID).
Variables (components : list string) (lock_type : string) (timeout : Z).
Variable w : World.

Hypothesis fresh_id : fetchrow_edit_lock lock_id (db w) = None.
Hypothesis free_twin : redis_get twin_id w = None.
Hypothesis positive_ttl : 0 < timeout.
Hypothesis expiry_in_range : 0 <= utcnow w + timeout <= datetime_max.

Local Abbreviation acquired :=
  (LockManager.acquire_lock lock_id twin_id user_id session_id
                            components lock_type timeout w).2.

Lemma acquired_cache :
  cache acquired
  = <[twin_id := ({| ld_lock_id := lock_id; ld_twin_id := twin_id;
                     ld_user_id := user_id; ld_session_id := session_id;
                     ld_components := components; ld_lock_type := lock_type;
                     ld_acquired_at := utcnow w;
                     ld_expires_at := utcnow w + timeout |},
                  utcnow w + timeout)]> (cache w)
  ∧ utcnow acquired = utcnow w.
Proof.
  unfold LockManager.acquire_lock. rewrite free_twin.
  rewrite LockManagerSpec.datetime_add_in_range by done.
  by rewrite LockManagerSpec.redis_set_nx_ex_free.
Qed.

Lemma acquired_row :
  ∃ row, fetchrow_edit_lock lock_id (db acquired) = Some row
         ∧ el_twin_id row = twin_id ∧ el_is_active row = true.
Proof.
  unfold LockManager.acquire_lock. rewrite free_twin.
  rewrite LockManagerSpec.datetime_add_in_range by done.
  rewrite LockManagerSpec.redis_set_nx_ex_free by done. simpl.
  eexists. split.
  - by apply (LockManagerSpec.fetchrow_insert_new
                {| el_lock_id := lock_id; el_twin_id := twin_id;
                   el_user_id := user_id; el_session_id := session_id;
                   el_lock_type := lock_type; el_locked_components := components;
                   el_expires_at := utcnow w + timeout;
                   el_heartbeat_at := utcnow w; el_is_active := true |}).
  - done.
Qed.

(** Acquire, with a TTL whose expiry [datetime] can hold, then release with
    the id that was handed out: the release answers [True], the twin's key
    is gone, the row is inactive, and the twin can be acquired again at
    once. *)
Theorem acquire_release_round_trip
    (lock_id' user_id' session_id' : UUID) (components' : list string)
    (lock_type' : string) :
  (LockManager.release_lock lock_id acquired).1 = true
  ∧ redis_get twin_id (LockManager.release_lock lock_id acquired).2 = None
  ∧ (∃ row, fetchrow_edit_lock lock_id
              (db (LockManager.release_lock lock_id acquired).2) = Some row
            ∧ el_is_active row = false)
  ∧ (LockManager.acquire_lock lock_id' twin_id user_id' session_id' components'
       lock_type' timeout (LockManager.release_lock lock_id acquired).2).1
    = Ret (Some lock_id').
Proof.
  destruct acquired_row as (row & Hrow & Htwin & Hactive).
  assert (redis_get twin_id (LockManager.release_lock lock_id acquired).2 = None)
    as Hgone.
  { unfold LockManager.release_lock. rewrite Hrow. simpl. rewrite Htwin.
    apply LockManagerSpec.redis_get_delete. }
  split; [| split; [exact Hgone | split]].
  - unfold LockManager.release_lock. by rewrite Hrow.
  - exists (deactivate row). split; [| done].
    by apply LockManagerSpec.release_lock_row_inactive.
  - apply LockManagerSpec.acquire_lock_free; [exact Hgone | done |].
    assert (utcnow (LockManager.release_lock lock_id acquired).2 = utcnow w)
      as ->; [| done].
    unfold LockManager.release_lock. rewrite Hrow. simpl.
    apply acquired_cache.
Qed.

(** With no heartbeat, a lock that was handed out is live for exactly
    [timeout] seconds. After that the key is gone, and the twin is free for
    the next caller, while the row of the lock is still marked active. *)
Theorem lock_lives_for_its_ttl (seconds : Z) :
  0 <= seconds →
  (seconds < timeout →
   ld_lock_id <$> redis_get twin_id (sleep seconds acquired) = Some lock_id)
  ∧ (timeout <= seconds →
     redis_get twin_id (sleep seconds acquired) = None
     ∧ ∃ row, fetchrow_edit_lock lock_id (db (sleep seconds acquired)) = Some row
              ∧ el_is_active row = true).
Proof.
  intros Hpos. destruct acquired_cache as [Hcache Hnow].
  rewrite redis_get_sleep, Hcache, Hnow, lookup_insert_eq. split.
  - intros Hlt. by rewrite bool_decide_eq_true_2 by lia.
  - intros Hge. rewrite bool_decide_eq_false_2 by lia. split; [done |].
    destruct acquired_row as (row & Hrow & _ & Hactive). by exists row.
Qed.

End RoundTrip.

Lemma acquire_release_round_trip_witness :
  (LockManager.release_lock Scenario.L1 Scenario.A_holds_bolt).1 = true
  ∧ redis_get Scenario.twin_T
      (LockManager.release_lock Scenario.L1 Scenario.A_holds_bolt).2 = None.
Proof.
  destruct (acquire_release_round_trip Scenario.L1 Scenario.twin_T Scenario.user_A
              Scenario.session_A ["chassis.bolt1"] "exclusive" 300 (boot 0)
              ltac:(reflexivity) ltac:(reflexivity) ltac:(lia)
              ltac:(unfold datetime_max; simpl; lia)
              Scenario.L2 Scenario.user_B Scenario.session_B ["chassis.bolt1"]
              "exclusive")
    as (Hreleased & Hgone & _).
  split; [exact Hreleased | exact Hgone].
Defined.

Lemma lock_lives_for_its_ttl_witness :
  ld_lock_id <$> redis_get Scenario.twin_T (sleep 299 Scenario.A_holds_bolt)
  = Some Scenario.L1
  ∧ redis_get Scenario.twin_T (sleep 300 Scenario.A_holds_bolt) = None.
Proof.
  split.
  - apply (proj1 (lock_lives_for_its_ttl Scenario.L1 Scenario.twin_T
                    Scenario.user_A Scenario.session_A ["chassis.bolt1"]
                    "exclusive" 300 (boot 0) ltac:(reflexivity)
                    ltac:(reflexivity) ltac:(lia)
                    ltac:(unfold datetime_max; simpl; lia) 299 ltac:(lia))).
    lia.
  - apply (proj2 (lock_lives_for_its_ttl Scenario.L1 Scenario.twin_T
                    Scenario.user_A Scenario.session_A ["chassis.bolt1"]
                    "exclusive" 300 (boot 0) ltac:(reflexivity)
                    ltac:(reflexivity) ltac:(lia)
                    ltac:(unfold datetime_max; simpl; lia) 300 ltac:(lia))).
    lia.
Defined.

(** A heartbeat on any lock id that has a row, be the row active or not and
    whoever its lock belongs to, restarts the TTL of whatever record the
    row's twin holds at 300 s, the TTL the lock was taken with
    notwithstanding: the holder stays live for the next 300 s and no
    longer. *)
Theorem heartbeat_rearms_the_twin_for_300s
    (lock_id : UUID) (w : World) (row : edit_lock) (holder : lock_data)
    (seconds : Z) :
  fetchrow_edit_lock lock_id (db w) = Some row →
  redis_get (el_twin_id row) w = Some holder →
  0 <= seconds →
  redis_get (el_twin_id row) (sleep seconds (LockManager.heartbeat_lock lock_id w).2)
  = if bool_decide (seconds < 300) then Some holder else None.
Proof.
  intros Hrow Hlive Hpos. unfold LockManager.heartbeat_lock. simpl.
  rewrite LockManagerSpec.fetchrow_update_heartbeat, Hrow. simpl.
  assert (el_twin_id (if el_is_active row then touch (utcnow w) row else row)
          = el_twin_id row) as -> by (by destruct (el_is_active row)).
  unfold redis_expire.
  assert (redis_live (set_db (update_heartbeat lock_id (utcnow w) (db w)) w)
                     (el_twin_id row) = Some holder) as -> by exact Hlive.
  rewrite bool_decide_eq_false_2 by lia.
  rewrite redis_get_sleep. simpl. rewrite lookup_insert_eq.
  assert (bool_decide (utcnow w + seconds < utcnow w + 300)
          = bool_decide (seconds < 300)) as -> by (apply bool_decide_ext; lia).
  done.
Qed.

Lemma heartbeat_rearms_the_twin_for_300s_witness :
  ld_lock_id
    <$> redis_get Scenario.twin_T
          (sleep 299 (LockManager.heartbeat_lock Scenario.L1
                        Scenario.B_holds_briefly).2)
  = Some Scenario.L2.
Proof.
  pose proof (heartbeat_rearms_the_twin_for_300s Scenario.L1 Scenario.B_holds_briefly
             {| el_lock_id := Scenario.L1; el_twin_id := Scenario.twin_T;
                el_user_id := Scenario.user_A; el_session_id := Scenario.session_A;
                el_lock_type := "exclusive";
                el_locked_components := ["chassis.bolt1"]; el_expires_at := 10;
                el_heartbeat_at := 0; el_is_active := false |}
             {| ld_lock_id := Scenario.L2; ld_twin_id := Scenario.twin_T;
                ld_user_id := Scenario.user_B; ld_session_id := Scenario.session_B;
                ld_components := ["chassis.bolt1"]; ld_lock_type := "exclusive";
                ld_acquired_at := 0; ld_expires_at := 10 |}
             299 ltac:(vm_compute; reflexivity) ltac:(vm_compute; reflexivity)
             ltac:(lia)) as Hlive.
  cbn [el_twin_id] in Hlive. rewrite Hlive. reflexivity.
Defined.

(** A heartbeat never brings a released lock back: on an inactive row it
    changes no column, the heartbeat stamp included. *)
Theorem heartbeat_leaves_released_row (lock_id : UUID) (w : World) (row : edit_lock) :
  fetchrow_edit_lock lock_id (db w) = Some row →
  el_is_active row = false →
  fetchrow_edit_lock lock_id (db (LockManager.heartbeat_lock lock_id w).2)
  = Some row.
Proof.
  intros Hrow Hinactive.
  assert (fetchrow_edit_lock lock_id (update_heartbeat lock_id (utcnow w) (db w))
          = Some row) as Hsame.
  { by rewrite LockManagerSpec.fetchrow_update_heartbeat, Hrow; simpl;
      rewrite Hinactive. }
  unfold LockManager.heartbeat_lock. simpl. rewrite Hsame.
  unfold redis_expire. by repeat case_match.
Qed.

Lemma heartbeat_leaves_released_row_witness :
  el_is_active
    <$> fetchrow_edit_lock Scenario.L1
          (db (LockManager.heartbeat_lock Scenario.L1 Scenario.B_holds_after_A).2)
  = Some false.
Proof.
  rewrite (heartbeat_leaves_released_row Scenario.L1 Scenario.B_holds_after_A
             Scenario.row_L1_released ltac:(vm_compute; reflexivity)
             ltac:(reflexivity)).
  reflexivity.
Defined.

(** The calls on one twin leave the record of every other twin as it is:
    an acquire on [twin_id], and a release or a heartbeat of a lock whose row
    is on [twin_id], do not change what Redis answers for [other]. *)
Theorem other_twins_are_untouched
    (lock_id twin_id user_id session_id : UUID) (components : list string)
    (lock_type : string) (timeout : Z) (w : World) (other : UUID) :
  twin_id ≠ other →
  redis_get other
    (LockManager.acquire_lock lock_id twin_id user_id session_id components
       lock_type timeout w).2 = redis_get other w
  ∧ (∀ released row,
       fetchrow_edit_lock released (db w) = Some row → el_twin_id row = twin_id →
       redis_get other (LockManager.release_lock released w).2 = redis_get other w
       ∧ redis_get other (LockManager.heartbeat_lock released w).2
         = redis_get other w).
Proof.
  intros Hne. split.
  - unfold LockManager.acquire_lock.
    destruct (match redis_get twin_id w with
              | Some existing_data =>
                  LockManager.existing_conflicts existing_data components lock_type
              | None => false
              end); [done |].
    destruct (datetime_add (utcnow w) timeout); [| done].
    unfold redis_set_nx_ex. case_bool_decide; [done |].
    destruct (redis_live w twin_id); [done |]. simpl.
    unfold redis_get, redis_live; simpl. by rewrite lookup_insert_ne.
  - intros released row Hrow Htwin. split.
    + unfold LockManager.release_lock. rewrite Hrow. simpl.
      rewrite redis_get_set_db, Htwin.
      by apply LockManagerSpec.redis_get_delete_ne.
    + unfold LockManager.heartbeat_lock. simpl.
      rewrite LockManagerSpec.fetchrow_update_heartbeat, Hrow. simpl.
      assert (el_twin_id (if el_is_active row then touch (utcnow w) row else row)
              = twin_id) as -> by (by destruct (el_is_active row)).
      unfold redis_expire.
      destruct (redis_live _ twin_id) as [v |]; [| done].
      rewrite bool_decide_eq_false_2 by lia.
      unfold redis_get, redis_live; simpl. by rewrite lookup_insert_ne.
Qed.

Lemma other_twins_are_untouched_witness :
  ld_lock_id
    <$> redis_get Scenario.twin_T
          (LockManager.acquire_lock Scenario.L2 Scenario.twin_U Scenario.user_B
             Scenario.session_B ["chassis.bolt1"] "exclusive" 300
             Scenario.A_holds_bolt).2
  = Some Scenario.L1.
Proof.
  rewrite (proj1 (other_twins_are_untouched Scenario.L2 Scenario.twin_U
                    Scenario.user_B Scenario.session_B ["chassis.bolt1"]
                    "exclusive" 300 Scenario.A_holds_bolt Scenario.twin_T
                    ltac:(discriminate))).
  vm_compute. reflexivity.
Defined.

(** In every world the lock manager can reach, the lock a twin's key holds
    has an active row in [edit_locks], for the same twin, the same lock type
    and the same components, and the record sits under the key of its own
    twin. *)
Theorem live_lock_has_an_active_row (w : World) (twin_id : UUID) (holder : lock_data) :
  reachable w →
  redis_get twin_id w = Some holder →
  ld_twin_id holder = twin_id
  ∧ ∃ row, active_lock w row
           ∧ el_lock_id row = ld_lock_id holder
           ∧ el_twin_id row = twin_id
           ∧ el_lock_type row = ld_lock_type holder
           ∧ el_locked_components row = ld_components holder.
Proof.
  intros Hreach Hget. unfold redis_get, redis_live in Hget.
  destruct (cache w !! twin_id) as [[record expiry] |] eqn:Hlook; [| done].
  case_bool_decide; [| done]. injection Hget as ->.
  destruct (LockManagerSpec.reachable_kv_backed w Hreach _ _ _ Hlook)
    as (Htwin & row & Hrow & Hactive & Hrowtwin & Htype & Hcomps).
  split; [done |]. exists row. unfold fetchrow_edit_lock in Hrow.
  apply find_some in Hrow as [Hin Hid%bool_decide_eq_true].
  repeat split; try done. by apply list_elem_of_In.
Qed.

Lemma live_lock_has_an_active_row_witness :
  ∃ row, active_lock Scenario.A_holds_bolt row
         ∧ el_lock_id row = Scenario.L1
         ∧ el_twin_id row = Scenario.twin_T
         ∧ el_lock_type row = "exclusive"
         ∧ el_locked_components row = ["chassis.bolt1"].
Proof.
  apply (live_lock_has_an_active_row Scenario.A_holds_bolt Scenario.twin_T
           {| ld_lock_id := Scenario.L1; ld_twin_id := Scenario.twin_T;
              ld_user_id := Scenario.user_A; ld_session_id := Scenario.session_A;
              ld_components := ["chassis.bolt1"]; ld_lock_type := "exclusive";
              ld_acquired_at := 0; ld_expires_at := 300 |}).
  - apply (reachable_call
             (CallAcquire Scenario.L1 Scenario.twin_T Scenario.user_A
                Scenario.session_A ["chassis.bolt1"] "exclusive" 300) (boot 0)).
    + apply reachable_boot.
    + reflexivity.
  - vm_compute. reflexivity.
Defined.

End LockManagerMore.

(** * Properties of the connection manager *)

Module ConnectionManagerSpec.

Import Main.

Lemma discard_all (subscribers : gset string) (disconnected : list string)
    (session_id : string) :
  session_id ∈ foldl (fun subs x => subs ∖ {[x]}) subscribers disconnected
  ↔ session_id ∈ subscribers ∧ session_id ∉ disconnected.
Proof.
  revert subscribers.
  induction disconnected as [| x l IH]; intros subscribers; simpl.
  - split; [intros Hin; split; [done | apply not_elem_of_nil] | by intros [Hin _]].
  - rewrite IH, elem_of_difference, elem_of_singleton, not_elem_of_cons. tauto.
Qed.

(** The two ways [send_json] ends. *)
Lemma send_json_cases (message : frame) (websocket : WebSocket) :
  (send_json message websocket
   = Ret {| ws_sent := ws_sent websocket ++ [message]; ws_open := true |}
   ∧ json_serializable message = true ∧ ws_open websocket = true)
  ∨ ((∃ e, send_json message websocket = Raise e)
     ∧ (json_serializable message = false ∨ ws_open websocket = false)).
Proof.
  unfold send_json.
  destruct (json_serializable message); simpl; [| right; eauto].
  destruct (ws_open websocket); [left | right]; eauto.
Qed.

Section Broadcast.

Variables (message : frame) (exclude_session : option string).

(** The sessions the loop gives up on: visited, not excluded, registered,
    and sent a message that cannot be encoded or on a transport that is not
    open. *)
Lemma broadcast_loop_disconnected (l : list string) :
  ∀ (acc : gmap string WebSocket * list string) (session_id : string),
    NoDup l →
    session_id
      ∈ (foldl (ConnectionManager.broadcast_step message exclude_session) acc l).2
    ↔ session_id ∈ acc.2
      ∨ (session_id ∈ l ∧ Some session_id ≠ exclude_session
         ∧ ∃ websocket, acc.1 !! session_id = Some websocket
                        ∧ (json_serializable message = false
                           ∨ ws_open websocket = false)).
Proof.
  induction l as [| x l IH]; intros acc s Hnd; simpl.
  - split; [by left |]. intros [Hin | [Hin _]]; [done |].
    by apply not_elem_of_nil in Hin.
  - apply NoDup_cons in Hnd as [Hx Hnd]. rewrite IH by done.
    unfold ConnectionManager.broadcast_step.
    rewrite elem_of_cons.
    destruct (decide (s = x)) as [-> | Hne].
    + case_bool_decide as Hex; [tauto |].
      destruct (acc.1 !! x) as [websocket |] eqn:Hlook.
      * destruct (send_json_cases message websocket)
          as [(-> & Hjson & Hopen) | ([e ->] & Hfail)]; simpl.
        -- split; [intros [Hin | [Hin _]]; [by left | done] |].
           intros [Hin | (_ & _ & ws & Hws & Hclosed)]; [by left |].
           injection Hws as <-. destruct Hclosed; congruence.
        -- rewrite elem_of_app, list_elem_of_singleton. split.
           ++ intros [[Hin | _] | [Hin _]]; [by left | | done].
              right. split; [by left |]. split; [done |]. by exists websocket.
           ++ intros [Hin | _]; [by left; left | by left; right].
      * split; [intros [Hin | [Hin _]]; [by left | done] |].
        intros [Hin | (_ & _ & ws & Hws & _)]; [by left | done].
    + assert (∀ acc' : gmap string WebSocket * list string,
                acc'.1 !! s = acc.1 !! s → (s ∈ acc'.2 ↔ s ∈ acc.2) →
                (s ∈ acc'.2
                 ∨ s ∈ l ∧ Some s ≠ exclude_session
                   ∧ (∃ websocket, acc'.1 !! s = Some websocket
                                   ∧ (json_serializable message = false
                                      ∨ ws_open websocket = false)))
                ↔ s ∈ acc.2
                  ∨ (s = x ∨ s ∈ l) ∧ Some s ≠ exclude_session
                    ∧ (∃ websocket, acc.1 !! s = Some websocket
                                    ∧ (json_serializable message = false
                                       ∨ ws_open websocket = false))) as Hsame.
      { intros acc' -> ->. tauto. }
      case_bool_decide; [by apply Hsame |].
      destruct (acc.1 !! x) as [websocket |]; [| by apply Hsame].
      destruct (send_json_cases message websocket)
        as [(-> & _ & _) | ([e ->] & _)]; simpl.
      * pose proof (Hsame (<[x := {| ws_sent := ws_sent websocket ++ [message];
                                    ws_open := true |}]> acc.1, acc.2)) as Hsent.
        simpl in Hsent. apply Hsent; [by rewrite lookup_insert_ne | done].
      * pose proof (Hsame (acc.1, acc.2 ++ [x])) as Hfailed.
        simpl in Hfailed. apply Hfailed; [done |].
        rewrite elem_of_app, list_elem_of_singleton. tauto.
Qed.

(** A broadcast drops from the twin's subscribers exactly the sessions it
    tried and failed to send to: those that are registered and are not the
    excluded session, when the message cannot be encoded, which is the case
    of every edit-operation envelope, or when their transport is not open.
    Every other subscriber stays, and so does a subscriber that has no
    transport registered at all. *)
Theorem broadcast_prunes_dead_subscribers (twin_id : UUID)
    (self : ConnectionManager.t) (subscribers : gset string) :
  ConnectionManager.twin_subscribers self !! twin_id = Some subscribers →
  ∃ subscribers',
    ConnectionManager.twin_subscribers
      (ConnectionManager.broadcast_to_twin twin_id message exclude_session self)
      !! twin_id = Some subscribers'
    ∧ ∀ session_id,
        session_id ∈ subscribers'
        ↔ session_id ∈ subscribers
          ∧ ¬ (Some session_id ≠ exclude_session
               ∧ ∃ websocket,
                   ConnectionManager.active_connections self !! session_id
                   = Some websocket
                   ∧ (json_serializable message = false
                      ∨ ws_open websocket = false)).
Proof.
  intros Hsubs. unfold ConnectionManager.broadcast_to_twin. rewrite Hsubs. simpl.
  eexists. split; [apply lookup_insert_eq |].
  intros s. rewrite discard_all.
  rewrite broadcast_loop_disconnected by apply NoDup_elements. simpl.
  rewrite elem_of_elements.
  split.
  - intros [Hin Hnot]. split; [done |]. intros Hdead. apply Hnot. right. tauto.
  - intros [Hin Hnot]. split; [done |]. intros [Hnil | Hdead]; [| tauto].
    by apply not_elem_of_nil in Hnil.
Qed.

(** A broadcast opens and closes no connection: the registered sessions,
    their number and the sessions of every user are as before, and so are
    the subscribers of every other twin. *)
Theorem broadcast_keeps_the_registry (twin_id : UUID) (self : ConnectionManager.t) :
  dom (ConnectionManager.active_connections
         (ConnectionManager.broadcast_to_twin twin_id message exclude_session self))
  = dom (ConnectionManager.active_connections self)
  ∧ ConnectionManager.get_connection_count
      (ConnectionManager.broadcast_to_twin twin_id message exclude_session self)
    = ConnectionManager.get_connection_count self
  ∧ ConnectionManager.user_sessions
      (ConnectionManager.broadcast_to_twin twin_id message exclude_session self)
    = ConnectionManager.user_sessions self
  ∧ ∀ other, other ≠ twin_id →
      ConnectionManager.twin_subscribers
        (ConnectionManager.broadcast_to_twin twin_id message exclude_session self)
        !! other
      = ConnectionManager.twin_subscribers self !! other.
Proof.
  assert (dom (ConnectionManager.active_connections
                 (ConnectionManager.broadcast_to_twin twin_id message
                    exclude_session self))
          = dom (ConnectionManager.active_connections self)) as Hdom.
  { destruct (ConnectionManager.twin_subscribers self !! twin_id)
      as [subscribers |] eqn:Hsubs.
    - apply set_eq. intros s. rewrite !elem_of_dom.
      rewrite (EditPipelineSpec.broadcast_to_twin_lookup _ _ _ _ subscribers)
        by done.
      by rewrite fmap_is_Some.
    - unfold ConnectionManager.broadcast_to_twin. by rewrite Hsubs. }
  split; [exact Hdom |]. split; [| split].
  - unfold ConnectionManager.get_connection_count.
    by rewrite <- !size_dom, Hdom.
  - unfold ConnectionManager.broadcast_to_twin. by case_match.
  - intros other Hother. unfold ConnectionManager.broadcast_to_twin.
    case_match; [| done]. simpl. by rewrite lookup_insert_ne.
Qed.

(** Frames are delivered in order: after a broadcast every transport holds
    the frames it held before, in the same order, followed by at most the
    one new message. *)
Theorem broadcast_appends_at_most_once (twin_id : UUID)
    (self : ConnectionManager.t) (session_id : string) (websocket : WebSocket) :
  ConnectionManager.active_connections self !! session_id = Some websocket →
  ∃ websocket',
    ConnectionManager.active_connections
      (ConnectionManager.broadcast_to_twin twin_id message exclude_session self)
      !! session_id = Some websocket'
    ∧ (ws_sent websocket' = ws_sent websocket
       ∨ ws_sent websocket' = ws_sent websocket ++ [message]).
Proof.
  intros Hconn.
  destruct (ConnectionManager.twin_subscribers self !! twin_id)
    as [subscribers |] eqn:Hsubs.
  - rewrite (EditPipelineSpec.broadcast_to_twin_lookup _ _ _ _ subscribers)
      by done.
    rewrite Hconn. simpl. eexists. split; [done |].
    unfold served. case_match; [by right | by left].
  - unfold ConnectionManager.broadcast_to_twin. rewrite Hsubs.
    exists websocket. split; [done | by left].
Qed.

End Broadcast.

Lemma broadcast_prunes_dead_subscribers_witness :
  (∃ subscribers',
     ConnectionManager.twin_subscribers
       (ConnectionManager.broadcast_to_twin Scenario.twin_T FrPing None
          Scenario.one_dead_subscriber) !! Scenario.twin_T = Some subscribers'
     ∧ "S1" ∈ subscribers' ∧ "S2" ∉ subscribers')
  ∧ ∃ subscribers',
      ConnectionManager.twin_subscribers
        (ConnectionManager.broadcast_to_twin Scenario.twin_T
           (FrEditOperation Scenario.op_id Scenario.user_A Scenario.move_bolt)
           None Scenario.one_dead_subscriber) !! Scenario.twin_T
      = Some subscribers'
      ∧ "S1" ∉ subscribers'.
Proof.
  split.
  - destruct (broadcast_prunes_dead_subscribers FrPing None Scenario.twin_T
                Scenario.one_dead_subscriber ({["S1"; "S2"]} : gset string))
      as (subscribers' & Hlook & Hiff); [vm_compute; reflexivity |].
    exists subscribers'. split; [exact Hlook |]. split.
    + apply Hiff.
      split; [apply elem_of_union_l, elem_of_singleton; reflexivity |].
      intros (_ & websocket & Hws & Hclosed).
      vm_compute in Hws. injection Hws as <-.
      destruct Hclosed; discriminate.
    + intros Hin. apply Hiff in Hin as [_ Hnot]. apply Hnot.
      split; [discriminate |]. exists Scenario.dead_socket.
      split; [vm_compute; reflexivity | right; reflexivity].
  - destruct (broadcast_prunes_dead_subscribers
                (FrEditOperation Scenario.op_id Scenario.user_A Scenario.move_bolt)
                None Scenario.twin_T Scenario.one_dead_subscriber
                ({["S1"; "S2"]} : gset string))
      as (subscribers' & Hlook & Hiff); [vm_compute; reflexivity |].
    exists subscribers'. split; [exact Hlook |].
    intros Hin. apply Hiff in Hin as [_ Hnot]. apply Hnot.
    split; [discriminate |]. exists Scenario.fresh_socket.
    split; [vm_compute; reflexivity | left; reflexivity].
Defined.

Lemma broadcast_appends_at_most_once_witness :
  ∃ websocket',
    ConnectionManager.active_connections
      (ConnectionManager.broadcast_to_twin Scenario.twin_T FrPing None
         Scenario.one_dead_subscriber) !! "S2" = Some websocket'
    ∧ (ws_sent websocket' = [FrPong] ∨ ws_sent websocket' = [FrPong] ++ [FrPing]).
Proof.
  apply (broadcast_appends_at_most_once FrPing None Scenario.twin_T
           Scenario.one_dead_subscriber "S2" Scenario.dead_socket).
  vm_compute. reflexivity.
Defined.

(** [disconnect] takes the session out of everything it knows: the
    connections, the sessions of the user it is given and the subscribers of
    every twin; and a second [disconnect] of the same session changes
    nothing more. *)
Theorem disconnect_forgets_the_session (session_id : string) (user_id : UUID)
    (self : ConnectionManager.t) :
  ConnectionManager.active_connections
    (ConnectionManager.disconnect session_id user_id self) !! session_id = None
  ∧ (∀ twin_id subscribers,
       ConnectionManager.twin_subscribers
         (ConnectionManager.disconnect session_id user_id self) !! twin_id
       = Some subscribers →
       session_id ∉ subscribers)
  ∧ ¬ session_id
        ∈ default ∅ (ConnectionManager.user_sessions
                       (ConnectionManager.disconnect session_id user_id self)
                     !! user_id)
  ∧ ConnectionManager.disconnect session_id user_id
      (ConnectionManager.disconnect session_id user_id self)
    = ConnectionManager.disconnect session_id user_id self.
Proof.
  split; [apply lookup_delete_eq |]. split; [| split].
  - intros twin_id subscribers. simpl. rewrite lookup_fmap.
    destruct (ConnectionManager.twin_subscribers self !! twin_id) as [subs |];
      [| done].
    simpl. intros [= <-]. rewrite elem_of_difference, elem_of_singleton. tauto.
  - simpl.
    destruct (ConnectionManager.user_sessions self !! user_id) as [sessions |]
      eqn:Hsessions.
    + case_bool_decide.
      * rewrite lookup_delete_eq. simpl. apply not_elem_of_empty.
      * rewrite lookup_insert_eq. simpl.
        rewrite elem_of_difference, elem_of_singleton. tauto.
    + rewrite Hsessions. simpl. apply not_elem_of_empty.
  - unfold ConnectionManager.disconnect at 1 3. simpl. f_equal.
    + apply map_eq. intros s.
      destruct (decide (session_id = s)) as [<- | Hne].
      * by rewrite !lookup_delete_eq.
      * by rewrite !lookup_delete_ne.
    + destruct (ConnectionManager.user_sessions self !! user_id) as [sessions |]
        eqn:Hsessions.
      * case_bool_decide as Hempty.
        -- by rewrite lookup_delete_eq.
        -- rewrite lookup_insert_eq.
           assert (sessions ∖ {[session_id]} ∖ {[session_id]}
                   = sessions ∖ {[session_id]}) as ->.
           { apply set_eq. intros s.
             rewrite !elem_of_difference, elem_of_singleton. tauto. }
           rewrite bool_decide_eq_false_2 by done.
           by rewrite insert_insert_eq.
      * by rewrite Hsessions.
    + apply map_eq. intros twin_id. rewrite !lookup_fmap.
      destruct (ConnectionManager.twin_subscribers self !! twin_id) as [subs |];
        [| done].
      simpl. f_equal. apply set_eq. intros s.
      rewrite !elem_of_difference, elem_of_singleton. tauto.
Qed.

(** The session a broadcast excludes, which is how [cursor_move] keeps the
    cursor of a user away from the user's own session, and every session
    that does not subscribe to the twin have their transports left exactly
    as they were. *)
Theorem excluded_and_unsubscribed_get_nothing (message : frame)
    (exclude_session : option string) (twin_id : UUID)
    (self : ConnectionManager.t) (session_id : string) :
  exclude_session = Some session_id
  ∨ (∀ subscribers, ConnectionManager.twin_subscribers self !! twin_id
                    = Some subscribers → session_id ∉ subscribers) →
  ConnectionManager.active_connections
    (ConnectionManager.broadcast_to_twin twin_id message exclude_session self)
    !! session_id
  = ConnectionManager.active_connections self !! session_id.
Proof. apply EditPipelineSpec.broadcast_to_twin_skips. Qed.

Lemma excluded_and_unsubscribed_get_nothing_witness :
  ConnectionManager.active_connections
    (ConnectionManager.broadcast_to_twin Scenario.twin_T
       (FrCursorUpdate Scenario.user_A JNull) (Some "S1")
       (manager Scenario.three_subscribers)) !! "S1"
  = Some Scenario.fresh_socket.
Proof.
  rewrite (excluded_and_unsubscribed_get_nothing
             (FrCursorUpdate Scenario.user_A JNull) (Some "S1") Scenario.twin_T
             (manager Scenario.three_subscribers) "S1" (or_introl eq_refl)).
  vm_compute. reflexivity.
Defined.

(** Subscribing is what makes a session hear a twin, and unsubscribing what
    stops it: a broadcast right after [subscribe_to_twin] delivers a message
    that can be encoded to the session's open transport, and a broadcast
    right after [unsubscribe_from_twin] leaves the transport as it was. *)
Theorem subscription_decides_delivery (message : frame)
    (exclude_session : option string) (twin_id : UUID)
    (self : ConnectionManager.t) (session_id : string) (websocket : WebSocket) :
  ConnectionManager.active_connections self !! session_id = Some websocket →
  json_serializable message = true →
  ws_open websocket = true →
  Some session_id ≠ exclude_session →
  ConnectionManager.active_connections
    (ConnectionManager.broadcast_to_twin twin_id message exclude_session
       (ConnectionManager.subscribe_to_twin session_id twin_id self))
    !! session_id
  = Some {| ws_sent := ws_sent websocket ++ [message]; ws_open := true |}
  ∧ ConnectionManager.active_connections
      (ConnectionManager.broadcast_to_twin twin_id message exclude_session
         (ConnectionManager.unsubscribe_from_twin session_id twin_id self))
      !! session_id
    = Some websocket.
Proof.
  intros Hconn Hjson Hopen Hex. split.
  - apply (EditPipelineSpec.broadcast_to_twin_delivers _ _ _ _
             (default ∅ (ConnectionManager.twin_subscribers self !! twin_id)
              ∪ {[session_id]})); try done.
    + simpl. apply lookup_insert_eq.
    + apply elem_of_union_r, elem_of_singleton. done.
  - rewrite EditPipelineSpec.broadcast_to_twin_skips; [done |].
    right. intros subscribers. simpl.
    destruct (ConnectionManager.twin_subscribers self !! twin_id) as [subs |]
      eqn:Hsubs.
    + rewrite lookup_insert_eq. intros [= <-].
      rewrite elem_of_difference, elem_of_singleton. tauto.
    + rewrite Hsubs. done.
Qed.

Lemma subscription_decides_delivery_witness :
  ConnectionManager.active_connections
    (ConnectionManager.broadcast_to_twin Scenario.twin_U FrPing None
       (ConnectionManager.subscribe_to_twin "S1" Scenario.twin_U
          Scenario.one_dead_subscriber)) !! "S1"
  = Some {| ws_sent := [FrPing]; ws_open := true |}
  ∧ ConnectionManager.active_connections
      (ConnectionManager.broadcast_to_twin Scenario.twin_T FrPing None
         (ConnectionManager.unsubscribe_from_twin "S1" Scenario.twin_T
            Scenario.one_dead_subscriber)) !! "S1"
    = Some Scenario.fresh_socket.
Proof.
  split.
  - apply (proj1 (subscription_decides_delivery FrPing None Scenario.twin_U
                    Scenario.one_dead_subscriber "S1" Scenario.fresh_socket
                    ltac:(vm_compute; reflexivity) ltac:(reflexivity)
                    ltac:(reflexivity) ltac:(discriminate))).
  - apply (proj2 (subscription_decides_delivery FrPing None Scenario.twin_T
                    Scenario.one_dead_subscriber "S1" Scenario.fresh_socket
                    ltac:(vm_compute; reflexivity) ltac:(reflexivity)
                    ltac:(reflexivity) ltac:(discriminate))).
Defined.

(** Connecting on a session id that is already registered replaces the
    transport and keeps the count, and the subscriptions made under the id
    carry over: the next broadcast, of a message that can be encoded, to a
    twin the id subscribes to goes to the new transport. A new session id
    adds one connection. *)
Theorem reconnect_inherits_subscriptions (message : frame)
    (exclude_session : option string) (twin_id : UUID)
    (self : ConnectionManager.t) (session_id : string) (user_id : UUID)
    (websocket : WebSocket) (subscribers : gset string) :
  ConnectionManager.twin_subscribers self !! twin_id = Some subscribers →
  session_id ∈ subscribers →
  json_serializable message = true →
  ws_open websocket = true →
  Some session_id ≠ exclude_session →
  ConnectionManager.active_connections
    (ConnectionManager.broadcast_to_twin twin_id message exclude_session
       (ConnectionManager.connect websocket session_id user_id self))
    !! session_id
  = Some {| ws_sent := ws_sent websocket ++ [message]; ws_open := true |}
  ∧ ConnectionManager.get_connection_count
      (ConnectionManager.connect websocket session_id user_id self)
    = match ConnectionManager.active_connections self !! session_id with
      | Some _ => ConnectionManager.get_connection_count self
      | None => S (ConnectionManager.get_connection_count self)
      end.
Proof.
  intros Hsubs Hin Hjson Hopen Hex. split.
  - apply (EditPipelineSpec.broadcast_to_twin_delivers _ _ _ _ subscribers);
      try done.
    simpl. apply lookup_insert_eq.
  - unfold ConnectionManager.get_connection_count. simpl.
    destruct (ConnectionManager.active_connections self !! session_id)
      as [old |] eqn:Hold.
    + rewrite <- !size_dom, dom_insert_L.
      f_equal. apply set_eq. intros s.
      rewrite elem_of_union, elem_of_singleton, elem_of_dom.
      split; [intros [-> | Hs]; [by eexists | done] | by right].
    + by apply map_size_insert_None.
Qed.

Lemma reconnect_inherits_subscriptions_witness :
  ConnectionManager.active_connections
    (ConnectionManager.broadcast_to_twin Scenario.twin_U FrPing None
       (ConnectionManager.connect Scenario.fresh_socket "S2" Scenario.user_B
          Scenario.one_dead_subscriber)) !! "S2"
  = Some {| ws_sent := [FrPing]; ws_open := true |}
  ∧ ConnectionManager.get_connection_count
      (ConnectionManager.connect Scenario.fresh_socket "S2" Scenario.user_B
         Scenario.one_dead_subscriber) = 2%nat.
Proof.
  destruct (reconnect_inherits_subscriptions FrPing None Scenario.twin_U
              Scenario.one_dead_subscriber "S2" Scenario.user_B
              Scenario.fresh_socket ({["S2"]} : gset string))
    as [Hdelivered Hcount].
  - vm_compute. reflexivity.
  - apply elem_of_singleton. reflexivity.
  - reflexivity.
  - reflexivity.
  - discriminate.
  - split; [exact Hdelivered |]. rewrite Hcount. vm_compute. reflexivity.
Defined.

(** A round of the heartbeat monitor detaches nobody: a transport that has
    gone away stays registered, with what it had been sent, the count and
    every subscription are as before, and each open transport has the ping
    after the frames it had. *)
Theorem heartbeat_monitor_detaches_nobody (self : ConnectionManager.t) :
  ConnectionManager.get_connection_count (heartbeat_monitor_round self)
  = ConnectionManager.get_connection_count self
  ∧ ConnectionManager.twin_subscribers (heartbeat_monitor_round self)
    = ConnectionManager.twin_subscribers self
  ∧ ∀ session_id websocket,
      ConnectionManager.active_connections self !! session_id = Some websocket →
      ConnectionManager.active_connections (heartbeat_monitor_round self)
        !! session_id
      = Some (if ws_open websocket
              then {| ws_sent := ws_sent websocket ++ [FrPing]; ws_open := true |}
              else websocket).
Proof.
  split; [| split; [done |]].
  - unfold ConnectionManager.get_connection_count. simpl. apply map_size_fmap.
  - intros session_id websocket Hconn. simpl.
    rewrite lookup_fmap, Hconn. simpl. unfold send_json.
    by destruct (ws_open websocket).
Qed.

Lemma heartbeat_monitor_detaches_nobody_witness :
  ConnectionManager.active_connections
    (heartbeat_monitor_round Scenario.one_dead_subscriber) !! "S2"
  = Some Scenario.dead_socket.
Proof.
  apply (proj2 (proj2 (heartbeat_monitor_detaches_nobody
                         Scenario.one_dead_subscriber))
           "S2" Scenario.dead_socket).
  vm_compute. reflexivity.
Defined.

End ConnectionManagerSpec.

(** * Properties of the other HTTP handlers *)

Module HandlersSpec.

Import Main.

(** ** POST /locks/acquire *)

Lemma foldl_newer_session (rest : list user_session) :
  ∀ s : user_session,
    foldl newer_session s rest ∈ s :: rest
    ∧ ∀ x, x ∈ s :: rest →
           us_created_at x <= us_created_at (foldl newer_session s rest).
Proof.
  induction rest as [| y rest IH]; intros s; simpl.
  - split; [by left |]. intros x Hx%list_elem_of_singleton. subst. lia.
  - destruct (IH (newer_session s y)) as [Hin Hmax]. split.
    + apply elem_of_cons in Hin as [-> | Hin]; [| by right; right].
      unfold newer_session. case_bool_decide; [right; by left | by left].
    + assert (us_created_at s <= us_created_at (newer_session s y)
              ∧ us_created_at y <= us_created_at (newer_session s y))
        as [Hs Hy] by (unfold newer_session; case_bool_decide; lia).
      pose proof (Hmax (newer_session s y) ltac:(by left)) as Hfirst.
      intros x [-> | [-> | Hx]%elem_of_cons]%elem_of_cons; [lia | lia |].
      apply Hmax. by right.
Qed.

(** The session the handler locks for is one of the caller's own active
    sessions, and none of the caller's active sessions is newer; there is
    none exactly when the caller has no active session. *)
Lemma fetchrow_active_session_newest (user_id : UUID) (sessions : list user_session) :
  match fetchrow_active_session user_id sessions with
  | Some session =>
      session ∈ sessions ∧ us_user_id session = user_id
      ∧ us_is_active session = true
      ∧ ∀ other, other ∈ sessions → us_user_id other = user_id →
                 us_is_active other = true →
                 us_created_at other <= us_created_at session
  | None =>
      ∀ other, other ∈ sessions → us_user_id other = user_id →
               us_is_active other = false
  end.
Proof.
  unfold fetchrow_active_session.
  set (mine := fun s : user_session =>
                 bool_decide (us_user_id s = user_id) && us_is_active s).
  assert (∀ x, x ∈ List.filter mine sessions
               ↔ x ∈ sessions ∧ us_user_id x = user_id ∧ us_is_active x = true)
    as Hfilter.
  { intros x. rewrite !list_elem_of_In, filter_In. unfold mine.
    rewrite andb_true_iff, bool_decide_eq_true. tauto. }
  destruct (List.filter mine sessions) as [| s rest] eqn:Hmine.
  - intros other Hin Huser. destruct (us_is_active other) eqn:Hactive; [| done].
    exfalso. eapply not_elem_of_nil. apply Hfilter. eauto.
  - destruct (foldl_newer_session rest s) as [Hin Hmax].
    apply Hfilter in Hin as (Hin & Huser & Hactive).
    repeat split; try done.
    intros other Hother Huser' Hactive'. apply Hmax. apply Hfilter. eauto.
Qed.

(** [POST /locks/acquire] answers 400 when the caller has no active
    session and 409 when the twin has a live record, and in both cases writes
    nothing; otherwise it answers the drawn lock id, and the lock is
    recorded for the caller and the caller's newest active session, with a
    TTL of 300 s. It answers 500 only in the last 300 s a [datetime] can
    hold, where the expiry cannot be computed: there a request the two
    guards refuse is still answered 409, any other is answered 500, and
    nothing is written. *)
Theorem acquire_lock_answers (lock_id : UUID) (request : LockRequest)
    (current_user : UUID) (sessions : list user_session) (w : World) :
  match fetchrow_active_session current_user sessions with
  | None =>
      acquire_lock lock_id request current_user sessions w
      = (HttpError 400 "No active session", w)
  | Some session =>
      if bool_decide (0 <= utcnow w + 300 ∧ utcnow w + 300 <= datetime_max)
      then
        match redis_get (lr_twin_id request) w with
        | Some holder =>
            acquire_lock lock_id request current_user sessions w
            = (HttpError 409 "Lock conflict - components already locked", w)
        | None =>
            (acquire_lock lock_id request current_user sessions w).1
            = HttpOk lock_id
            ∧ edit_locks
                (db (acquire_lock lock_id request current_user sessions w).2)
              = edit_locks (db w)
                ++ [{| el_lock_id := lock_id; el_twin_id := lr_twin_id request;
                       el_user_id := current_user;
                       el_session_id := us_session_id session;
                       el_lock_type := lr_lock_type request;
                       el_locked_components := lr_components request;
                       el_expires_at := utcnow w + 300;
                       el_heartbeat_at := utcnow w; el_is_active := true |}]
            ∧ us_user_id session = current_user ∧ us_is_active session = true
            ∧ ∀ other, other ∈ sessions → us_user_id other = current_user →
                       us_is_active other = true →
                       us_created_at other <= us_created_at session
        end
      else
        acquire_lock lock_id request current_user sessions w
        = (match redis_get (lr_twin_id request) w with
           | Some holder =>
               if LockManager.existing_conflicts holder (lr_components request)
                                                 (lr_lock_type request)
               then HttpError 409 "Lock conflict - components already locked"
               else HttpError 500 "date value out of range"
           | None => HttpError 500 "date value out of range"
           end, w)
  end.
Proof.
  pose proof (fetchrow_active_session_newest current_user sessions) as Hnewest.
  unfold acquire_lock.
  destruct (fetchrow_active_session current_user sessions) as [session |]; [| done].
  case_bool_decide as Hrange.
  - destruct (redis_get (lr_twin_id request) w) as [holder |] eqn:Hget.
    + by rewrite (LockManagerSpec.acquire_lock_held _ _ _ _ _ _ _ _ holder).
    + unfold LockManager.acquire_lock. rewrite Hget.
      rewrite LockManagerSpec.datetime_add_in_range by done.
      rewrite LockManagerSpec.redis_set_nx_ex_free by done. simpl.
      destruct Hnewest as (_ & Huser & Hactive & Hmax). done.
  - unfold LockManager.acquire_lock.
    destruct (redis_get (lr_twin_id request) w) as [holder |].
    + destruct (LockManager.existing_conflicts holder _ _); [done |].
      by rewrite LockManagerSpec.datetime_add_overflow.
    + by rewrite LockManagerSpec.datetime_add_overflow.
Qed.

Lemma acquire_lock_answers_witness :
  (acquire_lock Scenario.L1 Scenario.bolt_request Scenario.user_A
     Scenario.some_sessions (boot 0)).1 = HttpOk Scenario.L1
  ∧ acquire_lock Scenario.L1 Scenario.bolt_request Scenario.user_B
      Scenario.some_sessions (boot 0)
    = (HttpError 400 "No active session", boot 0)
  ∧ acquire_lock Scenario.L2 Scenario.bolt_request Scenario.user_A
      Scenario.some_sessions Scenario.A_shares_bolt
    = (HttpError 409 "Lock conflict - components already locked",
       Scenario.A_shares_bolt).
Proof.
  split; [| split].
  - exact (proj1 (acquire_lock_answers Scenario.L1 Scenario.bolt_request
                    Scenario.user_A Scenario.some_sessions (boot 0))).
  - exact (acquire_lock_answers Scenario.L1 Scenario.bolt_request
             Scenario.user_B Scenario.some_sessions (boot 0)).
  - exact (acquire_lock_answers Scenario.L2 Scenario.bolt_request
             Scenario.user_A Scenario.some_sessions Scenario.A_shares_bolt).
Defined.

(** ** Twins and versions *)

Lemma version_numbers_app (twin_id : UUID) (versions : list twin_version)
    (v : twin_version) :
  version_numbers twin_id (versions ++ [v])
  = version_numbers twin_id versions
    ++ (if bool_decide (tv_twin_id v = twin_id) then [tv_version_number v] else []).
Proof.
  unfold version_numbers. rewrite List.filter_app, fmap_app. simpl.
  by case_bool_decide.
Qed.

(** [MAX(version_number)] is NULL when the twin has no version, and else
    one of the twin's numbers, no smaller than any of them. *)
Lemma max_version_number_is_max (twin_id : UUID) (versions : list twin_version) :
  match max_version_number twin_id versions with
  | Some m =>
      m ∈ version_numbers twin_id versions
      ∧ ∀ n, n ∈ version_numbers twin_id versions → n <= m
  | None => version_numbers twin_id versions = []
  end.
Proof.
  induction versions as [| v versions IH] using rev_ind; [done |].
  unfold max_version_number in *. rewrite foldl_app. simpl.
  rewrite version_numbers_app.
  case_bool_decide; [| by rewrite app_nil_r].
  destruct (foldl _ None versions) as [m |].
  - destruct IH as [Hin Hmax]. split.
    + rewrite elem_of_app, list_elem_of_singleton.
      destruct (Z.max_spec m (tv_version_number v)) as [[_ ->] | [_ ->]]; tauto.
    + intros n [Hn | ->%list_elem_of_singleton]%elem_of_app; [| lia].
      specialize (Hmax n Hn). lia.
  - rewrite IH. simpl. split; [by left |].
    intros n ->%list_elem_of_singleton. lia.
Qed.

(** [POST /twins/{twin_id}/versions] numbers the new version above every
    version the twin has: 1 on a twin with none, one more than the largest
    otherwise. The twin's numbers stay distinct if they were, and the
    versions of every other twin are not touched. *)
Theorem create_version_numbers_upwards (version_id twin_id : UUID)
    (version : VersionCreate) (current_user : User) (store : TwinStore) :
  (create_version version_id twin_id version current_user store).1.1 = version_id
  ∧ version_numbers twin_id
      (twin_versions (create_version version_id twin_id version current_user store).2)
    = version_numbers twin_id (twin_versions store)
      ++ [(create_version version_id twin_id version current_user store).1.2]
  ∧ (∀ n, n ∈ version_numbers twin_id (twin_versions store) →
          n < (create_version version_id twin_id version current_user store).1.2)
  ∧ (version_numbers twin_id (twin_versions store) = [] →
     (create_version version_id twin_id version current_user store).1.2 = 1)
  ∧ (NoDup (version_numbers twin_id (twin_versions store)) →
     NoDup (version_numbers twin_id
              (twin_versions
                 (create_version version_id twin_id version current_user store).2)))
  ∧ ∀ other, other ≠ twin_id →
      version_numbers other
        (twin_versions
           (create_version version_id twin_id version current_user store).2)
      = version_numbers other (twin_versions store).
Proof.
  pose proof (max_version_number_is_max twin_id (twin_versions store)) as Hmax.
  assert (∀ n, n ∈ version_numbers twin_id (twin_versions store) →
               n < or_zero (max_version_number twin_id (twin_versions store)) + 1)
    as Habove.
  { intros n Hn.
    destruct (max_version_number twin_id (twin_versions store)) as [m |].
    - destruct Hmax as [_ Hmax]. specialize (Hmax n Hn).
      unfold or_zero. case_bool_decide; lia.
    - rewrite Hmax in Hn. by apply not_elem_of_nil in Hn. }
  simpl. split; [done |]. split; [| split; [exact Habove | split; [| split]]].
  - rewrite version_numbers_app. simpl. by rewrite bool_decide_eq_true_2.
  - intros Hnone.
    destruct (max_version_number twin_id (twin_versions store)) as [m |]; [| done].
    destruct Hmax as [Hin _]. rewrite Hnone in Hin.
    by apply not_elem_of_nil in Hin.
  - intros Hnodup. rewrite version_numbers_app. simpl.
    rewrite bool_decide_eq_true_2 by done.
    apply NoDup_app. split; [done |]. split; [| apply NoDup_singleton].
    intros n Hn ->%list_elem_of_singleton. specialize (Habove _ Hn). lia.
  - intros other Hother. rewrite version_numbers_app. simpl.
    rewrite bool_decide_eq_false_2 by done. apply app_nil_r.
Qed.

Lemma create_version_numbers_upwards_witness :
  1 < (create_version 61%N Scenario.twin_U Scenario.a_version Scenario.alice
         (create_digital_twin Scenario.twin_U 60%N Scenario.a_twin Scenario.alice
            Scenario.empty_store).2).1.2.
Proof.
  apply (proj1 (proj2 (proj2 (create_version_numbers_upwards 61%N Scenario.twin_U
                                Scenario.a_version Scenario.alice
                                (create_digital_twin Scenario.twin_U 60%N
                                   Scenario.a_twin Scenario.alice
                                   Scenario.empty_store).2)))).
  vm_compute. by left.
Defined.

(** A twin is created with version 1, and its first [create_version] gives
    version 2, whatever other twins the store holds, provided the twin id is
    new to [twin_versions]. *)
Theorem new_twin_starts_at_version_1 (twin_id version_id version_id' : UUID)
    (twin : DigitalTwinCreate) (version : VersionCreate) (current_user : User)
    (store : TwinStore) :
  version_numbers twin_id (twin_versions store) = [] →
  version_numbers twin_id
    (twin_versions (create_digital_twin twin_id version_id twin current_user store).2)
  = [1]
  ∧ (create_version version_id' twin_id version current_user
       (create_digital_twin twin_id version_id twin current_user store).2).1
    = (version_id', 2).
Proof.
  intros Hnew.
  assert (version_numbers twin_id
            (twin_versions
               (create_digital_twin twin_id version_id twin current_user store).2)
          = [1]) as Hone.
  { simpl. rewrite version_numbers_app, Hnew. simpl.
    by rewrite bool_decide_eq_true_2. }
  split; [exact Hone |].
  pose proof (max_version_number_is_max twin_id
                (twin_versions
                   (create_digital_twin twin_id version_id twin current_user
                      store).2)) as Hmax.
  unfold create_version.
  destruct (max_version_number twin_id _) as [m |].
  - destruct Hmax as [Hin _]. rewrite Hone in Hin.
    apply list_elem_of_singleton in Hin as ->. done.
  - rewrite Hone in Hmax. done.
Qed.

Lemma new_twin_starts_at_version_1_witness :
  (create_version 61%N Scenario.twin_U Scenario.a_version Scenario.alice
     (create_digital_twin Scenario.twin_U 60%N Scenario.a_twin Scenario.alice
        Scenario.empty_store).2).1 = (61%N, 2).
Proof.
  apply (proj2 (new_twin_starts_at_version_1 Scenario.twin_U 60%N 61%N
                  Scenario.a_twin Scenario.a_version Scenario.alice
                  Scenario.empty_store ltac:(reflexivity))).
Defined.

(** ** Telemetry ingestion *)

(** A batch stores what the same points sent one by one, in the same order,
    would have stored, after the rows that were there, and reports their
    number; an empty batch stores nothing. *)
Theorem ingest_telemetry_batch_is_a_sequence (data_points : list TelemetryData)
    (now : Z) (telemetry_data : list telemetry_row) :
  (ingest_telemetry_batch data_points now telemetry_data).2
  = foldl (fun table d => (ingest_telemetry d now table).2) telemetry_data data_points
  ∧ (ingest_telemetry_batch data_points now telemetry_data).1
    = ("ingested", length data_points)
  ∧ length (ingest_telemetry_batch data_points now telemetry_data).2
    = (length telemetry_data + length data_points)%nat
  ∧ (ingest_telemetry_batch [] now telemetry_data).2 = telemetry_data.
Proof.
  split; [| split; [done | split]].
  - revert telemetry_data.
    induction data_points as [| d data_points IH]; intros telemetry_data; simpl.
    + apply app_nil_r.
    + rewrite <- IH. simpl. by rewrite <- app_assoc.
  - simpl. by rewrite length_app, length_map.
  - simpl. apply app_nil_r.
Qed.

End HandlersSpec.

(** * More on the maintenance agent *)

Module AgentMore.

Import Agent.

Local Open Scope R_scope.

(** ** Health score *)

Lemma py_max_float_monotone (f : R → R) (x y : R) :
  f y <= f x →
  py_max_float 0 (fmap_float f (Fin y)) <= py_max_float 0 (fmap_float f (Fin x)).
Proof.
  intros Hf. simpl. rewrite !AgentSpec.py_max_Rmax.
  apply Rmax_lub; [apply Rmax_l |].
  apply Rle_trans with (f x); [done | apply Rmax_r].
Qed.

Lemma maint_score_monotone (d1 d2 : Z) :
  (d1 <= d2)%Z → maint_score d2 <= maint_score d1.
Proof.
  intros Hd. unfold maint_score.
  apply Rmult_le_compat_l; [lra |].
  destruct (Z.eq_dec d1 d2) as [-> | Hne]; [lra |].
  left. apply exp_increasing.
  apply Rmult_lt_compat_r; [lra |]. apply IZR_lt. lia.
Qed.

Lemma clamp_monotone (a b : R) :
  a <= b → py_max 0 (py_min 100 a) <= py_max 0 (py_min 100 b).
Proof.
  intros Hab. rewrite !AgentSpec.py_max_Rmax, !AgentSpec.py_min_Rmin.
  apply Rmax_lub; [apply Rmax_l |].
  apply Rle_trans with (Rmin 100 b); [| apply Rmax_r].
  apply Rmin_glb; [apply Rmin_l |].
  apply Rle_trans with a; [apply Rmin_r | done].
Qed.

(** The health score never goes up when a node vibrates more, runs hotter,
    has a more worn tool or has gone longer without maintenance; the rpm has
    no part in it. *)
Theorem health_score_is_monotone (v1 v2 t1 t2 w1 w2 : R) (rpm1 rpm2 : float)
    (d1 d2 : Z) :
  v1 <= v2 → t1 <= t2 → w1 <= w2 → (d1 <= d2)%Z →
  calculate_health_score (Fin v2) (Fin t2) rpm2 (Fin w2) d2
  <= calculate_health_score (Fin v1) (Fin t1) rpm1 (Fin w1) d1.
Proof.
  intros Hv Ht Hw Hd. unfold calculate_health_score. apply clamp_monotone.
  unfold weighted_average, vib_score, temp_score, wear_score.
  pose proof (py_max_float_monotone
                (fun v => 100 - v / config.VIBRATION_CRITICAL * 100) v1 v2) as Hvib.
  pose proof (py_max_float_monotone
                (fun v => 100 - v / config.TEMPERATURE_CRITICAL * 100) t1 t2) as Htemp.
  pose proof (py_max_float_monotone (fun v => 100 - v) w1 w2) as Hwear.
  pose proof (maint_score_monotone d1 d2 Hd) as Hmaint.
  unfold config.VIBRATION_CRITICAL, config.TEMPERATURE_CRITICAL in *.
  specialize (Hvib ltac:(lra)). specialize (Htemp ltac:(lra)).
  specialize (Hwear ltac:(lra)).
  lra.
Qed.

Lemma health_score_is_monotone_witness :
  calculate_health_score (Fin 0.4) (Fin 60) (Fin 2000) (Fin 30) 30
  <= calculate_health_score (Fin 0.2) (Fin 60) (Fin 500) (Fin 30) 30.
Proof.
  apply health_score_is_monotone; [lra | lra | lra | lia].
Defined.

(** The health score is always between 0 and 100, and a metric that has no
    usable sample in the window, which the assessment passes on as NaN,
    weighs on it like a critical reading: no vibration data scores like
    0.8 g, no temperature like 95 °C, no tool wear like 100 %. *)
Theorem health_score_range_and_missing_metrics
    (vibration temperature rpm tool_wear : float) (days : Z) :
  0 <= calculate_health_score vibration temperature rpm tool_wear days <= 100
  ∧ calculate_health_score NaN temperature rpm tool_wear days
    = calculate_health_score (Fin 0.8) temperature rpm tool_wear days
  ∧ calculate_health_score vibration NaN rpm tool_wear days
    = calculate_health_score vibration (Fin 95) rpm tool_wear days
  ∧ calculate_health_score vibration temperature rpm NaN days
    = calculate_health_score vibration temperature rpm (Fin 100) days.
Proof.
  split; [| split; [| split]].
  - unfold calculate_health_score.
    rewrite AgentSpec.py_max_Rmax, AgentSpec.py_min_Rmin. split.
    + apply Rmax_l.
    + apply Rmax_lub; [lra | apply Rmin_l].
  - unfold calculate_health_score, weighted_average. do 3 f_equal.
    unfold vib_score, config.VIBRATION_CRITICAL. simpl.
    rewrite AgentSpec.py_max_Rmax. unfold Rmax. destruct (Rle_dec _ _); lra.
  - unfold calculate_health_score, weighted_average. do 3 f_equal.
    unfold temp_score, config.TEMPERATURE_CRITICAL. simpl.
    rewrite AgentSpec.py_max_Rmax. unfold Rmax. destruct (Rle_dec _ _); lra.
  - unfold calculate_health_score, weighted_average. do 3 f_equal.
    unfold wear_score. simpl.
    rewrite AgentSpec.py_max_Rmax. unfold Rmax. destruct (Rle_dec _ _); lra.
Qed.

(** ** Failure prediction *)

Lemma vibration_magnitudes_nonneg (rows : list telemetry) :
  Forall (fun v => 0 <= v) (vibration_magnitudes rows).
Proof.
  unfold vibration_magnitudes.
  induction rows as [| t rows IH]; simpl; [constructor |].
  apply Forall_app. split; [| exact IH].
  destruct (t_vibration_x_g t) as [x |]; [| constructor].
  destruct (t_vibration_y_g t) as [y |]; [| constructor].
  destruct (t_vibration_z_g t) as [z |]; [| constructor].
  match goal with
  | |- Forall _ (if ?b then _ else _) => destruct b; [| constructor]
  end.
  constructor; [apply sqrt_pos | constructor].
Qed.

Lemma sum_nonneg (l : list R) : Forall (fun v => 0 <= v) l → 0 <= sum l.
Proof.
  induction 1 as [| v l Hv Hl IH]; simpl; [unfold sum; simpl; lra |].
  unfold sum in *. simpl. lra.
Qed.

(** A prediction, when there is one, lies between 0 and 720 hours. *)
Theorem predicted_hours_within_horizon (node_id : UUID) (recent_data : list telemetry)
    (hours : R) :
  predict_failure_time node_id recent_data = Some hours →
  0 <= hours <= 720.
Proof.
  unfold predict_failure_time.
  destruct recent_data as [| t rest]; [done |].
  destruct (length (vibration_magnitudes (t :: rest)) <? 2)%nat; [done |].
  pose proof (vibration_magnitudes_nonneg (t :: rest)) as Hpos.
  destruct (vibration_magnitudes (t :: rest)) as [| v vs] eqn:Hv.
  - simpl. intros [= <-]. lra.
  - unfold np_mean.
    assert (0 <= sum (v :: vs) / INR (length (v :: vs))) as Hmean.
    { apply Rmult_le_pos; [by apply sum_nonneg |].
      left. apply Rinv_0_lt_compat. apply lt_0_INR. simpl. lia. }
    remember (sum (v :: vs) / INR (length (v :: vs))) as mean.
    destruct (Rle_dec _ _); intros [= <-]; [lra |].
    rewrite AgentSpec.py_max_Rmax. unfold config.VIBRATION_CRITICAL in *.
    split; [apply Rmax_l |]. apply Rmax_lub; lra.
Qed.

Lemma two_calm_samples_prediction :
  predict_failure_time AgentScenario.node_N AgentScenario.two_calm_samples
  = Some (py_max 0 (720 * (1 - (0.3 + 0.3) / 2 / config.VIBRATION_CRITICAL))).
Proof.
  unfold predict_failure_time, AgentScenario.two_calm_samples.
  rewrite !AgentSpec.vibration_magnitudes_sample by lra.
  rewrite AgentSpec.calm_sample_magnitude.
  change (vibration_magnitudes []) with (@nil R).
  rewrite AgentSpec.np_mean_two. simpl.
  unfold config.VIBRATION_CRITICAL. destruct (Rle_dec _ _); [lra | done].
Qed.

Lemma predicted_hours_within_horizon_witness :
  0 <= py_max 0 (720 * (1 - (0.3 + 0.3) / 2 / config.VIBRATION_CRITICAL)) <= 720.
Proof.
  apply (predicted_hours_within_horizon AgentScenario.node_N
           AgentScenario.two_calm_samples).
  apply two_calm_samples_prediction.
Defined.

(** ** Tickets *)

(** Outside the deduplication window a ticket is inserted: when every
    ticket of the pair (node, title) is either closed to deduplication
    (neither open nor acknowledged) or was created 24 hours ago or earlier, a
    create appends exactly one row, open and stamped with [now]. A ticket
    exactly 24 hours old no longer suppresses. *)
Theorem create_maintenance_ticket_inserts
    (ticket_id node_id : UUID) (severity : Severity) (title description : string)
    (diagnostic_data : json) (now : Z) (d : Database) :
  (∀ t, t ∈ maintenance_tickets d → tk_node_id t = node_id → tk_title t = title →
        (tk_status t ≠ "open" ∧ tk_status t ≠ "acknowledged")
        ∨ (tk_created_at t <= now - 86400)%Z) →
  maintenance_tickets
    (create_maintenance_ticket ticket_id node_id severity title description
       diagnostic_data now d)
  = maintenance_tickets d
    ++ [{| tk_ticket_id := ticket_id; tk_node_id := node_id;
           tk_severity := Severity_value severity; tk_title := title;
           tk_description := description; tk_diagnostic_data := diagnostic_data;
           tk_status := "open"; tk_created_at := now;
           tk_acknowledged_at := None |}].
Proof.
  intros Hnone. unfold create_maintenance_ticket.
  destruct (fetchrow_duplicate node_id title now d) as [t |] eqn:Hdup; [| done].
  exfalso. unfold fetchrow_duplicate in Hdup.
  apply find_some in Hdup as [Hin Hdup]. apply list_elem_of_In in Hin.
  unfold is_duplicate_of in Hdup.
  apply andb_true_iff in Hdup as [Hdup Hrecent%bool_decide_eq_true].
  apply andb_true_iff in Hdup as [Hdup Hstatus].
  apply andb_true_iff in Hdup as [Hnode%bool_decide_eq_true Htitle%bool_decide_eq_true].
  apply orb_true_iff in Hstatus.
  rewrite !bool_decide_eq_true in Hstatus.
  destruct (Hnone t Hin Hnode Htitle) as [[Hopen Hack] | Hold]; [tauto | lia].
Qed.

Lemma create_maintenance_ticket_inserts_witness :
  length (maintenance_tickets
            (create_maintenance_ticket 901%N AgentScenario.node_N CRITICAL
               AgentScenario.vibration_title "second" JNull AgentScenario.now
               AgentScenario.one_day_old_ticket)) = 2%nat.
Proof.
  rewrite (create_maintenance_ticket_inserts 901%N AgentScenario.node_N CRITICAL
             AgentScenario.vibration_title "second" JNull AgentScenario.now
             AgentScenario.one_day_old_ticket).
  - reflexivity.
  - intros t Hin%list_elem_of_singleton _ _. subst t. right. simpl.
    unfold AgentScenario.now. lia.
Defined.

(** ** Prioritisation *)

Lemma insert_by_score_permutation (now : Z) (x : ticket) (l : list ticket) :
  insert_by_score now x l ≡ₚ x :: l.
Proof.
  induction l as [| y l IH]; simpl; [done |].
  destruct (Rlt_dec _ _); [| done].
  rewrite IH. apply Permutation_swap.
Qed.

Lemma insert_by_score_sorted (now : Z) (x : ticket) (l : list ticket) :
  StronglySorted (fun a b => priority_score now b <= priority_score now a) l →
  StronglySorted (fun a b => priority_score now b <= priority_score now a)
                 (insert_by_score now x l).
Proof.
  induction 1 as [| y l Hsorted IH Hy]; simpl.
  - by repeat constructor.
  - destruct (Rlt_dec _ _) as [Hlt | Hge].
    + constructor; [done |].
      rewrite insert_by_score_permutation. constructor; [lra | done].
    + constructor; [by constructor |]. constructor; [lra |].
      eapply Forall_impl; [exact Hy |]. simpl. intros b Hb. lra.
Qed.

Lemma prioritize_maintenance_permutation (now : Z) (tickets : list ticket) :
  prioritize_maintenance now tickets ≡ₚ tickets.
Proof.
  induction tickets as [| t tickets IH]; simpl; [done |].
  rewrite insert_by_score_permutation. by rewrite IH.
Qed.

Lemma prioritize_maintenance_sorted (now : Z) (tickets : list ticket) :
  StronglySorted (fun a b => priority_score now b <= priority_score now a)
                 (prioritize_maintenance now tickets).
Proof.
  induction tickets as [| t tickets IH]; simpl; [constructor |].
  by apply insert_by_score_sorted.
Qed.

(** [prioritize_maintenance] loses and invents no ticket, and hands them
    back by falling score: each ticket scores at least as much as every
    ticket after it, so the first is one of the highest. *)
Theorem prioritize_maintenance_sorts (now : Z) (tickets : list ticket) :
  prioritize_maintenance now tickets ≡ₚ tickets
  ∧ StronglySorted (fun a b => priority_score now b <= priority_score now a)
                   (prioritize_maintenance now tickets)
  ∧ ∀ first rest t,
      prioritize_maintenance now tickets = first :: rest → t ∈ tickets →
      priority_score now t <= priority_score now first.
Proof.
  split; [apply prioritize_maintenance_permutation |].
  split; [apply prioritize_maintenance_sorted |].
  intros first rest t Hfirst Hin.
  pose proof (prioritize_maintenance_sorted now tickets) as Hsorted.
  rewrite <- (prioritize_maintenance_permutation now tickets) in Hin.
  rewrite Hfirst in Hsorted, Hin.
  apply StronglySorted_inv in Hsorted as [_ Hall].
  apply elem_of_cons in Hin as [-> | Hin]; [lra |].
  rewrite Forall_forall in Hall. by apply Hall.
Qed.

Lemma severity_weight_range (severity : string) : 0 <= severity_weight severity <= 100.
Proof. unfold severity_weight. repeat case_bool_decide; lra. Qed.

(** Age ends up beating severity: a ticket more than 200 hours older than
    another is never ranked after it, whatever the two severities, a text
    that is no severity included. *)
Theorem older_ticket_is_not_starved (now : Z) (tickets before between after : list ticket)
    (younger older : ticket) :
  prioritize_maintenance now tickets
  = before ++ younger :: between ++ older :: after →
  (tk_created_at older + 720000 < tk_created_at younger)%Z →
  False.
Proof.
  intros Horder Hage.
  pose proof (prioritize_maintenance_sorted now tickets) as Hsorted.
  rewrite Horder in Hsorted.
  apply StronglySorted_app_1_r, StronglySorted_inv in Hsorted as [_ Hall].
  rewrite Forall_forall in Hall.
  specialize (Hall older ltac:(apply elem_of_app; right; by left)).
  unfold priority_score in Hall.
  pose proof (severity_weight_range (tk_severity older)).
  pose proof (severity_weight_range (tk_severity younger)).
  assert (IZR (now - tk_created_at younger) + 720000
          < IZR (now - tk_created_at older)) as Hgap.
  { rewrite <- plus_IZR. apply IZR_lt. lia. }
  lra.
Qed.

Lemma older_ticket_is_not_starved_witness :
  prioritize_maintenance AgentScenario.now
    [AgentScenario.fresh_critical; AgentScenario.old_low]
  ≠ [] ++ AgentScenario.fresh_critical :: [] ++ AgentScenario.old_low :: [].
Proof.
  intros Horder.
  apply (older_ticket_is_not_starved AgentScenario.now
           [AgentScenario.fresh_critical; AgentScenario.old_low] [] [] []
           AgentScenario.fresh_critical AgentScenario.old_low Horder).
  simpl. lia.
Defined.

(** ** Alert dispatch *)

Lemma acknowledged_twice (now : Z) (t : ticket) :
  acknowledged now (acknowledged now t) = acknowledged now t.
Proof. reflexivity. Qed.

Lemma needs_alert_acknowledged (now now' : Z) (t : ticket) :
  needs_alert now' (acknowledged now t) = false.
Proof.
  unfold needs_alert. simpl. by rewrite andb_false_r.
Qed.

(** The updates of one turn, taken together: a ticket is acknowledged when
    its id is the id of a selected ticket, and is left alone otherwise. *)
Lemma acknowledge_all (now : Z) (selected : list ticket) :
  ∀ d : Database,
    maintenance_tickets
      (foldl (fun d t => acknowledge (tk_ticket_id t) now d) d selected)
    = map (fun t => if bool_decide (tk_ticket_id t ∈ tk_ticket_id <$> selected)
                    then acknowledged now t else t)
          (maintenance_tickets d).
Proof.
  induction selected as [| s selected IH]; intros d; simpl.
  - rewrite <- (map_id (maintenance_tickets d)) at 1.
    apply map_ext. intros t. done.
  - rewrite IH. simpl. rewrite map_map. apply map_ext. intros t.
    destruct (decide (tk_ticket_id t = tk_ticket_id s)) as [Heq | Hne].
    + rewrite (bool_decide_eq_true_2 _ Heq).
      rewrite (bool_decide_eq_true_2 (tk_ticket_id t ∈ _ :: _))
        by (rewrite Heq; by left).
      by case_bool_decide.
    + rewrite (bool_decide_eq_false_2 _ Hne).
      apply (f_equal (fun b : bool => if b then acknowledged now t else t)).
      apply bool_decide_ext. rewrite elem_of_cons. tauto.
Qed.

Lemma alert_dispatcher_turn_tickets (now : Z) (d : Database) :
  maintenance_tickets (alert_dispatcher_turn now d).2
  = map (fun t => if bool_decide
                       (tk_ticket_id t
                          ∈ tk_ticket_id
                              <$> List.filter (needs_alert now) (maintenance_tickets d))
                  then acknowledged now t else t)
        (maintenance_tickets d).
Proof. unfold alert_dispatcher_turn. simpl. apply acknowledge_all. Qed.

Lemma alert_dispatcher_turn_clears (now now' : Z) (d : Database) (t : ticket) :
  (now <= now')%Z →
  t ∈ maintenance_tickets (alert_dispatcher_turn now d).2 →
  needs_alert now' t = false.
Proof.
  intros Hlater. rewrite alert_dispatcher_turn_tickets.
  intros (t0 & -> & Hin)%list_elem_of_fmap.
  case_bool_decide as Hsel; [apply needs_alert_acknowledged |].
  destruct (needs_alert now' t0) eqn:Halert; [| done].
  exfalso. apply Hsel. apply list_elem_of_fmap. exists t0. split; [done |].
  apply list_elem_of_In, filter_In. split; [by apply list_elem_of_In |].
  unfold needs_alert in *.
  apply andb_true_iff in Halert as [Halert Hrecent%bool_decide_eq_true].
  rewrite Halert. simpl. apply bool_decide_eq_true. lia.
Qed.

(** One turn of the alert dispatcher hands to [send_alert] the open
    critical and high tickets of the last hour and acknowledges each of
    them, stamped with the instant of the turn. No ticket is added or
    removed, and afterwards nothing is left to alert: a later turn on the
    same tickets sends no alert and changes nothing, so no ticket is alerted
    twice. *)
Theorem alert_dispatcher_alerts_once (now : Z) (d : Database) :
  (∀ t, t ∈ (alert_dispatcher_turn now d).1
        ↔ t ∈ maintenance_tickets d ∧ needs_alert now t = true)
  ∧ (∀ t, t ∈ (alert_dispatcher_turn now d).1 →
          acknowledged now t ∈ maintenance_tickets (alert_dispatcher_turn now d).2)
  ∧ length (maintenance_tickets (alert_dispatcher_turn now d).2)
    = length (maintenance_tickets d)
  ∧ ∀ now', (now <= now')%Z →
            alert_dispatcher_turn now' (alert_dispatcher_turn now d).2
            = ([], (alert_dispatcher_turn now d).2).
Proof.
  split; [| split; [| split]].
  - intros t. unfold alert_dispatcher_turn. simpl.
    by rewrite !list_elem_of_In, filter_In.
  - intros t Hin. rewrite alert_dispatcher_turn_tickets.
    apply list_elem_of_fmap. exists t. split.
    + rewrite bool_decide_eq_true_2; [done |].
      apply list_elem_of_fmap. by exists t.
    + unfold alert_dispatcher_turn in Hin. simpl in Hin.
      apply list_elem_of_In, filter_In in Hin as [Hin _].
      by apply list_elem_of_In.
  - by rewrite alert_dispatcher_turn_tickets, length_map.
  - intros now' Hlater.
    assert (List.filter (needs_alert now')
                        (maintenance_tickets (alert_dispatcher_turn now d).2) = [])
      as Hnone.
    { pose proof (alert_dispatcher_turn_clears now now' d) as Hclear.
      induction (maintenance_tickets (alert_dispatcher_turn now d).2)
        as [| t l IH]; [done |].
      simpl. rewrite (Hclear t Hlater) by (by left).
      apply IH. intros t' Hl Ht'. apply Hclear; [done | by right]. }
    unfold alert_dispatcher_turn at 1. by rewrite Hnone.
Qed.

Lemma alert_dispatcher_alerts_once_witness :
  (alert_dispatcher_turn AgentScenario.now AgentScenario.two_open_tickets).1
  = [AgentScenario.fresh_critical]
  ∧ alert_dispatcher_turn (AgentScenario.now + 300)
      (alert_dispatcher_turn AgentScenario.now AgentScenario.two_open_tickets).2
    = ([], (alert_dispatcher_turn AgentScenario.now
              AgentScenario.two_open_tickets).2).
Proof.
  split; [vm_compute; reflexivity |].
  apply (proj2 (proj2 (proj2 (alert_dispatcher_alerts_once AgentScenario.now
                                AgentScenario.two_open_tickets)))).
  lia.
Defined.

(** An alerted ticket goes on suppressing duplicates: for 24 hours from its
    creation, a create for its node and title after the dispatcher has
    acknowledged it inserts nothing. *)
Theorem acknowledged_ticket_still_deduplicates
    (now now' : Z) (d : Database) (t : ticket) (ticket_id : UUID)
    (severity : Severity) (description : string) (diagnostic_data : json) :
  t ∈ (alert_dispatcher_turn now d).1 →
  (now' - 86400 < tk_created_at t)%Z →
  create_maintenance_ticket ticket_id (tk_node_id t) severity (tk_title t)
    description diagnostic_data now' (alert_dispatcher_turn now d).2
  = (alert_dispatcher_turn now d).2.
Proof.
  intros Halerted Hrecent.
  apply AgentSpec.create_maintenance_ticket_suppressed
    with (acknowledged now t).
  - rewrite alert_dispatcher_turn_tickets.
    apply list_elem_of_fmap. exists t. split.
    + rewrite bool_decide_eq_true_2; [done |].
      apply list_elem_of_fmap. by exists t.
    + unfold alert_dispatcher_turn in Halerted. simpl in Halerted.
      apply list_elem_of_In, filter_In in Halerted as [Hin _].
      by apply list_elem_of_In.
  - apply AgentSpec.is_duplicate_of_recent; simpl; [done | done | by right | done].
Qed.

Lemma acknowledged_ticket_still_deduplicates_witness :
  create_maintenance_ticket 912%N AgentScenario.node_N CRITICAL
    "Predicted failure imminent" "again" JNull (AgentScenario.now + 3600)
    (alert_dispatcher_turn AgentScenario.now AgentScenario.two_open_tickets).2
  = (alert_dispatcher_turn AgentScenario.now AgentScenario.two_open_tickets).2.
Proof.
  apply (acknowledged_ticket_still_deduplicates AgentScenario.now
           (AgentScenario.now + 3600) AgentScenario.two_open_tickets
           AgentScenario.fresh_critical 912%N CRITICAL "again" JNull).
  - by left.
  - simpl. unfold AgentScenario.now. lia.
Defined.

(** ** Threshold checks *)

Lemma float_ge_lower (x : float) (c1 c2 : R) :
  c1 <= c2 → float_ge x c1 = false → float_ge x c2 = false.
Proof.
  intros Hc. destruct x as [r |]; [| done]. simpl.
  destruct (Rle_dec c1 r), (Rle_dec c2 r); try done. lra.
Qed.

Lemma string_length_append (a b : string) :
  String.length (a ++ b)%string = (String.length a + String.length b)%nat.
Proof.
  induction a as [| c a IH]; [done |].
  change (S (String.length (a ++ b)%string)
          = S (String.length a + String.length b)).
  by rewrite IH.
Qed.

Lemma string_append_inj_l (p a b : string) : (p ++ a = p ++ b)%string → a = b.
Proof.
  induction p as [| c p IH]; [done |].
  change (String c (p ++ a)%string = String c (p ++ b)%string → a = b).
  intros [= H]. auto.
Qed.

Lemma string_append_inj_r (s : string) :
  ∀ a b : string, (a ++ s = b ++ s)%string → a = b.
Proof.
  induction a as [| c a IH]; intros [| c' b] H.
  - done.
  - apply (f_equal String.length) in H.
    rewrite !string_length_append in H. simpl in H. lia.
  - apply (f_equal String.length) in H.
    rewrite !string_length_append in H. simpl in H. lia.
  - change (String c (a ++ s)%string = String c' (b ++ s)%string) in H.
    injection H as -> H. f_equal. by apply IH.
Qed.

Lemma create_maintenance_ticket_fresh
    (ticket_id node_id : UUID) (severity : Severity) (title description : string)
    (diagnostic_data : json) (now : Z) (d : Database) :
  (∀ t, t ∈ maintenance_tickets d → tk_node_id t = node_id → tk_title t ≠ title) →
  maintenance_tickets
    (create_maintenance_ticket ticket_id node_id severity title description
       diagnostic_data now d)
  = maintenance_tickets d
    ++ [{| tk_ticket_id := ticket_id; tk_node_id := node_id;
           tk_severity := Severity_value severity; tk_title := title;
           tk_description := description; tk_diagnostic_data := diagnostic_data;
           tk_status := "open"; tk_created_at := now;
           tk_acknowledged_at := None |}].
Proof.
  intros Hnone. unfold create_maintenance_ticket.
  destruct (fetchrow_duplicate node_id title now d) as [t |] eqn:Hdup; [| done].
  exfalso. unfold fetchrow_duplicate in Hdup.
  apply find_some in Hdup as [Hin Hdup]. apply list_elem_of_In in Hin.
  unfold is_duplicate_of in Hdup.
  apply andb_true_iff in Hdup as [Hdup _].
  apply andb_true_iff in Hdup as [Hdup _].
  apply andb_true_iff in Hdup as [Hnode%bool_decide_eq_true Htitle%bool_decide_eq_true].
  by apply (Hnone t).
Qed.

Section Thresholds.

Variable py : builtins.
Variable health : NodeHealth.

(** What a run of the ticket loop adds: rows after the ones that were
    there, at most one per violation, each open, of this node and stamped
    [now]; and every violation ends with a ticket that suppresses it. *)
Lemma create_violation_tickets_adds (now : Z) (violations : list violation) :
  ∀ (ticket_ids : nat → UUID) (i : nat) (d : Database),
    ∃ added,
      maintenance_tickets
        (create_violation_tickets py ticket_ids i violations health now d)
      = maintenance_tickets d ++ added
      ∧ (length added <= length violations)%nat
      ∧ Forall (fun t => tk_node_id t = nh_node_id health
                         ∧ tk_status t = "open" ∧ tk_created_at t = now) added
      ∧ ∀ v, v ∈ violations →
             ∃ t, t ∈ maintenance_tickets d ++ added
                  ∧ tk_node_id t = nh_node_id health
                  ∧ tk_title t = v_message v.
Proof.
  induction violations as [| v violations IH]; intros ticket_ids i d; simpl.
  - exists []. rewrite app_nil_r. repeat split; try done.
    intros v Hv. by apply not_elem_of_nil in Hv.
  - match goal with
    | |- context [create_violation_tickets _ _ _ _ _ _ ?d1] => set (d' := d1)
    end.
    destruct (IH ticket_ids (S i) d') as (added & Htickets & Hlen & Hall & Hcover).
    assert (∃ first,
              maintenance_tickets d' = maintenance_tickets d ++ first
              ∧ (length first <= 1)%nat
              ∧ Forall (fun t => tk_node_id t = nh_node_id health
                                 ∧ tk_status t = "open" ∧ tk_created_at t = now)
                       first
              ∧ ∃ t, t ∈ maintenance_tickets d'
                     ∧ tk_node_id t = nh_node_id health
                     ∧ tk_title t = v_message v)
      as (first & Hfirst & Hlen1 & Hall1 & t1 & Ht1 & Hnode1 & Htitle1).
    { subst d'. unfold create_maintenance_ticket.
      destruct (fetchrow_duplicate _ _ _ _) as [t |] eqn:Hdup.
      - exists []. rewrite app_nil_r. repeat split; try done; [simpl; lia |].
        unfold fetchrow_duplicate in Hdup.
        apply find_some in Hdup as [Hin Hdup]. exists t.
        split; [by apply list_elem_of_In |].
        unfold is_duplicate_of in Hdup.
        apply andb_true_iff in Hdup as [Hdup _].
        apply andb_true_iff in Hdup as [Hdup _].
        by apply andb_true_iff in Hdup
          as [Hnode%bool_decide_eq_true Htitle%bool_decide_eq_true].
      - eexists [_]. simpl. split; [done |]. split; [lia |].
        split; [by repeat constructor |].
        eexists. split; [apply elem_of_app; right; by left |]. done. }
    exists (first ++ added).
    rewrite Htickets, Hfirst, <- app_assoc. split; [done |].
    split; [rewrite length_app; lia |].
    split; [by apply Forall_app |].
    intros v' [-> | Hv']%elem_of_cons.
    + exists t1. split; [| done].
      rewrite Hfirst in Ht1. rewrite app_assoc. apply elem_of_app. by left.
    + destruct (Hcover v' Hv') as (t & Ht & Hnode & Htitle).
      exists t. split; [| done]. by rewrite Hfirst, <- app_assoc in Ht.
Qed.

(** A ticket loop all of whose violations are already suppressed changes
    nothing. *)
Lemma create_violation_tickets_suppressed (now : Z) (violations : list violation) :
  ∀ (ticket_ids : nat → UUID) (i : nat) (health' : NodeHealth) (d : Database),
    nh_node_id health' = nh_node_id health →
    (∀ v, v ∈ violations →
          ∃ t, t ∈ maintenance_tickets d
               ∧ is_duplicate_of (nh_node_id health) (v_message v) now t = true) →
    create_violation_tickets py ticket_ids i violations health' now d = d.
Proof.
  induction violations as [| v violations IH];
    intros ticket_ids i health' d Hnode Hdup; simpl; [done |].
  destruct (Hdup v ltac:(by left)) as (t & Hin & Ht).
  rewrite Hnode.
  rewrite (AgentSpec.create_maintenance_ticket_suppressed _ _ _ _ _ _ _ _ t)
    by done.
  apply IH; [done |]. intros v' Hv'. apply Hdup. by right.
Qed.

(** A check adds at most three tickets, one per metric, after the tickets
    that were there, which it never changes; and when no metric reaches its
    warning level, NaN readings included, it adds none. *)
Theorem check_thresholds_adds_at_most_three (ticket_ids : nat → UUID) (now : Z)
    (d : Database) :
  (∃ added,
     maintenance_tickets (check_thresholds py ticket_ids health now d)
     = maintenance_tickets d ++ added
     ∧ (length added <= 3)%nat
     ∧ Forall (fun t => tk_node_id t = nh_node_id health
                        ∧ tk_status t = "open" ∧ tk_created_at t = now) added)
  ∧ (float_ge (vibration_level health) config.VIBRATION_WARNING = false →
     float_ge (temperature health) config.TEMPERATURE_WARNING = false →
     float_ge (tool_wear health) config.TOOL_WEAR_WARNING = false →
     check_thresholds py ticket_ids health now d = d).
Proof.
  split.
  - destruct (create_violation_tickets_adds now (violations_of py health)
                ticket_ids 0%nat d) as (added & Htickets & Hlen & Hall & _).
    exists added. split; [done |]. split; [| done].
    etransitivity; [exact Hlen |].
    unfold violations_of. rewrite !length_app.
    repeat case_match; simpl; lia.
  - intros Hvib Htemp Hwear. unfold check_thresholds, violations_of.
    rewrite Hvib, Htemp, Hwear.
    rewrite (float_ge_lower (vibration_level health) config.VIBRATION_WARNING
               config.VIBRATION_CRITICAL)
      by (first [exact Hvib
                | unfold config.VIBRATION_WARNING, config.VIBRATION_CRITICAL; lra]).
    rewrite (float_ge_lower (temperature health) config.TEMPERATURE_WARNING
               config.TEMPERATURE_CRITICAL)
      by (first [exact Htemp
                | unfold config.TEMPERATURE_WARNING, config.TEMPERATURE_CRITICAL;
                  lra]).
    rewrite (float_ge_lower (tool_wear health) config.TOOL_WEAR_WARNING
               config.TOOL_WEAR_CRITICAL)
      by (first [exact Hwear
                | unfold config.TOOL_WEAR_WARNING, config.TOOL_WEAR_CRITICAL; lra]).
    reflexivity.
Qed.

(** A condition that lasts makes its tickets once: on a node that had no
    ticket, a second check within 24 hours of the first, on readings that
    give the same violations with the same texts, inserts nothing. *)
Theorem check_thresholds_does_not_repeat (ticket_ids ticket_ids' : nat → UUID)
    (health' : NodeHealth) (now now' : Z) (d : Database) :
  (∀ t, t ∈ maintenance_tickets d → tk_node_id t ≠ nh_node_id health) →
  nh_node_id health' = nh_node_id health →
  violations_of py health' = violations_of py health →
  (now <= now' < now + 86400)%Z →
  check_thresholds py ticket_ids' health' now'
    (check_thresholds py ticket_ids health now d)
  = check_thresholds py ticket_ids health now d.
Proof.
  intros Hnone Hnode Hsame Hclose. unfold check_thresholds at 1. rewrite Hsame.
  apply create_violation_tickets_suppressed; [done |].
  intros v Hv. unfold check_thresholds.
  destruct (create_violation_tickets_adds now (violations_of py health)
              ticket_ids 0%nat d) as (added & -> & _ & Hall & Hcover).
  destruct (Hcover v Hv) as (t & Hin & Htnode & Htitle).
  exists t. split; [done |].
  apply elem_of_app in Hin as [Hin | Hin]; [by destruct (Hnone t Hin) |].
  rewrite Forall_forall in Hall. destruct (Hall t Hin) as (_ & Hopen & Hcreated).
  apply AgentSpec.is_duplicate_of_recent; [done | done | by left | lia].
Qed.

End Thresholds.

Lemma check_thresholds_adds_at_most_three_witness :
  check_thresholds AgentScenario.plain_builtins (fun _ => 920%N)
    (AgentScenario.reading NaN (Fin 60) (Fin 30)) AgentScenario.now
    AgentScenario.no_tickets
  = AgentScenario.no_tickets.
Proof.
  apply (proj2 (check_thresholds_adds_at_most_three AgentScenario.plain_builtins
                  (AgentScenario.reading NaN (Fin 60) (Fin 30)) (fun _ => 920%N)
                  AgentScenario.now AgentScenario.no_tickets)).
  - reflexivity.
  - simpl. unfold config.TEMPERATURE_WARNING. destruct (Rle_dec _ _); [lra | done].
  - simpl. unfold config.TOOL_WEAR_WARNING. destruct (Rle_dec _ _); [lra | done].
Defined.

Lemma check_thresholds_does_not_repeat_witness :
  check_thresholds AgentScenario.plain_builtins (fun _ => 921%N)
    (AgentScenario.reading (Fin 0.9) (Fin 60) (Fin 30)) (AgentScenario.now + 60)
    (check_thresholds AgentScenario.plain_builtins (fun _ => 920%N)
       (AgentScenario.reading (Fin 0.9) (Fin 60) (Fin 30)) AgentScenario.now
       AgentScenario.no_tickets)
  = check_thresholds AgentScenario.plain_builtins (fun _ => 920%N)
      (AgentScenario.reading (Fin 0.9) (Fin 60) (Fin 30)) AgentScenario.now
      AgentScenario.no_tickets.
Proof.
  apply check_thresholds_does_not_repeat.
  - intros t Hin. by apply not_elem_of_nil in Hin.
  - reflexivity.
  - reflexivity.
  - lia.
Defined.

Lemma violations_of_vibration_only (py : builtins) (health : NodeHealth) :
  float_ge (vibration_level health) config.VIBRATION_CRITICAL = true →
  float_ge (temperature health) config.TEMPERATURE_WARNING = false →
  float_ge (tool_wear health) config.TOOL_WEAR_WARNING = false →
  violations_of py health
  = [{| v_type := "vibration_critical"; v_severity := CRITICAL;
        v_message := "Critical vibration: "
                     ++ format_fixed py 2 (vibration_level health)
                     ++ "g (limit: 0.8g)" |}].
Proof.
  intros Hvib Htemp Hwear. unfold violations_of. rewrite Hvib, Htemp, Hwear.
  rewrite (float_ge_lower (temperature health) config.TEMPERATURE_WARNING
             config.TEMPERATURE_CRITICAL)
    by (first [exact Htemp
              | unfold config.TEMPERATURE_WARNING, config.TEMPERATURE_CRITICAL;
                lra]).
  rewrite (float_ge_lower (tool_wear health) config.TOOL_WEAR_WARNING
             config.TOOL_WEAR_CRITICAL)
    by (first [exact Hwear
              | unfold config.TOOL_WEAR_WARNING, config.TOOL_WEAR_CRITICAL; lra]).
  reflexivity.
Qed.

(** The deduplication key carries the reading: the title of a vibration
    ticket holds the vibration to two decimals, so while the vibration stays
    critical, a check whose reading prints differently from the one before
    is not suppressed and adds a second ticket for the same node. *)
Theorem new_reading_text_makes_a_new_ticket (py : builtins)
    (ticket_ids ticket_ids' : nat → UUID) (health health' : NodeHealth)
    (now now' : Z) (d : Database) :
  (∀ t, t ∈ maintenance_tickets d → tk_node_id t ≠ nh_node_id health) →
  nh_node_id health' = nh_node_id health →
  float_ge (vibration_level health) config.VIBRATION_CRITICAL = true →
  float_ge (vibration_level health') config.VIBRATION_CRITICAL = true →
  float_ge (temperature health) config.TEMPERATURE_WARNING = false →
  float_ge (temperature health') config.TEMPERATURE_WARNING = false →
  float_ge (tool_wear health) config.TOOL_WEAR_WARNING = false →
  float_ge (tool_wear health') config.TOOL_WEAR_WARNING = false →
  format_fixed py 2 (vibration_level health)
  ≠ format_fixed py 2 (vibration_level health') →
  ∃ t1 t2,
    maintenance_tickets
      (check_thresholds py ticket_ids' health' now'
         (check_thresholds py ticket_ids health now d))
    = maintenance_tickets d ++ [t1; t2]
    ∧ tk_node_id t1 = nh_node_id health ∧ tk_node_id t2 = nh_node_id health
    ∧ tk_created_at t1 = now ∧ tk_created_at t2 = now'
    ∧ tk_title t1 ≠ tk_title t2.
Proof.
  intros Hnone Hnode Hvib Hvib' Htemp Htemp' Hwear Hwear' Htext.
  unfold check_thresholds.
  rewrite !violations_of_vibration_only by done. simpl.
  assert (("Critical vibration: " ++ format_fixed py 2 (vibration_level health)
           ++ "g (limit: 0.8g)")%string
          ≠ ("Critical vibration: " ++ format_fixed py 2 (vibration_level health')
             ++ "g (limit: 0.8g)")%string) as Htitles.
  { intros Heq. apply Htext.
    apply string_append_inj_l in Heq. by apply string_append_inj_r in Heq. }
  eexists _, _.
  rewrite create_maintenance_ticket_fresh.
  - rewrite create_maintenance_ticket_fresh.
    + rewrite <- app_assoc. simpl. split; [reflexivity |].
      simpl. repeat split; try done.
    + intros t Hin Ht. by destruct (Hnone t Hin).
  - rewrite create_maintenance_ticket_fresh
      by (intros t Hin Ht; by destruct (Hnone t Hin)).
    intros t [Hin | ->%list_elem_of_singleton]%elem_of_app Ht.
    + rewrite Hnode in Ht. by destruct (Hnone t Hin).
    + simpl. done.
Qed.

Lemma new_reading_text_makes_a_new_ticket_witness :
  length (maintenance_tickets
            (check_thresholds AgentScenario.two_decimals (fun _ => 921%N)
               (AgentScenario.reading (Fin 0.86) (Fin 60) (Fin 30))
               (AgentScenario.now + 60)
               (check_thresholds AgentScenario.two_decimals (fun _ => 920%N)
                  (AgentScenario.reading (Fin 0.85) (Fin 60) (Fin 30))
                  AgentScenario.now AgentScenario.no_tickets)))
  = 2%nat.
Proof.
  destruct (new_reading_text_makes_a_new_ticket AgentScenario.two_decimals
              (fun _ => 920%N) (fun _ => 921%N)
              (AgentScenario.reading (Fin 0.85) (Fin 60) (Fin 30))
              (AgentScenario.reading (Fin 0.86) (Fin 60) (Fin 30))
              AgentScenario.now (AgentScenario.now + 60) AgentScenario.no_tickets)
    as (t1 & t2 & -> & _).
  - intros t Hin. by apply not_elem_of_nil in Hin.
  - reflexivity.
  - simpl. unfold config.VIBRATION_CRITICAL. destruct (Rle_dec _ _); [done | lra].
  - simpl. unfold config.VIBRATION_CRITICAL. destruct (Rle_dec _ _); [done | lra].
  - simpl. unfold config.TEMPERATURE_WARNING. destruct (Rle_dec _ _); [lra | done].
  - simpl. unfold config.TEMPERATURE_WARNING. destruct (Rle_dec _ _); [lra | done].
  - simpl. unfold config.TOOL_WEAR_WARNING. destruct (Rle_dec _ _); [lra | done].
  - simpl. unfold config.TOOL_WEAR_WARNING. destruct (Rle_dec _ _); [lra | done].
  - simpl. destruct (Rle_dec 0.855 0.85), (Rle_dec 0.855 0.86); try lra.
    discriminate.
  - reflexivity.
Defined.

(** ** Recommendations *)

(** A recommendation is made for a ticket whose severity is one of the four
    known ones, and asking for one on any other severity text raises. The
    urgency is 24 hours for a critical ticket and 168 otherwise, the cost
    lies between 80 and 1200 and the downtime between 1.5 and 8 hours. The
    tool comes first: with a tool wear of 80 % or more the action is the tool
    replacement, whatever the vibration and the temperature; and with no
    metric at its critical level, NaN readings included, it is the routine
    inspection. *)
Theorem recommendation_rules (t : ticket) (node_health_cache : gmap UUID NodeHealth)
    (now : Z) (d : Database) (health : NodeHealth) :
  health = match node_health_cache !! tk_node_id t with
           | Some cached => cached
           | None => assess_node_health (tk_node_id t) now d
           end →
  match Severity_of_value (tk_severity t) with
  | None => generate_recommendation t node_health_cache now d = Raise "ValueError"
  | Some severity =>
      ∃ r, generate_recommendation t node_health_cache now d = Ret r
           ∧ mr_severity r = severity
           ∧ mr_urgency_hours r
             = match severity with CRITICAL => 24%Z | _ => 168%Z end
           ∧ 80 <= mr_estimated_cost r <= 1200
           ∧ 1.5 <= mr_estimated_downtime_hours r <= 8
           ∧ (float_ge (tool_wear health) 80 = true →
              mr_recommended_action r = "Replace cutting tool immediately"
              ∧ mr_estimated_cost r = 450)
           ∧ (float_ge (tool_wear health) 80 = false →
              float_ge (vibration_level health) config.VIBRATION_CRITICAL = false →
              float_ge (temperature health) config.TEMPERATURE_CRITICAL = false →
              mr_recommended_action r = "Perform routine inspection and lubrication"
              ∧ mr_estimated_cost r = 80)
  end.
Proof.
  intros ->. unfold generate_recommendation.
  set (health := match node_health_cache !! tk_node_id t with
                 | Some cached => cached
                 | None => assess_node_health (tk_node_id t) now d
                 end).
  assert (match Severity_of_value (tk_severity t) with
          | Some severity =>
              (if bool_decide (tk_severity t = "critical") then 24%Z else 168%Z)
              = match severity with CRITICAL => 24%Z | _ => 168%Z end
          | None => True
          end) as Hurgency.
  { unfold Severity_of_value. repeat case_bool_decide; done. }
  destruct (float_ge (tool_wear health) 80) eqn:Hwear;
    [| destruct (float_ge (vibration_level health) config.VIBRATION_CRITICAL)
         eqn:Hvib;
       [| destruct (float_ge (temperature health) config.TEMPERATURE_CRITICAL)
            eqn:Htemp]];
    destruct (Severity_of_value (tk_severity t)) as [severity |]; try done;
    eexists; (split; [reflexivity |]); simpl;
    (repeat split; try done; try lra).
Qed.

Lemma recommendation_rules_witness :
  ∃ r, generate_recommendation AgentScenario.fresh_critical
         {[ AgentScenario.node_N := AgentScenario.reading (Fin 0.9) (Fin 99) (Fin 85) ]}
         AgentScenario.now AgentScenario.no_tickets = Ret r
       ∧ mr_recommended_action r = "Replace cutting tool immediately"
       ∧ mr_urgency_hours r = 24%Z.
Proof.
  destruct (recommendation_rules AgentScenario.fresh_critical
              {[ AgentScenario.node_N
                 := AgentScenario.reading (Fin 0.9) (Fin 99) (Fin 85) ]}
              AgentScenario.now AgentScenario.no_tickets
              (AgentScenario.reading (Fin 0.9) (Fin 99) (Fin 85))
              ltac:(simpl; by rewrite lookup_singleton_eq))
    as (r & Hr & _ & Hurgency & _ & _ & Htool & _).
  exists r. split; [exact Hr |]. split; [| exact Hurgency].
  apply Htool. simpl. destruct (Rle_dec _ _); [done | lra].
Defined.

End AgentMore.
